(** * Falcon paper-trading ledger and strategy performance engine

    A shallow embedding of the ledger code of the Falcon trading platform:

    - [BackfillPnl]            scripts/backfill_pnl.py (FIFO realized P&L)
    - [AccountBalanceUpdater]  account_balance_updater.py (reconciliation)
    - [StopLossMonitor]        stop_loss_monitor.py (position monitor)
    - [PaperTrader]            paper_trade_one_candle.py (place_order)
    - [StrategyAnalytics]      strategy_analytics.py (metrics and triggers)
    - [DbManager]              db_manager.py and the schema migrations

    Numbers.  SQLite REAL columns and Python floats are read as exact
    rationals ([Q]); the results below are statements about the algorithms,
    not about binary64 rounding.  Comparisons on [Q] are the boolean ones of
    the source ([<], [<=], [>]); equality of computed amounts is [Qeq]. *)

From Stdlib Require Import QArith Qabs ZArith List String Ascii Bool Lia Lqa.
From Stdlib Require Import Permutation.
From stdpp Require Import gmap strings.
Import ListNotations.

Local Open Scope Q_scope.

(** ** Shared numeric helpers *)

(** Python's [x < y] on numbers. *)
Definition Qltb (x y : Q) : bool := negb (Qle_bool y x).

(** Python's [str.upper] on ASCII text. *)
Definition upper_ascii (c : ascii) : ascii :=
  let n := nat_of_ascii c in
  if (97 <=? n)%nat && (n <=? 122)%nat then ascii_of_nat (n - 32) else c.

Fixpoint upper (s : string) : string :=
  match s with
  | EmptyString => EmptyString
  | String c s' => String (upper_ascii c) (upper s')
  end.

(** ** scripts/backfill_pnl.py *)

Module BackfillPnl.

(** A row of the [orders] table, with the columns the script selects.
    [pnl = None] is SQL NULL. *)
Record order := mk_order {
  id : Z;
  symbol : string;
  side : string;
  quantity : Q;
  price : Q;
  timestamp : string;
  pnl : option Q
}.

(** An entry of the per-symbol queue [positions[symbol]]. *)
Record lot := mk_lot {
  lot_price : Q;
  lot_quantity : Q;
  lot_timestamp : string
}.

(** An entry of the [updates] list. *)
Record update := mk_update {
  u_id : Z;
  u_symbol : string;
  old_pnl : Q;
  new_pnl : Q;
  u_timestamp : string
}.

(** The WARNING line printed for a sell that ran out of lots. *)
Record warning := mk_warning {
  w_symbol : string;
  w_quantity : Q;
  w_price : Q;
  w_unmatched : Q
}.

(** The variables of the main loop. *)
Record state := mk_state {
  positions : gmap string (list lot);
  updates : list update;
  total_pnl : Q;
  warnings : list warning
}.

(** [positions[symbol]] read on a [defaultdict(list)]. *)
Definition lots_of (ps : gmap string (list lot)) (sym : string) : list lot :=
  default [] (ps !! sym).

(** [ORDER BY timestamp ASC]: a stable sort of the table (rows in rowid
    order) on the TEXT timestamp, compared bytewise. *)
Fixpoint insert_by_timestamp (o : order) (sorted : list order) : list order :=
  match sorted with
  | [] => [o]
  | x :: rest =>
      if String.leb (timestamp o) (timestamp x) then o :: x :: rest
      else x :: insert_by_timestamp o rest
  end.

Definition fetch_orders (table : list order) : list order :=
  fold_right insert_by_timestamp [] table.

(** [oldest['quantity'] -= remaining_qty] *)
Definition shrink (oldest : lot) (remaining_qty : Q) : lot :=
  mk_lot (lot_price oldest) (lot_quantity oldest - remaining_qty)
         (lot_timestamp oldest).

(** The [while remaining_qty > 0 and positions[symbol]] loop of a SELL.
    Every iteration either pops the head of the queue or sets
    [remaining_qty] to 0 (which ends the loop), so the recursion is on the
    queue.  Returns [(calculated_pnl, remaining_qty, queue)]. *)
Fixpoint match_lots (price remaining_qty calculated_pnl : Q)
    (lots : list lot) : Q * Q * list lot :=
  match lots with
  | [] => (calculated_pnl, remaining_qty, [])
  | oldest :: rest =>
      if Qltb 0 remaining_qty then
        let entry_price := lot_price oldest in
        if Qle_bool (lot_quantity oldest) remaining_qty then
          let lot_qty := lot_quantity oldest in
          let lot_pnl := (price - entry_price) * lot_qty in
          match_lots price (remaining_qty - lot_qty)
                     (calculated_pnl + lot_pnl) rest
        else
          let lot_pnl := (price - entry_price) * remaining_qty in
          (calculated_pnl + lot_pnl, 0, shrink oldest remaining_qty :: rest)
      else (calculated_pnl, remaining_qty, lots)
  end.

(** [order['pnl'] or 0.0] *)
Definition current_pnl_of (o : order) : Q :=
  match pnl o with
  | Some p => if Qeq_bool p 0 then 0 else p
  | None => 0
  end.

(** One iteration of [for order in orders]. *)
Definition process_order (st : state) (o : order) : state :=
  let sd := upper (side o) in
  if String.eqb sd "BUY" then
    mk_state
      (<[symbol o :=
           lots_of (positions st) (symbol o)
             ++ [mk_lot (price o) (quantity o) (timestamp o)]]> (positions st))
      (updates st) (total_pnl st) (warnings st)
  else if String.eqb sd "SELL" then
    let '(calculated_pnl, remaining_qty, lots') :=
      match_lots (price o) (quantity o) 0 (lots_of (positions st) (symbol o)) in
    (* the queue is looked up (and created when missing) only when the
       first conjunct of the loop test holds *)
    let positions' :=
      if Qltb 0 (quantity o) then <[symbol o := lots']> (positions st)
      else positions st in
    let warnings' :=
      if Qltb 0 remaining_qty then
        warnings st ++ [mk_warning (symbol o) (quantity o) (price o) remaining_qty]
      else warnings st in
    let current_pnl := current_pnl_of o in
    if Qltb (1 # 1000) (Qabs (calculated_pnl - current_pnl)) then
      mk_state positions'
        (updates st
           ++ [mk_update (id o) (symbol o) current_pnl calculated_pnl (timestamp o)])
        (total_pnl st + calculated_pnl) warnings'
    else mk_state positions' (updates st) (total_pnl st) warnings'
  else st.

Definition initial_state : state := mk_state ∅ [] 0 [].

(** The loop over the fetched orders. *)
Definition scan (orders : list order) : state :=
  fold_left process_order orders initial_state.

(** [UPDATE orders SET pnl = ? WHERE id = ?] *)
Definition set_pnl (o : order) (p : Q) : order :=
  mk_order (id o) (symbol o) (side o) (quantity o) (price o) (timestamp o) (Some p).

Definition apply_update (table : list order) (u : update) : list order :=
  map (fun o => if Z.eqb (id o) (u_id u) then set_pnl o (new_pnl u) else o) table.

(** [backfill_pnl(db_path, dry_run)]: the table after the call and the
    final loop variables (what the script prints). *)
Definition backfill_pnl (table : list order) (dry_run : bool)
    : list order * state :=
  let orders := fetch_orders table in
  let st := scan orders in
  match updates st with
  | [] => (table, st)
  | _ :: _ =>
      if dry_run then (table, st)
      else (fold_left apply_update (updates st) table, st)
  end.

End BackfillPnl.

(** ** account_balance_updater.py *)

Module AccountBalanceUpdater.

(** Values held by the dictionaries the module returns: Python numbers
    (int and float, read as rationals) and booleans. *)
Inductive pyval :=
| PyNum (x : Q)
| PyBool (b : bool).

(** A [dict] literal, in insertion order, and [d[k]]. *)
Fixpoint dict_get (d : list (string * pyval)) (k : string) : option pyval :=
  match d with
  | [] => None
  | (k', v) :: rest => if String.eqb k' k then Some v else dict_get rest k
  end.

(** Rows of [account] and [positions].  A nullable column holds [None] for
    SQL NULL. *)
Record account_row := mk_account {
  acc_id : Z;
  cash : Q;
  total_value : option Q;
  last_updated : string
}.

Record position_row := mk_position {
  symbol : string;
  quantity : Q;
  current_price : option Q
}.

(** The store behind [db_path]: the column names of the two tables (a
    statement naming a column that is not there raises
    [sqlite3.OperationalError]) and their rows. *)
Record database := mk_database {
  account_columns : list string;
  positions_columns : list string;
  account : list account_row;
  positions : list position_row
}.

(** What the module writes to its logger. *)
Inductive log_record :=
| Error_no_account
| Error_calculating
| Error_updating
| Error_checking
| Info_updated (total : Q)
| Warning_no_rows_updated
| Warning_discrepancy (discrepancy : Q) (discrepancy_pct : Q).

Definition has_columns (cols needed : list string) : bool :=
  forallb (fun c => existsb (String.eqb c) cols) needed.

(** [... FROM account WHERE id = 1] followed by [fetchone()]. *)
Definition account_1 (db : database) : option account_row :=
  find (fun r => Z.eqb (acc_id r) 1) (account db).

(** The loop [total_position_value += pos['quantity'] * pos['current_price']];
    [None] when a NULL price makes the product raise [TypeError]. *)
Fixpoint sum_positions (total_position_value : Q) (ps : list position_row)
    : option Q :=
  match ps with
  | [] => Some total_position_value
  | pos :: rest =>
      match current_price pos with
      | None => None
      | Some p => sum_positions (total_position_value + quantity pos * p) rest
      end
  end.

Definition calculate_account_balance (db : database)
    : option (list (string * pyval)) * list log_record :=
  if negb (has_columns (account_columns db) ["cash"; "id"]) then
    (None, [Error_calculating])
  else
    match account_1 db with
    | None => (None, [Error_no_account])
    | Some acct =>
        if negb (has_columns (positions_columns db)
                   ["symbol"; "quantity"; "current_price"]) then
          (None, [Error_calculating])
        else
          match sum_positions 0 (positions db) with
          | None => (None, [Error_calculating])
          | Some total_position_value =>
              let total := cash acct + total_position_value in
              (Some [ ("cash", PyNum (cash acct));
                      ("positions_value", PyNum total_position_value);
                      ("total_value", PyNum total);
                      ("num_positions",
                       PyNum (inject_Z (Z.of_nat (length (positions db))))) ],
               [])
          end
    end.

(** [UPDATE account SET total_value = ?, last_updated = ? WHERE id = 1] *)
Definition set_total (total : Q) (now : string) (rows : list account_row)
    : list account_row :=
  map (fun r => if Z.eqb (acc_id r) 1
                then mk_account (acc_id r) (cash r) (Some total) now
                else r) rows.

(** [update_account_balance(db_path)]; [now] is [datetime.now().isoformat()].
    Returns the balance (or [None]), the store afterwards and the log. *)
Definition update_account_balance (db : database) (now : string)
    : option (list (string * pyval)) * database * list log_record :=
  match calculate_account_balance db with
  | (None, log) => (None, db, log)
  | (Some balance, log) =>
      match dict_get balance "total_value" with
      | Some (PyNum total) =>
          if has_columns (account_columns db) ["total_value"; "last_updated"; "id"]
          then
            let rows := set_total total now (account db) in
            let rows_affected :=
              length (List.filter (fun r => Z.eqb (acc_id r) 1) (account db)) in
            (Some balance,
             mk_database (account_columns db) (positions_columns db)
                         rows (positions db),
             log ++ [if (0 <? rows_affected)%nat then Info_updated total
                     else Warning_no_rows_updated])
          else (None, db, log ++ [Error_updating])
      | _ => (None, db, log ++ [Error_updating])
      end
  end.

(** [check_balance_discrepancy(db_path, threshold)] *)
Definition check_balance_discrepancy (db : database) (threshold : Q)
    : option (list (string * pyval)) * list log_record :=
  match calculate_account_balance db with
  | (None, log) => (None, log)
  | (Some balance, log) =>
      if negb (has_columns (account_columns db) ["total_value"; "id"]) then
        (None, log ++ [Error_checking])
      else
        match account_1 db, dict_get balance "total_value" with
        | Some acct, Some (PyNum calculated) =>
            match total_value acct with
            | None => (None, log ++ [Error_checking])
            | Some stored_total =>
                let discrepancy := calculated - stored_total in
                let discrepancy_pct :=
                  if Qltb 0 stored_total
                  then discrepancy / stored_total * 100 else 0 in
                let has_issue := Qltb threshold (Qabs discrepancy) in
                (Some [ ("calculated_total", PyNum calculated);
                        ("stored_total", PyNum stored_total);
                        ("discrepancy", PyNum discrepancy);
                        ("discrepancy_pct", PyNum discrepancy_pct);
                        ("has_issue", PyBool has_issue) ],
                 log ++ (if has_issue
                         then [Warning_discrepancy discrepancy discrepancy_pct]
                         else []))
            end
        | _, _ => (None, log ++ [Error_checking])
        end
  end.

End AccountBalanceUpdater.

(** ** stop_loss_monitor.py *)

Module StopLossMonitor.

(** A row of [positions] as selected by the monitor; [stop_loss] is
    nullable. *)
Record position_row := mk_row {
  row_symbol : string;
  row_quantity : Q;
  row_entry_price : Q;
  row_stop_loss : option Q
}.

(** An entry of the list [get_positions_with_stop_loss] returns. *)
Record position := mk_position {
  symbol : string;
  quantity : Q;
  entry_price : Q;
  stop_loss : Q
}.

(** What an HTTP request comes back with: an exception (timeout, refused
    connection, bad JSON) or a status code and a decoded body. *)
Inductive http_result (A : Type) :=
| Http_exception
| Http_response (status_code : Z) (body : A).
Arguments Http_exception {A}.
Arguments Http_response {A} status_code body.

(** An element of the JSON list served by [GET /api/positions]. *)
Record api_position := mk_api_position {
  api_symbol : string;
  currentPrice : option Q
}.

(** The JSON body of [POST /api/order]. *)
Record order_data := mk_order_data {
  od_symbol : string;
  od_side : string;
  od_quantity : Z;
  od_order_type : string
}.

(** The API during one pass of the monitor.  Each symbol is checked once per
    pass (it is the primary key of [positions]), so the answers are indexed
    by the symbol whose check issues the request. *)
Record api := mk_api {
  get_positions : string -> http_result (list api_position);
  post_order : order_data -> http_result unit
}.

(** What one pass does that can be observed from outside. *)
Inductive event :=
| Alert (sym : string) (current_price stop : Q)
| Post_order (o : order_data)
| Triggered_exit (sym : string) (sold current_price stop entry pnl pnl_pct : Q)
| Sell_failed (sym : string).

(** [int(x)] on a number: truncation toward zero. *)
Definition int_of (x : Q) : Z := Z.quot (Qnum x) (Zpos (Qden x)).

(** [WHERE stop_loss IS NOT NULL AND stop_loss > 0] *)
Fixpoint get_positions_with_stop_loss (rows : list position_row)
    : list position :=
  match rows with
  | [] => []
  | row :: rest =>
      match row_stop_loss row with
      | Some sl =>
          if Qltb 0 sl then
            mk_position (row_symbol row) (row_quantity row)
                        (row_entry_price row) sl
            :: get_positions_with_stop_loss rest
          else get_positions_with_stop_loss rest
      | None => get_positions_with_stop_loss rest
      end
  end.

Definition get_current_price (a : api) (sym : string) : option Q :=
  match get_positions a sym with
  | Http_response 200 positions =>
      match find (fun pos => String.eqb (api_symbol pos) sym) positions with
      | Some pos => currentPrice pos
      | None => None
      end
  | _ => None
  end.

(** The order the monitor submits for a position. *)
Definition sell_order (sym : string) (qty : Q) : order_data :=
  mk_order_data sym "sell" (int_of qty) "market".

(** [execute_stop_loss_sell]: the return value and the events.  The
    percentage divides by [entry_price]; the [ZeroDivisionError] is caught by
    the function's own [except]. *)
Definition execute_stop_loss_sell (a : api) (sym : string)
    (qty current_price stop entry : Q) : bool * list event :=
  let order := sell_order sym qty in
  match post_order a order with
  | Http_response 200 _ =>
      let pnl := (current_price - entry) * qty in
      if Qeq_bool entry 0 then (false, [Post_order order; Sell_failed sym])
      else
        let pnl_pct := (current_price - entry) / entry * 100 in
        (true,
         [Post_order order;
          Triggered_exit sym qty current_price stop entry pnl pnl_pct])
  | _ => (false, [Post_order order; Sell_failed sym])
  end.

(** The loop of [check_stop_losses]. *)
Fixpoint check_positions (a : api) (positions : list position) : list event :=
  match positions with
  | [] => []
  | position :: rest =>
      match get_current_price a (symbol position) with
      | None => check_positions a rest
      | Some current_price =>
          if Qle_bool current_price (stop_loss position) then
            Alert (symbol position) current_price (stop_loss position)
            :: snd (execute_stop_loss_sell a (symbol position)
                      (quantity position) current_price
                      (stop_loss position) (entry_price position))
            ++ check_positions a rest
          else check_positions a rest
      end
  end.

Definition check_stop_losses (a : api) (rows : list position_row) : list event :=
  check_positions a (get_positions_with_stop_loss rows).

End StopLossMonitor.

(** ** paper_trade_one_candle.py: [OneCandlePaperTrader.place_order] *)

Module PaperTrader.

(** Rows as the statements of [place_order] write them.  The numbers a
    store holds are floats: the columns are REAL in every table definition
    of the repository. *)
Record order_row := mk_order {
  o_symbol : string;
  order_type : string;
  o_quantity : Q;
  o_price : Q;
  status : string;
  o_timestamp : string
}.

Record position_row := mk_position {
  quantity : Q;
  entry_price : Q;
  last_updated : string
}.

Record account_row := mk_account {
  cash : Q;
  acc_last_updated : string
}.

(** What the trader's connection sees: the order history, the positions by
    symbol (the primary key) and the account rows. *)
Record database := mk_database {
  orders : list order_row;
  positions : gmap string position_row;
  account : list account_row
}.

(** A column of a table of the store: its name, and whether an INSERT has
    to give it a value (it is NOT NULL and has no DEFAULT). *)
Record column := mk_column {
  col_name : string;
  col_required : bool
}.

(** The columns of the three tables behind the connection; a table that
    does not exist has none.  The trader runs no DDL, so they are the same
    before and after a call. *)
Record tables := mk_tables {
  orders_columns : list column;
  positions_columns : list column;
  account_columns : list column
}.

(** A number handed to [place_order]: a Python [int] or a [float]. *)
Inductive number :=
| Int (z : Z)
| Float (x : Q).

Definition value_of (n : number) : Q :=
  match n with
  | Int z => inject_Z z
  | Float x => x
  end.

(** [sqlite3] binds an [int] only when it fits in 64 bits, and any float. *)
Definition binds (n : number) : bool :=
  match n with
  | Int z => (- 2 ^ 63 <=? z)%Z && (z <? 2 ^ 63)%Z
  | Float _ => true
  end.

(** The exceptions that leave the methods of the trader. *)
Inductive exception :=
| OperationalError
| IntegrityError
| OverflowError
| IndexError
| ZeroDivisionError
| TypeError.

(** The lines printed by [place_order]. *)
Inductive printed :=
| Printed_buy (qty price : Q) (reason : string)
| Printed_sell (qty price : Q) (reason : string) (pnl pnl_pct : Q).

(** How a call ends: it commits, or an exception leaves through the caller
    with the transaction still open on the connection. *)
Inductive outcome :=
| Committed (db : database) (out : list printed)
| Raised (e : exception) (uncommitted : database).

Definition has_column (cols : list column) (name : string) : bool :=
  existsb (fun c => String.eqb (col_name c) name) cols.

(** Every column a statement names exists: the statement compiles. *)
Definition has_columns (cols : list column) (names : list string) : bool :=
  forallb (has_column cols) names.

(** An INSERT naming [names] gives a value to every column that needs
    one. *)
Definition gives_required (cols : list column) (names : list string) : bool :=
  forallb (fun c => negb (col_required c)
                    || existsb (String.eqb (col_name c)) names) cols.

(** [float(result[0]) if result else 10000.0] on the rows of [account]. *)
Definition cash_of (db : database) : Q :=
  match account db with
  | row :: _ => cash row
  | [] => 10000
  end.

(** [get_account_balance]: [SELECT cash FROM account LIMIT 1]; [None] when
    the statement raises [sqlite3.OperationalError]. *)
Definition get_account_balance (t : tables) (db : database) : option Q :=
  if has_column (account_columns t) "cash" then Some (cash_of db) else None.

(** [UPDATE account SET cash = ?, last_updated = ?] (no WHERE clause). *)
Definition set_cash (new_cash : Q) (now : string) (rows : list account_row)
    : list account_row :=
  map (fun _ => mk_account new_cash now) rows.

(** [place_order(side, quantity, price, reason)] on the store with the
    tables [t]; [now] is [datetime.now().isoformat()].  A statement naming
    a column the table does not have raises [sqlite3.OperationalError], an
    INSERT leaving out a required column raises [sqlite3.IntegrityError], an
    [int] too large to bind raises [OverflowError], and reading a missing
    column of the fetched row raises [IndexError]. *)
Definition place_order (t : tables) (ticker : string) (db : database)
    (side : string) (qty price : number) (reason now : string)
    : outcome :=
  let order_type := if String.eqb side "BUY" then "buy" else "sell" in
  let q := value_of qty in
  let p := value_of price in
  let order_columns :=
    ["symbol"; "order_type"; "quantity"; "price"; "status"; "timestamp"] in
  if negb (has_columns (orders_columns t) order_columns) then
    Raised OperationalError db
  else if negb (binds qty && binds price) then Raised OverflowError db
  else if negb (gives_required (orders_columns t) order_columns) then
    Raised IntegrityError db
  else
    let orders' :=
      orders db
      ++ [mk_order ticker order_type q p "filled" now] in
    let written := mk_database orders' (positions db) (account db) in
    (* SELECT * FROM positions WHERE symbol = ? *)
    if negb (has_column (positions_columns t) "symbol") then
      Raised OperationalError written
    else if String.eqb side "BUY" then
      match positions db !! ticker with
      | Some pos =>
          if negb (has_columns (positions_columns t)
                     ["quantity"; "entry_price"]) then
            Raised IndexError written
          else
            let new_qty := quantity pos + q in
            if Qeq_bool new_qty 0 then Raised ZeroDivisionError written
            else
              let new_avg :=
                (quantity pos * entry_price pos
                 + q * p) / new_qty in
              if negb (has_column (positions_columns t) "last_updated") then
                Raised OperationalError written
              else
                let positions' :=
                  <[ticker := mk_position new_qty new_avg now]>
                    (positions db) in
                let updated := mk_database orders' positions' (account db) in
                match get_account_balance t updated with
                | None => Raised OperationalError updated
                | Some cash =>
                    let new_cash := cash - q * p in
                    if negb (has_column (account_columns t) "last_updated")
                    then Raised OperationalError updated
                    else
                      Committed
                        (mk_database orders' positions'
                           (set_cash new_cash now (account db)))
                        [Printed_buy q p reason]
                end
      | None =>
          let position_columns :=
            ["symbol"; "quantity"; "entry_price"; "last_updated"] in
          if negb (has_columns (positions_columns t) position_columns) then
            Raised OperationalError written
          else if negb (gives_required (positions_columns t)
                          position_columns) then
            Raised IntegrityError written
          else
            let positions' :=
              <[ticker := mk_position q p now]> (positions db) in
            let updated := mk_database orders' positions' (account db) in
            match get_account_balance t updated with
            | None => Raised OperationalError updated
            | Some cash =>
                let new_cash := cash - q * p in
                if negb (has_column (account_columns t) "last_updated")
                then Raised OperationalError updated
                else
                  Committed
                    (mk_database orders' positions'
                       (set_cash new_cash now (account db)))
                    [Printed_buy q p reason]
            end
      end
    else
      match positions db !! ticker with
      | Some pos =>
          if negb (has_column (positions_columns t) "quantity") then
            Raised IndexError written
          else
            let new_qty := quantity pos - q in
            if negb (Qle_bool new_qty 0)
               && negb (has_column (positions_columns t) "last_updated") then
              Raised OperationalError written
            else
              let positions' :=
                if Qle_bool new_qty 0 then delete ticker (positions db)
                else <[ticker := mk_position new_qty (entry_price pos) now]>
                       (positions db) in
              let updated := mk_database orders' positions' (account db) in
              match get_account_balance t updated with
              | None => Raised OperationalError updated
              | Some cash =>
                  if negb (has_column (positions_columns t) "entry_price")
                  then Raised IndexError updated
                  else
                    let pnl := (p - entry_price pos) * q in
                    let new_cash := cash + q * p in
                    if negb (has_column (account_columns t) "last_updated")
                    then Raised OperationalError updated
                    else
                      let db' :=
                        mk_database orders' positions'
                          (set_cash new_cash now (account db)) in
                      (* the P&L line divides by the entry price and by the
                         quantity *)
                      if Qeq_bool (entry_price pos) 0 || Qeq_bool q 0 then
                        Raised ZeroDivisionError db'
                      else
                        Committed db'
                          [Printed_sell q p reason pnl
                             (pnl / entry_price pos / q * 100)]
              end
      | None => Committed written []
      end.

End PaperTrader.

(** ** paper_trade_one_candle.py: the entry and exit signals *)

Module PaperTraderSignals.

(** A 1-minute bar as [get_latest_bar] returns it: the prices are floats
    ([float(bar['c'])]) and the volume an int. *)
Record bar := mk_bar {
  bar_timestamp : string;
  open : Q;
  high : Q;
  low : Q;
  close : Q;
  volume : Z
}.

(** The strategy parameters set in [__init__]. *)
Definition lookback_period : nat := 20.
Definition breakout_threshold : Q := 1 # 1000.
Definition retest_tolerance : Q := 3 # 1000.
Definition risk_reward_ratio : Q := 2.
Definition position_size_pct : Q := 20 # 100.
Definition stop_loss_pct : Q := 2 # 100.

(** The attributes of the trader that the signals read and write.
    [self_bars] is the deque, oldest bar first; [self_position] is the row
    [run] fetched with [get_current_position] before calling a signal. *)
Record trader := mk_trader {
  self_bars : list bar;
  self_swing_highs : list Q;
  self_breakout_level : option Q;
  self_waiting_for_retest : bool;
  self_position : option PaperTrader.position_row;
  self_entry_price : option Q;
  self_stop_price : option Q;
  self_target_price : option Q
}.

(** How a signal check ends: it returns, or an exception leaves through the
    caller with the store as the connection sees it. *)
Inductive signal_outcome :=
| Returned (result : bool) (self : trader) (db : PaperTrader.database)
           (out : list PaperTrader.printed)
| Signal_raised (e : PaperTrader.exception) (self : trader)
                (uncommitted : PaperTrader.database).

(** [l[-n:]] for a positive [n]. *)
Definition last_n {A : Type} (n : nat) (l : list A) : list A :=
  skipn (length l - n) l.

(** The test of the loop of [identify_swing_levels] at index [i]. *)
Definition is_swing_high (highs : list Q) (i : nat) : bool :=
  Qltb (nth (i - 1) highs 0) (nth i highs 0)
  && Qltb (nth (i - 2) highs 0) (nth i highs 0)
  && Qltb (nth (i + 1) highs 0) (nth i highs 0)
  && Qltb (nth (i + 2) highs 0) (nth i highs 0).

Definition identify_swing_levels (self : trader) : trader :=
  if (length (self_bars self) <? lookback_period)%nat then self
  else
    let recent_bars := last_n lookback_period (self_bars self) in
    let highs := map high recent_bars in
    let found :=
      map (fun i => nth i highs 0)
          (List.filter (is_swing_high highs) (seq 2 (length highs - 2 - 2))) in
    mk_trader (self_bars self) (last_n 10 found) (self_breakout_level self)
              (self_waiting_for_retest self) (self_position self)
              (self_entry_price self) (self_stop_price self)
              (self_target_price self).

(** [max(self.swing_highs)] on a non-empty list. *)
Definition max_of (first : Q) (rest : list Q) : Q :=
  fold_left (fun m x => if Qltb m x then x else m) rest first.

Definition detect_breakout (self : trader) (current_bar : bar) : bool * trader :=
  match self_swing_highs self with
  | [] => (false, self)
  | first :: rest =>
      if self_waiting_for_retest self then (false, self)
      else
        let resistance := max_of first rest in
        let breakout_price := resistance * (1 + breakout_threshold) in
        if Qltb breakout_price (close current_bar) then
          (true,
           mk_trader (self_bars self) (self_swing_highs self) (Some resistance)
                     true (self_position self) (self_entry_price self)
                     (self_stop_price self) (self_target_price self))
        else (false, self)
  end.

Definition detect_retest (self : trader) (current_bar : bar) : bool :=
  if negb (self_waiting_for_retest self) then false
  else
    match self_breakout_level self with
    | None => false
    | Some level =>
        if Qeq_bool level 0 then false
        else
          let retest_upper := level * (1 + retest_tolerance) in
          let retest_lower := level * (1 - retest_tolerance) in
          Qle_bool retest_lower (low current_bar)
          && Qle_bool (low current_bar) retest_upper
    end.

Section Trader.

(** The tables of the store behind [self.conn]; [self.ticker]; and the clock
    and formatting the signals use. *)
Variable store_tables : PaperTrader.tables.
Variable ticker : string.
Variable now : string.
Variable entry_reason : Q -> Q -> string.

Definition check_entry_signal (self : trader) (db : PaperTrader.database)
    (current_bar : bar) : signal_outcome :=
  match self_position self with
  | Some _ => Returned false self db []
  | None =>
      let self := identify_swing_levels self in
      let self := snd (detect_breakout self current_bar) in
      if detect_retest self current_bar then
        let entry_price := close current_bar in
        let stop_distance := entry_price * stop_loss_pct in
        let stop_price := entry_price - stop_distance in
        let target_price := entry_price + stop_distance * risk_reward_ratio in
        match PaperTrader.get_account_balance store_tables db with
        | None => Signal_raised PaperTrader.OperationalError self db
        | Some cash =>
            let position_value := cash * position_size_pct in
            if Qeq_bool entry_price 0 then
              Signal_raised PaperTrader.ZeroDivisionError self db
            else
              let quantity :=
                StopLossMonitor.int_of (position_value / entry_price) in
              if (0 <? quantity)%Z then
                match PaperTrader.place_order store_tables ticker db "BUY"
                        (PaperTrader.Int quantity)
                        (PaperTrader.Float entry_price)
                        (entry_reason stop_price target_price) now with
                | PaperTrader.Committed db' out =>
                    Returned true
                      (mk_trader (self_bars self) (self_swing_highs self)
                                 (self_breakout_level self) false
                                 (self_position self) (Some entry_price)
                                 (Some stop_price) (Some target_price))
                      db' out
                | PaperTrader.Raised e db' => Signal_raised e self db'
                end
              else Returned false self db []
        end
      else Returned false self db []
  end.

(** [get_current_position]: [SELECT symbol, quantity, entry_price FROM
    positions WHERE symbol = ? AND quantity > 0]; the outer [None] when the
    statement raises [sqlite3.OperationalError]. *)
Definition get_current_position (db : PaperTrader.database)
    : option (option PaperTrader.position_row) :=
  if negb (PaperTrader.has_columns (PaperTrader.positions_columns store_tables)
             ["symbol"; "quantity"; "entry_price"]) then None
  else
    Some match PaperTrader.positions db !! ticker with
         | Some pos =>
             if Qltb 0 (PaperTrader.quantity pos) then Some pos else None
         | None => None
         end.

(** The three exits of [check_exit_signal] share their tail. *)
Definition sell_all (self : trader) (db : PaperTrader.database)
    (pos : PaperTrader.position_row) (current_price : Q) (reason : string)
    : signal_outcome :=
  match PaperTrader.place_order store_tables ticker db "SELL"
          (PaperTrader.Float (PaperTrader.quantity pos))
          (PaperTrader.Float current_price) reason now with
  | PaperTrader.Committed db' out =>
      Returned true
        (mk_trader (self_bars self) (self_swing_highs self)
                   (self_breakout_level self) (self_waiting_for_retest self)
                   (self_position self) None None None)
        db' out
  | PaperTrader.Raised e db' => Signal_raised e self db'
  end.

(** [check_exit_signal]; [is_trading_hours] is what the clock says when it
    is asked.  Comparing the price with a stop or target that is [None]
    raises [TypeError]. *)
Definition check_exit_signal (self : trader) (db : PaperTrader.database)
    (current_bar : bar) (is_trading_hours : bool) : signal_outcome :=
  match get_current_position db with
  | None => Signal_raised PaperTrader.OperationalError self db
  | Some None => Returned false self db []
  | Some (Some pos) =>
      let current_price := close current_bar in
      match self_stop_price self with
      | None => Signal_raised PaperTrader.TypeError self db
      | Some stop_price =>
          if Qle_bool current_price stop_price then
            sell_all self db pos current_price "Stop Loss"
          else
            match self_target_price self with
            | None => Signal_raised PaperTrader.TypeError self db
            | Some target_price =>
                if Qle_bool target_price current_price then
                  sell_all self db pos current_price "Target Hit"
                else if negb is_trading_hours then
                  sell_all self db pos current_price "End of Trading Window"
                else Returned false self db []
            end
      end
  end.

End Trader.

End PaperTraderSignals.

(** ** strategy_analytics.py *)

Module StrategyAnalytics.

(** A row of [strategy_trades]. *)
Record trade := mk_trade {
  trade_symbol : string;
  trade_timestamp : string;
  pnl : Q
}.

(** A row of [strategy_performance]. *)
Record performance := mk_performance {
  total_trades : Z;
  winning_trades : Z;
  losing_trades : Z;
  consecutive_losses : Z;
  total_pnl : Q;
  win_rate : Q;
  profit_factor : Q;
  max_drawdown : Q;
  current_drawdown : Q;
  roi_pct : Q
}.

(** The list [cumulative_pnl]. *)
Fixpoint cumulative (running_total : Q) (trades : list trade) : list Q :=
  match trades with
  | [] => []
  | t :: rest =>
      let running_total := running_total + pnl t in
      running_total :: cumulative running_total rest
  end.

(** Python's [max(a, b)]: the first argument unless the second is larger. *)
Definition py_max (a b : Q) : Q := if Qltb a b then b else a.

(** [(peak - pnl) / abs(peak) if peak != 0 else 0] *)
Definition drawdown_from (peak value : Q) : Q :=
  if Qeq_bool peak 0 then 0 else (peak - value) / Qabs peak.

(** One iteration of [for pnl in cumulative_pnl], on [(max_drawdown, peak)]. *)
Definition drawdown_step (st : Q * Q) (value : Q) : Q * Q :=
  let '(max_dd, peak) := st in
  let peak := if Qltb peak value then value else peak in
  let drawdown := drawdown_from peak value in
  (py_max max_dd drawdown, peak).

(** [_calculate_drawdown]: [(max_drawdown, current_drawdown)]. *)
Definition _calculate_drawdown (trades : list trade) : Q * Q :=
  match cumulative 0 trades with
  | [] => (0, 0)
  | first :: rest =>
      let max_dd := fst (fold_left drawdown_step (first :: rest) (0, first)) in
      let current_peak := fold_left py_max rest first in
      let current_pnl := List.last rest first in
      (max_dd, drawdown_from current_peak current_pnl)
  end.

Section Formatting.

(** The two float formats of the reason strings, [:.1%] and [:.2f]. *)
Variable format_percent : Q -> string.
Variable format_2f : Q -> string.

(** [check_optimization_triggers], on the row [_get_performance] found (or
    [None]). *)
Definition check_optimization_triggers (perf : option performance)
    : bool * string :=
  match perf with
  | None => (false, "")
  | Some perf =>
      if (5 <=? consecutive_losses perf)%Z then
        (true, "5 consecutive losses")
      else if (20 <=? total_trades perf)%Z && Qltb (win_rate perf) (2 # 5) then
        (true, "Win rate " ++ format_percent (win_rate perf) ++ " below 40%")
      else if Qltb (3 # 20) (current_drawdown perf) then
        (true, "Drawdown " ++ format_percent (current_drawdown perf)
               ++ " above 15%")
      else if (20 <=? total_trades perf)%Z && Qltb (total_pnl perf) 0 then
        (true, "Negative P&L: $" ++ format_2f (total_pnl perf))
      else (false, "")
  end%string.

End Formatting.

End StrategyAnalytics.

(** ** db_manager.py *)

Module DbManager.

Inductive db_type := sqlite | postgresql.

(** A [CREATE TABLE] statement: the column definitions (name, declaration)
    in order, and the table constraints. *)
Record table := mk_table {
  columns : list (string * string);
  constraints : list string
}.

(** The schema of a store: its tables by name and the names of its indexes. *)
Record schema := mk_schema {
  tables : gmap string table;
  indexes : list string
}.

Definition empty_store : schema := mk_schema ∅ [].

Definition column_names (t : table) : list string := map fst (columns t).

(** The columns of table [name]; none when the table does not exist. *)
Definition columns_of (s : schema) (name : string) : list string :=
  match tables s !! name with
  | Some t => column_names t
  | None => []
  end.

(** [CREATE TABLE IF NOT EXISTS name (...)], where the store accepts the
    statement: nothing happens when the table exists.  The runs in which a
    statement raises are those of [DbManagerSqlite] below. *)
Definition create_table (name : string) (t : table) (s : schema) : schema :=
  match tables s !! name with
  | Some _ => s
  | None => mk_schema (<[name := t]> (tables s)) (indexes s)
  end.

(** [CREATE INDEX IF NOT EXISTS name ON ...], where the store accepts the
    statement (the indexed columns exist): nothing happens when the index
    exists. *)
Definition create_index (name : string) (s : schema) : schema :=
  if existsb (String.eqb name) (indexes s) then s
  else mk_schema (tables s) (indexes s ++ [name]).

(** [account_sql]: the [account] table. *)
Definition account_sql (t : db_type) : table :=
  match t with
  | sqlite =>
      mk_table
      [ ("id", "INTEGER PRIMARY KEY");
        ("cash", "REAL NOT NULL");
        ("last_updated", "TEXT NOT NULL") ]
      []
  | postgresql =>
      mk_table
      [ ("id", "SERIAL PRIMARY KEY");
        ("cash", "DECIMAL(15,2) NOT NULL");
        ("last_updated", "TIMESTAMP NOT NULL") ]
      []
  end.

(** [positions_sql]: the [positions] table. *)
Definition positions_sql (t : db_type) : table :=
  match t with
  | sqlite =>
      mk_table
      [ ("symbol", "TEXT PRIMARY KEY");
        ("quantity", "REAL NOT NULL");
        ("entry_price", "REAL NOT NULL");
        ("entry_date", "TEXT NOT NULL");
        ("last_updated", "TEXT NOT NULL") ]
      []
  | postgresql =>
      mk_table
      [ ("symbol", "VARCHAR(20) PRIMARY KEY");
        ("quantity", "DECIMAL(15,4) NOT NULL");
        ("entry_price", "DECIMAL(15,2) NOT NULL");
        ("entry_date", "TIMESTAMP NOT NULL");
        ("last_updated", "TIMESTAMP NOT NULL") ]
      []
  end.

(** [orders_sql]: the [orders] table. *)
Definition orders_sql (t : db_type) : table :=
  match t with
  | sqlite =>
      mk_table
      [ ("id", "INTEGER PRIMARY KEY AUTOINCREMENT");
        ("symbol", "TEXT NOT NULL");
        ("side", "TEXT NOT NULL");
        ("quantity", "REAL NOT NULL");
        ("price", "REAL NOT NULL");
        ("timestamp", "TEXT NOT NULL");
        ("pnl", "REAL DEFAULT 0") ]
      []
  | postgresql =>
      mk_table
      [ ("id", "SERIAL PRIMARY KEY");
        ("symbol", "VARCHAR(20) NOT NULL");
        ("side", "VARCHAR(10) NOT NULL");
        ("quantity", "DECIMAL(15,4) NOT NULL");
        ("price", "DECIMAL(15,2) NOT NULL");
        ("timestamp", "TIMESTAMP NOT NULL");
        ("pnl", "DECIMAL(15,2) DEFAULT 0") ]
      []
  end.

(** [performance_sql]: the [performance] table. *)
Definition performance_sql (t : db_type) : table :=
  match t with
  | sqlite =>
      mk_table
      [ ("timestamp", "TEXT PRIMARY KEY");
        ("total_value", "REAL NOT NULL");
        ("cash", "REAL NOT NULL");
        ("positions_value", "REAL NOT NULL") ]
      []
  | postgresql =>
      mk_table
      [ ("timestamp", "TIMESTAMP PRIMARY KEY");
        ("total_value", "DECIMAL(15,2) NOT NULL");
        ("cash", "DECIMAL(15,2) NOT NULL");
        ("positions_value", "DECIMAL(15,2) NOT NULL") ]
      []
  end.

(** [strategies_sql]: the [youtube_strategies] table. *)
Definition strategies_sql (t : db_type) : table :=
  match t with
  | sqlite =>
      mk_table
      [ ("id", "INTEGER PRIMARY KEY AUTOINCREMENT");
        ("title", "TEXT NOT NULL");
        ("creator", "TEXT NOT NULL");
        ("youtube_url", "TEXT UNIQUE NOT NULL");
        ("video_id", "TEXT NOT NULL");
        ("description", "TEXT");
        ("strategy_overview", "TEXT");
        ("trading_style", "TEXT");
        ("instruments", "TEXT");
        ("entry_rules", "TEXT");
        ("exit_rules", "TEXT");
        ("risk_management", "TEXT");
        ("strategy_code", "TEXT");
        ("tags", "TEXT");
        ("performance_metrics", "TEXT");
        ("pros", "TEXT");
        ("cons", "TEXT");
        ("created_at", "TEXT NOT NULL");
        ("updated_at", "TEXT NOT NULL") ]
      []
  | postgresql =>
      mk_table
      [ ("id", "SERIAL PRIMARY KEY");
        ("title", "VARCHAR(500) NOT NULL");
        ("creator", "VARCHAR(200) NOT NULL");
        ("youtube_url", "VARCHAR(500) UNIQUE NOT NULL");
        ("video_id", "VARCHAR(20) NOT NULL");
        ("description", "TEXT");
        ("strategy_overview", "TEXT");
        ("trading_style", "VARCHAR(100)");
        ("instruments", "TEXT");
        ("entry_rules", "TEXT");
        ("exit_rules", "TEXT");
        ("risk_management", "TEXT");
        ("strategy_code", "TEXT");
        ("tags", "TEXT");
        ("performance_metrics", "TEXT");
        ("pros", "TEXT");
        ("cons", "TEXT");
        ("created_at", "TIMESTAMP NOT NULL");
        ("updated_at", "TIMESTAMP NOT NULL") ]
      []
  end.

(** [backtests_sql]: the [strategy_backtests] table. *)
Definition backtests_sql (t : db_type) : table :=
  match t with
  | sqlite =>
      mk_table
      [ ("id", "INTEGER PRIMARY KEY AUTOINCREMENT");
        ("strategy_id", "INTEGER NOT NULL");
        ("ticker", "TEXT NOT NULL");
        ("start_date", "TEXT");
        ("end_date", "TEXT");
        ("total_return", "REAL");
        ("sharpe_ratio", "REAL");
        ("max_drawdown", "REAL");
        ("win_rate", "REAL");
        ("total_trades", "INTEGER");
        ("backtest_data", "TEXT");
        ("created_at", "TEXT NOT NULL") ]
      ["FOREIGN KEY (strategy_id) REFERENCES youtube_strategies(id)"]
  | postgresql =>
      mk_table
      [ ("id", "SERIAL PRIMARY KEY");
        ("strategy_id", "INTEGER NOT NULL");
        ("ticker", "VARCHAR(20) NOT NULL");
        ("start_date", "DATE");
        ("end_date", "DATE");
        ("total_return", "DECIMAL(10,4)");
        ("sharpe_ratio", "DECIMAL(10,4)");
        ("max_drawdown", "DECIMAL(10,4)");
        ("win_rate", "DECIMAL(5,4)");
        ("total_trades", "INTEGER");
        ("backtest_data", "TEXT");
        ("created_at", "TIMESTAMP NOT NULL") ]
      ["FOREIGN KEY (strategy_id) REFERENCES youtube_strategies(id) ON DELETE CASCADE"]
  end.

(** [profiles_sql]: the [screener_profiles] table. *)
Definition profiles_sql (t : db_type) : table :=
  match t with
  | sqlite =>
      mk_table
      [ ("id", "INTEGER PRIMARY KEY AUTOINCREMENT");
        ("name", "TEXT UNIQUE NOT NULL");
        ("description", "TEXT");
        ("theme", "TEXT NOT NULL");
        ("finviz_url", "TEXT");
        ("finviz_filters", "TEXT");
        ("sector_focus", "TEXT");
        ("schedule", "TEXT");
        ("enabled", "INTEGER DEFAULT 1");
        ("weights", "TEXT");
        ("performance_score", "REAL DEFAULT 0.5");
        ("created_at", "TEXT NOT NULL");
        ("updated_at", "TEXT NOT NULL") ]
      []
  | postgresql =>
      mk_table
      [ ("id", "SERIAL PRIMARY KEY");
        ("name", "VARCHAR(100) UNIQUE NOT NULL");
        ("description", "TEXT");
        ("theme", "VARCHAR(50) NOT NULL");
        ("finviz_url", "TEXT");
        ("finviz_filters", "JSONB");
        ("sector_focus", "JSONB");
        ("schedule", "JSONB");
        ("enabled", "BOOLEAN DEFAULT TRUE");
        ("weights", "JSONB");
        ("performance_score", "DECIMAL(5,4) DEFAULT 0.5");
        ("created_at", "TIMESTAMP NOT NULL");
        ("updated_at", "TIMESTAMP NOT NULL") ]
      []
  end.

(** [runs_sql]: the [profile_runs] table. *)
Definition runs_sql (t : db_type) : table :=
  match t with
  | sqlite =>
      mk_table
      [ ("id", "INTEGER PRIMARY KEY AUTOINCREMENT");
        ("profile_id", "INTEGER NOT NULL");
        ("run_type", "TEXT NOT NULL");
        ("stocks_found", "INTEGER DEFAULT 0");
        ("recommendations_generated", "INTEGER DEFAULT 0");
        ("run_timestamp", "TEXT NOT NULL");
        ("ai_agent_used", "TEXT");
        ("run_data", "TEXT") ]
      ["FOREIGN KEY (profile_id) REFERENCES screener_profiles(id) ON DELETE CASCADE"]
  | postgresql =>
      mk_table
      [ ("id", "SERIAL PRIMARY KEY");
        ("profile_id", "INTEGER NOT NULL");
        ("run_type", "VARCHAR(20) NOT NULL");
        ("stocks_found", "INTEGER DEFAULT 0");
        ("recommendations_generated", "INTEGER DEFAULT 0");
        ("run_timestamp", "TIMESTAMP NOT NULL");
        ("ai_agent_used", "VARCHAR(50)");
        ("run_data", "JSONB") ]
      ["FOREIGN KEY (profile_id) REFERENCES screener_profiles(id) ON DELETE CASCADE"]
  end.

(** [screener_performance_sql]: the [profile_performance] table. *)
Definition screener_performance_sql (t : db_type) : table :=
  match t with
  | sqlite =>
      mk_table
      [ ("id", "INTEGER PRIMARY KEY AUTOINCREMENT");
        ("profile_id", "INTEGER NOT NULL");
        ("date", "TEXT NOT NULL");
        ("stocks_recommended", "INTEGER DEFAULT 0");
        ("stocks_profitable", "INTEGER DEFAULT 0");
        ("avg_return_pct", "REAL DEFAULT 0");
        ("attribution_breakdown", "TEXT");
        ("weight_adjustments", "TEXT");
        ("calculated_at", "TEXT NOT NULL") ]
      ["FOREIGN KEY (profile_id) REFERENCES screener_profiles(id) ON DELETE CASCADE"; "UNIQUE(profile_id, date)"]
  | postgresql =>
      mk_table
      [ ("id", "SERIAL PRIMARY KEY");
        ("profile_id", "INTEGER NOT NULL");
        ("date", "DATE NOT NULL");
        ("stocks_recommended", "INTEGER DEFAULT 0");
        ("stocks_profitable", "INTEGER DEFAULT 0");
        ("avg_return_pct", "DECIMAL(10,4) DEFAULT 0");
        ("attribution_breakdown", "JSONB");
        ("weight_adjustments", "JSONB");
        ("calculated_at", "TIMESTAMP NOT NULL") ]
      ["FOREIGN KEY (profile_id) REFERENCES screener_profiles(id) ON DELETE CASCADE"; "UNIQUE(profile_id, date)"]
  end.


(** [_create_trading_tables]: the four statements, in execution order. *)
Definition _create_trading_tables (t : db_type) (s : schema) : schema :=
  create_table "performance" (performance_sql t)
    (create_table "orders" (orders_sql t)
       (create_table "positions" (positions_sql t)
          (create_table "account" (account_sql t) s))).

Definition _create_youtube_strategy_tables (t : db_type) (s : schema) : schema :=
  create_table "strategy_backtests" (backtests_sql t)
    (create_table "youtube_strategies" (strategies_sql t) s).

Definition _create_screener_tables (t : db_type) (s : schema) : schema :=
  create_index "idx_profile_performance_profile_date"
    (create_index "idx_profile_runs_profile_id"
       (create_table "profile_performance" (screener_performance_sql t)
          (create_table "profile_runs" (runs_sql t)
             (create_table "screener_profiles" (profiles_sql t) s)))).

(** [init_schema]: the schema after a call in which every statement was
    accepted, as on an empty store and on a store built from these tables. *)
Definition init_schema (t : db_type) (s : schema) : schema :=
  _create_screener_tables t
    (_create_youtube_strategy_tables t (_create_trading_tables t s)).

End DbManager.

(** ** db_manager.py: [init_schema] statement by statement, on SQLite *)

Module DbManagerSqlite.
Import DbManager.

(** The statements [init_schema] executes. *)
Inductive statement :=
| Create_table (name : string) (definition : table)
| Create_index (name on_table : string) (indexed : list string).

(** [self.execute(sql)] for one of them on SQLite; [None] when the statement
    raises [sqlite3.OperationalError].  [CREATE TABLE IF NOT EXISTS] does
    nothing when the table exists and is refused when an index bears the
    name; the foreign keys of a new table are not checked.
    [CREATE INDEX IF NOT EXISTS] needs its table, is refused when a table
    bears the name of the index, does nothing when the index exists, and
    otherwise needs the indexed columns. *)
Definition execute_statement (st : statement) (s : schema) : option schema :=
  match st with
  | Create_table name definition =>
      match tables s !! name with
      | Some _ => Some s
      | None =>
          if existsb (String.eqb name) (indexes s) then None
          else Some (mk_schema (<[name := definition]> (tables s)) (indexes s))
      end
  | Create_index name on_table indexed =>
      match tables s !! on_table with
      | None => None
      | Some tb =>
          match tables s !! name with
          | Some _ => None
          | None =>
              if existsb (String.eqb name) (indexes s) then Some s
              else if forallb (fun c => existsb (String.eqb c) (column_names tb))
                              indexed
              then Some (mk_schema (tables s) (indexes s ++ [name]))
              else None
          end
      end
  end.

(** The statements of [_create_trading_tables],
    [_create_youtube_strategy_tables] and [_create_screener_tables], in the
    order [init_schema] executes them. *)
Definition init_schema_statements : list statement :=
  [ Create_table "account" (account_sql sqlite);
    Create_table "positions" (positions_sql sqlite);
    Create_table "orders" (orders_sql sqlite);
    Create_table "performance" (performance_sql sqlite);
    Create_table "youtube_strategies" (strategies_sql sqlite);
    Create_table "strategy_backtests" (backtests_sql sqlite);
    Create_table "screener_profiles" (profiles_sql sqlite);
    Create_table "profile_runs" (runs_sql sqlite);
    Create_table "profile_performance" (screener_performance_sql sqlite);
    Create_index "idx_profile_runs_profile_id" "profile_runs" ["profile_id"];
    Create_index "idx_profile_performance_profile_date" "profile_performance"
      ["profile_id"; "date"] ].

(** The statements run in order until one raises; each [execute] commits,
    so what was created before stays. *)
Fixpoint run_statements (sts : list statement) (s : schema) : bool * schema :=
  match sts with
  | [] => (true, s)
  | st :: rest =>
      match execute_statement st s with
      | Some s' => run_statements rest s'
      | None => (false, s)
      end
  end.

(** [init_schema] on the SQLite backend: whether it returned, and the schema
    of the store afterwards. *)
Definition run_init_schema (s : schema) : bool * schema :=
  run_statements init_schema_statements s.

End DbManagerSqlite.

(** ** migrate_orchestrator_db.py *)

Module MigrateOrchestratorDb.
Import DbManager.

(** [ALTER TABLE tbl ADD COLUMN col decl] on SQLite. *)
Inductive alter_outcome :=
| Altered (s : schema)
| Duplicate_column
| No_such_table.

Definition add_column (tbl col decl : string) (s : schema) : alter_outcome :=
  match tables s !! tbl with
  | None => No_such_table
  | Some t =>
      if existsb (String.eqb col) (column_names t) then Duplicate_column
      else Altered (mk_schema
                      (<[tbl := mk_table (columns t ++ [(col, decl)])
                                         (constraints t)]> (tables s))
                      (indexes s))
  end.

(** The [try: ALTER ... except sqlite3.OperationalError] blocks: a duplicate
    column is skipped, any other error is raised again. *)
Definition add_or_skip (tbl col decl : string) (s : schema) : option schema :=
  match add_column tbl col decl s with
  | Altered s' => Some s'
  | Duplicate_column => Some s
  | No_such_table => None
  end.

(** An [UPDATE] of rows: on the schema it only needs its columns. *)
Definition update_rows (tbl : string) (cols : list string) (s : schema)
    : option schema :=
  if forallb (fun c => existsb (String.eqb c) (columns_of s tbl)) cols
  then Some s else None.

(** The statements of [migrate_database], in order. *)
Definition migration_steps : list (schema -> option schema) :=
  [ add_or_skip "orders" "strategy" "TEXT";
    add_or_skip "orders" "reason" "TEXT";
    add_or_skip "account" "total_value" "REAL DEFAULT 0";
    add_or_skip "positions" "current_price" "REAL DEFAULT 0";
    update_rows "positions" ["current_price"; "entry_price"];
    update_rows "account" ["total_value"; "cash"];
    add_or_skip "positions" "strategy" "TEXT";
    add_or_skip "positions" "classification" "TEXT";
    add_or_skip "positions" "profit_target" "REAL DEFAULT 0" ].

(** The statements run in order until one raises. *)
Fixpoint run_steps (steps : list (schema -> option schema)) (s : schema)
    : bool * schema :=
  match steps with
  | [] => (true, s)
  | step :: rest =>
      match step s with
      | Some s' => run_steps rest s'
      | None => (false, s)
      end
  end.

(** [migrate_database]: the success flag and the schema afterwards.  The
    ALTER statements that precede the first UPDATE run outside a
    transaction, so when a statement raises, the [rollback] of the handler
    does not take back the columns added so far; once the UPDATEs went
    through, the positions table exists and no later ALTER can raise. *)
Definition migrate_database (s : schema) : bool * schema :=
  run_steps migration_steps s.

End MigrateOrchestratorDb.

(** ** migrate_to_postgres.py (schema phase) *)

Module MigrateToPostgres.
Import DbManager.

(** [ALTER TABLE tbl ADD COLUMN IF NOT EXISTS col decl]; an error (the table
    is missing) is printed and the loop goes on. *)
Definition add_column_if_not_exists (s : schema) (stmt : string * string * string)
    : schema :=
  let '(tbl, col, decl) := stmt in
  match tables s !! tbl with
  | None => s
  | Some t =>
      if existsb (String.eqb col) (column_names t) then s
      else mk_schema
             (<[tbl := mk_table (columns t ++ [(col, decl)]) (constraints t)]>
                (tables s))
             (indexes s)
  end.

Definition alter_statements : list (string * string * string) :=
  [ ("account", "total_value", "DECIMAL(15,2) DEFAULT 0");
    ("orders", "strategy", "TEXT");
    ("orders", "reason", "TEXT");
    ("positions", "current_price", "DECIMAL(15,2) DEFAULT 0");
    ("positions", "strategy", "TEXT");
    ("positions", "classification", "TEXT");
    ("positions", "profit_target", "DECIMAL(15,2) DEFAULT 0");
    ("positions", "stop_loss", "DECIMAL(15,2)") ].

Definition index_names : list string :=
  [ "idx_orders_timestamp"; "idx_orders_symbol"; "idx_orders_strategy";
    "idx_positions_symbol" ].

(** [create_postgres_schema], on a store where [init_schema] returns and
    the indexed columns exist (a store built from the repository's tables):
    [init_schema] is called outside any [try], and an ALTER or CREATE INDEX
    that fails is printed and skipped. *)
Definition create_postgres_schema (s : schema) : schema :=
  let s1 := init_schema postgresql s in
  let s2 := fold_left add_column_if_not_exists alter_statements s1 in
  fold_left (fun s i => create_index i s) index_names s2.

End MigrateToPostgres.

(** ** db_manager.py: [execute] and [init_account] *)

Module DbManagerExecute.
Import DbManager.

(** [query.replace('%s', '?')] *)
Fixpoint replace_placeholders (query : string) : string :=
  match query with
  | EmptyString => EmptyString
  | String "%" (String "s" rest) => String "?" (replace_placeholders rest)
  | String c rest => String c (replace_placeholders rest)
  end.

(** The statement [execute] hands to the driver. *)
Definition prepare (t : db_type) (query : string) : string :=
  match t with
  | sqlite => replace_placeholders query
  | postgresql => query
  end.

(** [init_account(initial_balance)] on the SQLite backend, on the rows of
    [account]; [timestamp] is the current time.  [None] stands for the
    [sqlite3.OperationalError] of an INSERT naming a column the table does
    not have.  The row is inserted with id, cash and last_updated only: a
    [total_value] column, where the store has one, takes its declared
    default, which is 0 in every statement of the repository that adds the
    column. *)
Definition init_account (db : AccountBalanceUpdater.database)
    (initial_balance : Q) (timestamp : string)
    : option AccountBalanceUpdater.database :=
  let count_value := length (AccountBalanceUpdater.account db) in
  if (count_value =? 0)%nat then
    if AccountBalanceUpdater.has_columns
         (AccountBalanceUpdater.account_columns db)
         ["id"; "cash"; "last_updated"]
    then
      Some (AccountBalanceUpdater.mk_database
              (AccountBalanceUpdater.account_columns db)
              (AccountBalanceUpdater.positions_columns db)
              (AccountBalanceUpdater.account db
                 ++ [AccountBalanceUpdater.mk_account 1 initial_balance
                       (if existsb (String.eqb "total_value")
                                   (AccountBalanceUpdater.account_columns db)
                        then Some 0 else None)
                       timestamp])
              (AccountBalanceUpdater.positions db))
    else None
  else Some db.

End DbManagerExecute.

(** ** strategy_analytics.py: the metrics and [update_strategy_performance] *)

Module StrategyPerformance.
Import StrategyAnalytics.

(** Python's [sum] of numbers. *)
Definition py_sum (xs : list Q) : Q := fold_left Qplus xs 0.

(** The loop of [_calculate_consecutive_losses], on [reversed(trades)]. *)
Fixpoint count_losses (consecutive : Z) (reversed : list trade) : Z :=
  match reversed with
  | [] => consecutive
  | trade :: rest =>
      if Qltb (pnl trade) 0 then count_losses (consecutive + 1) rest
      else consecutive
  end.

Definition _calculate_consecutive_losses (trades : list trade) : Z :=
  count_losses 0 (rev trades).

Definition _calculate_profit_factor (trades : list trade) : Q :=
  let gross_profit :=
    py_sum (map pnl (List.filter (fun t => Qltb 0 (pnl t)) trades)) in
  let gross_loss :=
    Qabs (py_sum (map pnl (List.filter (fun t => Qltb (pnl t) 0) trades))) in
  if Qeq_bool gross_loss 0 then
    if Qltb 0 gross_profit then gross_profit else 0
  else gross_profit / gross_loss.

Definition _calculate_roi (trades : list trade) (initial_allocation : Q) : Q :=
  let total_pnl := py_sum (map pnl trades) in
  if Qltb 0 initial_allocation then total_pnl / initial_allocation * 100
  else 0.

(** The three tables the class works on: the rows of [strategy_trades] with
    their [strategy_id], in rowid order; [strategy_performance], whose
    [strategy_id] is UNIQUE, with the row's [last_updated]; and the
    [performance_weight] of each row of [active_strategies], by id. *)
Record analytics_db := mk_analytics_db {
  strategy_trades : list (Z * trade);
  strategy_performance : gmap Z (performance * string);
  active_strategies : gmap Z Q
}.

(** [ORDER BY timestamp ASC]: a stable sort on the TEXT timestamp, compared
    bytewise. *)
Fixpoint insert_by_timestamp (t : trade) (sorted : list trade) : list trade :=
  match sorted with
  | [] => [t]
  | x :: rest =>
      if String.leb (trade_timestamp t) (trade_timestamp x) then t :: x :: rest
      else x :: insert_by_timestamp t rest
  end.

Definition _get_strategy_trades (db : analytics_db) (strategy_id : Z)
    : list trade :=
  fold_right insert_by_timestamp []
    (map snd (List.filter (fun row => Z.eqb (fst row) strategy_id)
                          (strategy_trades db))).

Definition _get_performance (db : analytics_db) (strategy_id : Z)
    : option performance :=
  match strategy_performance db !! strategy_id with
  | Some row => Some (fst row)
  | None => None
  end.

(** [UPDATE active_strategies SET performance_weight = ? WHERE id = ?] *)
Definition _update_performance_weight (weights : gmap Z Q) (strategy_id : Z)
    (win_rate : Q) : gmap Z Q :=
  match weights !! strategy_id with
  | Some _ => <[strategy_id := win_rate]> weights
  | None => weights
  end.

(** [update_strategy_performance(strategy_id)]; [now] is
    [datetime.now().isoformat()].  The UPDATE of an existing row and the
    INSERT of a new one write the same eleven values. *)
Definition update_strategy_performance (db : analytics_db) (strategy_id : Z)
    (now : string) : analytics_db :=
  let trades := _get_strategy_trades db strategy_id in
  match trades with
  | [] => db
  | _ :: _ =>
      let total_trades := Z.of_nat (length trades) in
      let winning_trades :=
        Z.of_nat (length (List.filter (fun t => Qltb 0 (pnl t)) trades)) in
      let losing_trades :=
        Z.of_nat (length (List.filter (fun t => Qltb (pnl t) 0) trades)) in
      let consecutive_losses := _calculate_consecutive_losses trades in
      let total_pnl := py_sum (map pnl trades) in
      let win_rate :=
        if (0 <? total_trades)%Z
        then inject_Z winning_trades / inject_Z total_trades else 0 in
      let profit_factor := _calculate_profit_factor trades in
      let '(max_drawdown, current_drawdown) := _calculate_drawdown trades in
      let roi_pct := _calculate_roi trades 10000 in
      mk_analytics_db
        (strategy_trades db)
        (<[strategy_id :=
             (mk_performance total_trades winning_trades losing_trades
                consecutive_losses total_pnl win_rate profit_factor
                max_drawdown current_drawdown roi_pct,
              now)]> (strategy_performance db))
        (_update_performance_weight (active_strategies db) strategy_id win_rate)
  end.

End StrategyPerformance.

(** ** check_pnl.py *)

Module CheckPnl.

(** A row of [positions] as [get_open_positions] selects it; the nullable
    columns hold [None] for SQL NULL. *)
Record position_row := mk_row {
  row_symbol : string;
  row_quantity : Q;
  row_entry_price : Q;
  row_stop_loss : option Q;
  row_profit_target : option Q;
  row_strategy : option string;
  row_classification : option string;
  row_entry_date : string
}.

Record position := mk_position {
  symbol : string;
  quantity : Q;
  entry_price : Q;
  stop_loss : Q;
  profit_target : Q;
  strategy : string;
  classification : string;
  entry_date : string
}.

(** [x if x else 0] on a nullable number. *)
Definition or_zero (x : option Q) : Q :=
  match x with
  | Some v => if Qeq_bool v 0 then 0 else v
  | None => 0
  end.

(** [x if x else d] on a nullable text. *)
Definition or_text (x : option string) (d : string) : string :=
  match x with
  | Some EmptyString => d
  | Some s => s
  | None => d
  end.

(** The body of the loop of [get_open_positions]. *)
Definition open_position (row : position_row) : position :=
  mk_position (row_symbol row) (row_quantity row) (row_entry_price row)
    (or_zero (row_stop_loss row)) (or_zero (row_profit_target row))
    (or_text (row_strategy row) "unknown")
    (or_text (row_classification row) "N/A")
    (row_entry_date row).

(** [get_open_positions], on the rows the SELECT returns, in its order. *)
Definition get_open_positions (rows : list position_row) : list position :=
  map open_position rows.

(** The dictionary [calculate_pnl] returns. *)
Record pnl_report := mk_report {
  r_symbol : string;
  r_strategy : string;
  r_classification : string;
  r_quantity : Q;
  r_entry_price : Q;
  r_current_price : Q;
  invested : Q;
  current_value : Q;
  pnl_dollars : Q;
  pnl_percent : Q;
  r_stop_loss : Q;
  r_profit_target : Q;
  at_stop_loss : bool;
  at_profit_target : bool;
  r_entry_date : string
}.

Definition calculate_pnl (position : position) (current_price : Q)
    : pnl_report :=
  let qty := quantity position in
  let entry := entry_price position in
  let invested := qty * entry in
  let current_value := qty * current_price in
  let pnl_dollars := current_value - invested in
  let pnl_percent :=
    if Qltb 0 invested then pnl_dollars / invested * 100 else 0 in
  let stop_loss := stop_loss position in
  let profit_target := profit_target position in
  let at_stop := Qltb 0 stop_loss && Qle_bool current_price stop_loss in
  let at_target :=
    Qltb 0 profit_target && Qle_bool profit_target current_price in
  mk_report (symbol position) (strategy position) (classification position)
    qty entry current_price invested current_value pnl_dollars pnl_percent
    stop_loss profit_target at_stop at_target (entry_date position).

End CheckPnl.

(** ** The tables of a store as the paper trader sees them *)

Module PaperTraderStore.

(** Whether the text [needle] occurs in [text]. *)
Fixpoint occurs (needle text : string) : bool :=
  String.prefix needle text
  || match text with
     | String _ rest => occurs needle rest
     | EmptyString => false
     end.

(** A column definition of a [CREATE TABLE] or [ALTER TABLE] statement on
    SQLite: an INSERT has to give the column a value when it is declared
    NOT NULL without a DEFAULT (an [INTEGER PRIMARY KEY] takes the rowid and
    is declared without NOT NULL in the repository). *)
Definition column_of (definition : string * string) : PaperTrader.column :=
  PaperTrader.mk_column (fst definition)
    (occurs "NOT NULL" (snd definition)
     && negb (occurs "DEFAULT" (snd definition))).

Definition columns_of_table (s : DbManager.schema) (name : string)
    : list PaperTrader.column :=
  match DbManager.tables s !! name with
  | Some t => map column_of (DbManager.columns t)
  | None => []
  end.

(** The tables the trader works on, in a store with the schema [s]. *)
Definition tables_of (s : DbManager.schema) : PaperTrader.tables :=
  PaperTrader.mk_tables (columns_of_table s "orders")
    (columns_of_table s "positions") (columns_of_table s "account").

End PaperTraderStore.

(** * Properties *)

(** ** Boolean comparisons on rationals *)

Lemma Qltb_true (x y : Q) : Qltb x y = true <-> x < y.
Proof.
  unfold Qltb. rewrite negb_true_iff. split.
  - intros H. apply Qnot_le_lt. intros Hle.
    apply Qle_bool_iff in Hle. congruence.
  - intros H. destruct (Qle_bool y x) eqn:E; [|reflexivity].
    apply Qle_bool_iff in E. lra.
Qed.

Lemma Qltb_false (x y : Q) : Qltb x y = false <-> y <= x.
Proof.
  unfold Qltb. rewrite negb_false_iff. apply Qle_bool_iff.
Qed.

Lemma Qle_bool_false (x y : Q) : Qle_bool x y = false <-> y < x.
Proof.
  split.
  - intros H. apply Qnot_le_lt. intros Hle.
    apply Qle_bool_iff in Hle. congruence.
  - intros H. destruct (Qle_bool x y) eqn:E; [|reflexivity].
    apply Qle_bool_iff in E. lra.
Qed.

(** ** FIFO realized P&L (scripts/backfill_pnl.py) *)

Module BackfillPnlFacts.
Import BackfillPnl.

(** Total cost and total quantity of a queue of lots. *)
Definition cost (lots : list lot) : Q :=
  fold_right (fun l acc => lot_price l * lot_quantity l + acc) 0 lots.

Definition total_quantity (lots : list lot) : Q :=
  fold_right (fun l acc => lot_quantity l + acc) 0 lots.

(** The three histories of the test suite. *)
Definition spy_history : list order :=
  [ mk_order 1 "SPY" "buy" 50 400 "2024-01-01" (Some 0);
    mk_order 2 "SPY" "buy" 50 410 "2024-01-02" (Some 0);
    mk_order 3 "SPY" "sell" 100 430 "2024-01-10" (Some 0) ].

Definition msft_history : list order :=
  [ mk_order 1 "MSFT" "buy" 100 300 "2024-01-01" (Some 0);
    mk_order 2 "MSFT" "sell" 30 320 "2024-01-05" (Some 0);
    mk_order 3 "MSFT" "sell" 40 310 "2024-01-10" (Some 0) ].

Lemma match_lots_full (P rem acc : Q) (oldest : lot) (rest : list lot) :
  0 < rem -> lot_quantity oldest <= rem ->
  match_lots P rem acc (oldest :: rest)
  = match_lots P (rem - lot_quantity oldest)
      (acc + (P - lot_price oldest) * lot_quantity oldest) rest.
Proof.
  intros Hrem Hle. cbn [match_lots].
  apply Qltb_true in Hrem. rewrite Hrem.
  apply Qle_bool_iff in Hle. now rewrite Hle.
Qed.

Lemma match_lots_partial (P rem acc : Q) (oldest : lot) (rest : list lot) :
  0 < rem -> rem < lot_quantity oldest ->
  match_lots P rem acc (oldest :: rest)
  = (acc + (P - lot_price oldest) * rem, 0, shrink oldest rem :: rest).
Proof.
  intros Hrem Hlt. cbn [match_lots].
  apply Qltb_true in Hrem. rewrite Hrem.
  apply Qle_bool_false in Hlt. now rewrite Hlt.
Qed.

Lemma match_lots_done (P rem acc : Q) (lots : list lot) :
  rem <= 0 -> match_lots P rem acc lots = (acc, rem, lots).
Proof.
  intros Hrem. destruct lots as [|oldest rest]; [reflexivity|].
  cbn [match_lots]. apply Qltb_false in Hrem. now rewrite Hrem.
Qed.

(** Bookkeeping of one sell: what is realized is the proceeds of the matched
    quantity minus the cost taken out of the queue, and the queue loses
    exactly the matched quantity. *)
Lemma match_lots_accounting (P : Q) (lots : list lot) :
  forall rem acc,
    let r := match_lots P rem acc lots in
    fst (fst r) - acc == P * (rem - snd (fst r)) - (cost lots - cost (snd r))
    /\ total_quantity (snd r) == total_quantity lots - (rem - snd (fst r)).
Proof.
  induction lots as [|oldest rest IH]; intros rem acc.
  - cbn. split; ring.
  - cbn [match_lots].
    destruct (Qltb 0 rem) eqn:Hpos.
    + destruct (Qle_bool (lot_quantity oldest) rem) eqn:Hle.
      * specialize (IH (rem - lot_quantity oldest)
                       (acc + (P - lot_price oldest) * lot_quantity oldest)).
        cbv zeta in IH. destruct IH as [IH1 IH2]. cbv zeta.
        set (r := match_lots P (rem - lot_quantity oldest)
                    (acc + (P - lot_price oldest) * lot_quantity oldest) rest) in *.
        split.
        -- cbn [cost fold_right]. fold (cost rest).
           assert (E : fst (fst r) - acc ==
                       (fst (fst r) - (acc + (P - lot_price oldest) * lot_quantity oldest))
                       + (P - lot_price oldest) * lot_quantity oldest) by ring.
           rewrite E, IH1. ring.
        -- cbn [total_quantity fold_right]. fold (total_quantity rest).
           rewrite IH2. ring.
      * cbv zeta. cbn [fst snd cost total_quantity fold_right shrink lot_price lot_quantity].
        fold (cost rest). fold (total_quantity rest). split; ring.
    + cbv zeta. cbn [fst snd]. split; ring.
Qed.

(** The queue after a sell is a suffix of the queue before it, with at most
    its head shrunk: lots are taken from the front only. *)
Lemma match_lots_suffix (P : Q) (lots : list lot) :
  forall rem acc,
    exists front, 
      (lots = front ++ snd (match_lots P rem acc lots)) \/
      (exists oldest back r,
          lots = front ++ oldest :: back
          /\ snd (match_lots P rem acc lots) = shrink oldest r :: back).
Proof.
  induction lots as [|oldest rest IH]; intros rem acc.
  - exists []. now left.
  - cbn [match_lots].
    destruct (Qltb 0 rem) eqn:Hpos.
    + destruct (Qle_bool (lot_quantity oldest) rem) eqn:Hle.
      * destruct (IH (rem - lot_quantity oldest)
                     (acc + (P - lot_price oldest) * lot_quantity oldest))
          as [front [H | (o & back & r & H1 & H2)]].
        -- exists (oldest :: front). left. cbn. now f_equal.
        -- exists (oldest :: front). right. exists o, back, r.
           split; [cbn; now f_equal | exact H2].
      * exists []. right. exists oldest, rest, rem. now split.
    + exists []. now left.
Qed.

(** What one order does to the queue of its own symbol. *)
Definition queue_after (lots : list lot) (o : order) : list lot :=
  if String.eqb (upper (side o)) "BUY" then
    lots ++ [mk_lot (price o) (quantity o) (timestamp o)]
  else if String.eqb (upper (side o)) "SELL" then
    snd (match_lots (price o) (quantity o) 0 lots)
  else lots.

(** The orders of one symbol, in the order of the history. *)
Definition history_of (sym : string) (os : list order) : list order :=
  List.filter (fun o => String.eqb (symbol o) sym) os.

Lemma process_order_queue (st : state) (o : order) :
  lots_of (positions (process_order st o)) (symbol o)
  = queue_after (lots_of (positions st) (symbol o)) o.
Proof.
  unfold process_order, queue_after.
  destruct (String.eqb (upper (side o)) "BUY").
  { cbn [positions]. unfold lots_of at 1. now rewrite lookup_insert_eq. }
  destruct (String.eqb (upper (side o)) "SELL"); [|reflexivity].
  destruct (match_lots (price o) (quantity o) 0
              (lots_of (positions st) (symbol o))) as [[calc rem] lots'] eqn:E.
  cbn [snd].
  assert (H : lots_of (if Qltb 0 (quantity o)
                       then <[symbol o := lots']> (positions st)
                       else positions st) (symbol o) = lots').
  { destruct (Qltb 0 (quantity o)) eqn:Hq.
    - unfold lots_of. now rewrite lookup_insert_eq.
    - apply Qltb_false in Hq.
      rewrite (match_lots_done _ _ _ _ Hq) in E. now injection E as _ _ <-. }
  now destruct (Qltb (1 # 1000) (Qabs (calc - current_pnl_of o))).
Qed.

Lemma process_order_other (st : state) (o : order) (sym : string) :
  sym <> symbol o ->
  lots_of (positions (process_order st o)) sym = lots_of (positions st) sym.
Proof.
  intros Hne. unfold process_order.
  destruct (String.eqb (upper (side o)) "BUY").
  { cbn [positions]. unfold lots_of. now rewrite lookup_insert_ne by congruence. }
  destruct (String.eqb (upper (side o)) "SELL"); [|reflexivity].
  destruct (match_lots (price o) (quantity o) 0
              (lots_of (positions st) (symbol o))) as [[calc rem] lots'].
  assert (H : lots_of (if Qltb 0 (quantity o)
                       then <[symbol o := lots']> (positions st)
                       else positions st) sym = lots_of (positions st) sym).
  { destruct (Qltb 0 (quantity o)); [|reflexivity].
    unfold lots_of. now rewrite lookup_insert_ne by congruence. }
  now destruct (Qltb (1 # 1000) (Qabs (calc - current_pnl_of o))).
Qed.

(** The queue of a symbol is decided by the orders of that symbol alone. *)
Lemma run_per_symbol (sym : string) (os : list order) :
  forall st1 st2,
    lots_of (positions st1) sym = lots_of (positions st2) sym ->
    lots_of (positions (fold_left process_order os st1)) sym
    = lots_of (positions (fold_left process_order (history_of sym os) st2)) sym.
Proof.
  induction os as [|o os IH]; intros st1 st2 H; cbn [fold_left history_of List.filter].
  - exact H.
  - fold (history_of sym os).
    destruct (String.eqb_spec (symbol o) sym) as [E | E].
    + cbn [fold_left]. apply IH. subst sym.
      now rewrite !process_order_queue, H.
    + apply IH. rewrite process_order_other by congruence. exact H.
Qed.

(** A history on which first-in-first-out and last-in-first-out matching
    differ: the sell takes the 400 lot, not the 410 one. *)
Definition spy_partial_history : list order :=
  [ mk_order 1 "SPY" "buy" 50 400 "2024-01-01" (Some 0);
    mk_order 2 "SPY" "buy" 50 410 "2024-01-02" (Some 0);
    mk_order 3 "SPY" "sell" 50 430 "2024-01-10" (Some 0) ].

(** C1. A sell of quantity Q at price P consumes the symbol's open lots
    oldest first: while quantity remains, a head lot no larger than the
    remaining quantity contributes (P - unit_cost) * lot.quantity and is
    removed; a larger head lot contributes (P - unit_cost) * remaining, is
    shrunk by that amount, and the matching stops.  In the loop a BUY order
    appends its lot at the back of the queue of its symbol, so the head of
    the queue is the oldest open lot, and proposes nothing.  A SELL order is
    matched against the queue of its own symbol, from the head: the queue
    it leaves is what the matching leaves, and the P&L it realizes (the
    value proposed for the order whenever it differs from the stored one by
    more than 0.001) is what the matching has accumulated from 0.  Either
    order leaves the other queues alone, so that the open lots of a symbol
    are those of the symbol's own history replayed in order.  On buy 50 at
    400, buy 50 at 410, sell 100 at 430 the sell realizes 2500; on buy 100
    at 300, sell 30 at 320, sell 40 at 310 the sells realize 600 and 400 and
    one lot of 30 at 300 stays open; and on buy 50 at 400, buy 50 at 410,
    sell 50 at 430 the sell realizes 1500 and the lot at 410 stays open. *)
Theorem fifo_sell_consumes_oldest_lots_first :
  (forall P rem acc oldest rest,
      0 < rem -> lot_quantity oldest <= rem ->
      match_lots P rem acc (oldest :: rest)
      = match_lots P (rem - lot_quantity oldest)
          (acc + (P - lot_price oldest) * lot_quantity oldest) rest)
  /\ (forall P rem acc oldest rest,
      0 < rem -> rem < lot_quantity oldest ->
      match_lots P rem acc (oldest :: rest)
      = (acc + (P - lot_price oldest) * rem, 0, shrink oldest rem :: rest))
  /\ (forall st o,
      upper (side o) = "SELL"%string ->
      lots_of (positions (process_order st o)) (symbol o)
      = snd (match_lots (price o) (quantity o) 0
               (lots_of (positions st) (symbol o)))
      /\ forall s, s <> symbol o ->
           lots_of (positions (process_order st o)) s = lots_of (positions st) s)
  /\ (forall st o,
      upper (side o) = "BUY"%string ->
      lots_of (positions (process_order st o)) (symbol o)
      = lots_of (positions st) (symbol o)
        ++ [mk_lot (price o) (quantity o) (timestamp o)]
      /\ (forall s, s <> symbol o ->
            lots_of (positions (process_order st o)) s
            = lots_of (positions st) s)
      /\ updates (process_order st o) = updates st)
  /\ (forall st o,
      upper (side o) = "SELL"%string ->
      let realized :=
        fst (fst (match_lots (price o) (quantity o) 0
                    (lots_of (positions st) (symbol o)))) in
      updates (process_order st o)
      = updates st
        ++ (if Qltb (1 # 1000) (Qabs (realized - current_pnl_of o))
            then [mk_update (id o) (symbol o) (current_pnl_of o) realized
                            (timestamp o)]
            else []))
  /\ (forall os s,
      lots_of (positions (scan os)) s
      = lots_of (positions (scan (history_of s os))) s)
  /\ map new_pnl (updates (scan (fetch_orders spy_history))) = [2500]
  /\ map new_pnl (updates (scan (fetch_orders msft_history))) = [600; 400]
  /\ lots_of (positions (scan (fetch_orders msft_history))) "MSFT"
     = [mk_lot 300 30 "2024-01-01"]
  /\ map new_pnl (updates (scan (fetch_orders spy_partial_history))) = [1500]
  /\ lots_of (positions (scan (fetch_orders spy_partial_history))) "SPY"
     = [mk_lot 410 50 "2024-01-02"].
Proof.
  split; [exact match_lots_full|].
  split; [exact match_lots_partial|].
  split; [|split; [|split; [|split]]].
  - intros st o Hside. split.
    + rewrite process_order_queue. unfold queue_after. rewrite Hside.
      reflexivity.
    + intros s Hs. now apply process_order_other.
  - intros st o Hside. split; [|split].
    + rewrite process_order_queue. unfold queue_after. rewrite Hside.
      reflexivity.
    + intros s Hs. now apply process_order_other.
    + unfold process_order. rewrite Hside. reflexivity.
  - intros st o Hside. cbv zeta. unfold process_order. rewrite Hside.
    change (String.eqb "SELL" "BUY") with false.
    change (String.eqb "SELL" "SELL") with true. cbv iota.
    destruct (match_lots (price o) (quantity o) 0
                (lots_of (positions st) (symbol o))) as [[calc rem] lots'].
    cbn [fst].
    destruct (Qltb (1 # 1000) (Qabs (calc - current_pnl_of o)));
      cbn [updates]; [reflexivity | now rewrite app_nil_r].
  - intros os s. unfold scan. now apply run_per_symbol.
  - repeat split; vm_compute; reflexivity.
Qed.

(** The two matching rules on the lots of the SPY and MSFT histories. *)
Lemma fifo_sell_consumes_oldest_lots_first_witness :
  match_lots 430 100 0 [mk_lot 400 50 "2024-01-01"; mk_lot 410 50 "2024-01-02"]
  = match_lots 430 (100 - 50) (0 + (430 - 400) * 50) [mk_lot 410 50 "2024-01-02"]
  /\ match_lots 310 40 600 [mk_lot 300 70 "2024-01-01"]
     = (600 + (310 - 300) * 40, 0, [shrink (mk_lot 300 70 "2024-01-01") 40]).
Proof.
  split.
  - apply (proj1 fifo_sell_consumes_oldest_lots_first 430 100 0
             (mk_lot 400 50 "2024-01-01") [mk_lot 410 50 "2024-01-02"]);
      cbn [lot_quantity]; lra.
  - apply (proj1 (proj2 fifo_sell_consumes_oldest_lots_first) 310 40 600
             (mk_lot 300 70 "2024-01-01") []);
      cbn [lot_quantity]; lra.
Defined.

(** *** Frame: only the [pnl] column is written *)

Definition forget_pnl (o : order) : order :=
  mk_order (id o) (symbol o) (side o) (quantity o) (price o) (timestamp o) None.

Lemma apply_update_forget (table : list order) (u : update) :
  map forget_pnl (apply_update table u) = map forget_pnl table.
Proof.
  unfold apply_update. rewrite map_map. apply map_ext.
  intros o. now destruct (Z.eqb (id o) (u_id u)).
Qed.

Lemma apply_updates_forget (us : list update) :
  forall table,
    map forget_pnl (fold_left apply_update us table) = map forget_pnl table.
Proof.
  induction us as [|u us IH]; intros table; [reflexivity|].
  cbn [fold_left]. now rewrite IH, apply_update_forget.
Qed.

Lemma backfill_table (table : list order) :
  fst (backfill_pnl table false)
  = fold_left apply_update (updates (scan (fetch_orders table))) table.
Proof.
  unfold backfill_pnl. now destruct (updates (scan (fetch_orders table))).
Qed.

Lemma backfill_dry_run (table : list order) :
  fst (backfill_pnl table true) = table.
Proof.
  unfold backfill_pnl. now destruct (updates (scan (fetch_orders table))).
Qed.

(** Whatever the mode, every column but [pnl] of every row is left as it
    was, and no row is added or removed. *)
Lemma backfill_pnl_frame (table : list order) (dry_run : bool) :
  map forget_pnl (fst (backfill_pnl table dry_run)) = map forget_pnl table.
Proof.
  destruct dry_run.
  - now rewrite backfill_dry_run.
  - rewrite backfill_table. apply apply_updates_forget.
Qed.

(** A sell whose recorded P&L (500) is not what FIFO matching gives (2000). *)
Definition recorded_history : list order :=
  [ mk_order 1 "AAPL" "buy" 100 300 "2024-01-01" (Some 0);
    mk_order 2 "AAPL" "sell" 100 320 "2024-01-05" (Some 500) ].

(** C5 (evaluation of the code).  The script's docstring restricts the
    backfill to sell orders whose pnl is 0 or NULL, but the loop proposes an
    update whenever the recomputed value differs from the stored one by more
    than 0.001: the recorded 500 of order 2 is overwritten with 2000. *)
Theorem backfill_overwrites_recorded_pnl :
  map pnl recorded_history = [Some 0; Some 500]
  /\ map new_pnl (updates (snd (backfill_pnl recorded_history false))) = [2000]
  /\ map pnl (fst (backfill_pnl recorded_history false)) = [Some 0; Some 2000].
Proof.
  repeat split; vm_compute; reflexivity.
Qed.

(** *** Replaying the history *)

(** What one loop iteration does to the queues and to the list of proposed
    updates depends on the queues only. *)
Definition queues_after (ps : gmap string (list lot)) (o : order)
    : gmap string (list lot) :=
  positions (process_order (mk_state ps [] 0 []) o).

Definition proposal (ps : gmap string (list lot)) (o : order) : list update :=
  updates (process_order (mk_state ps [] 0 []) o).

Fixpoint proposals (ps : gmap string (list lot)) (os : list order)
    : list update :=
  match os with
  | [] => []
  | o :: rest => proposal ps o ++ proposals (queues_after ps o) rest
  end.

(** The row as rewritten by its own proposal, if any. *)
Definition settle_order (ps : gmap string (list lot)) (o : order) : order :=
  match proposal ps o with
  | [] => o
  | u :: _ => set_pnl o (new_pnl u)
  end.

Fixpoint settle (ps : gmap string (list lot)) (os : list order) : list order :=
  match os with
  | [] => []
  | o :: rest => settle_order ps o :: settle (queues_after ps o) rest
  end.

Ltac case_side o :=
  destruct (String.eqb (upper (side o)) "BUY");
  [| destruct (String.eqb (upper (side o)) "SELL")].

Lemma process_order_positions (st : state) (o : order) :
  positions (process_order st o) = queues_after (positions st) o.
Proof.
  unfold queues_after, process_order. cbn [positions].
  case_side o; try reflexivity.
  destruct (match_lots _ _ _ _) as [[calc rem] lots'].
  now destruct (Qltb (1 # 1000) _).
Qed.

Lemma process_order_updates (st : state) (o : order) :
  updates (process_order st o) = updates st ++ proposal (positions st) o.
Proof.
  unfold proposal, process_order. cbn [positions updates].
  case_side o; cbn [updates]; try (now rewrite app_nil_r).
  destruct (match_lots _ _ _ _) as [[calc rem] lots'].
  destruct (Qltb (1 # 1000) _); cbn [updates]; [reflexivity|].
  now rewrite app_nil_r.
Qed.

Lemma run_updates (os : list order) :
  forall st,
    updates (fold_left process_order os st)
    = updates st ++ proposals (positions st) os.
Proof.
  induction os as [|o os IH]; intros st; cbn [fold_left proposals].
  - now rewrite app_nil_r.
  - rewrite IH, process_order_updates, process_order_positions.
    now rewrite <- app_assoc.
Qed.

Lemma scan_updates (os : list order) : updates (scan os) = proposals ∅ os.
Proof. unfold scan. now rewrite run_updates. Qed.

(** A proposal, when there is one, carries the id of its order. *)
Lemma proposal_id (ps : gmap string (list lot)) (o : order) (u : update) :
  In u (proposal ps o) -> u_id u = id o.
Proof.
  unfold proposal, process_order. cbn [positions updates].
  case_side o; cbn [updates]; try (intros []).
  destruct (match_lots _ _ _ _) as [[calc rem] lots'].
  destruct (Qltb (1 # 1000) _); cbn [updates]; [|intros []].
  intros [<- | []]. reflexivity.
Qed.

Lemma proposals_ids (os : list order) :
  forall ps u, In u (proposals ps os) -> In (u_id u) (map id os).
Proof.
  induction os as [|o os IH]; intros ps u; cbn [proposals map]; [intros []|].
  rewrite in_app_iff. intros [H | H].
  - left. symmetry. eapply proposal_id, H.
  - right. eapply IH, H.
Qed.

(** Once the stored value is the recomputed one, the difference is 0. *)
Lemma settled_within_tolerance (calc : Q) :
  Qltb (1 # 1000) (Qabs (calc - (if Qeq_bool calc 0 then 0 else calc))) = false.
Proof.
  apply Qltb_false, Qabs_Qle_condition.
  destruct (Qeq_bool calc 0) eqn:E.
  - apply Qeq_bool_eq in E. split; lra.
  - split; lra.
Qed.

Lemma settle_order_quiet (ps : gmap string (list lot)) (o : order) :
  proposal ps (settle_order ps o) = []
  /\ queues_after ps (settle_order ps o) = queues_after ps o.
Proof.
  unfold settle_order.
  destruct (proposal ps o) as [|u us] eqn:Hp; [now split|].
  revert Hp. unfold proposal, queues_after, process_order.
  cbn [positions updates total_pnl warnings set_pnl side symbol price
       quantity timestamp id].
  case_side o; cbn [updates]; try discriminate.
  destruct (match_lots _ _ _ _) as [[calc rem] lots'].
  destruct (Qltb (1 # 1000) (Qabs (calc - current_pnl_of o)));
    cbn [updates app]; [|discriminate].
  intros [= <- <-]. cbn [new_pnl].
  change (current_pnl_of (set_pnl o calc))
    with (if Qeq_bool calc 0 then 0 else calc).
  rewrite settled_within_tolerance. now split.
Qed.

(** Scanning the settled history proposes nothing. *)
Lemma proposals_settle (os : list order) :
  forall ps, proposals ps (settle ps os) = [].
Proof.
  induction os as [|o os IH]; intros ps; cbn [settle proposals]; [reflexivity|].
  destruct (settle_order_quiet ps o) as [-> ->]. apply IH.
Qed.

Lemma apply_update_other (u : update) (l : list order) :
  ~ In (u_id u) (map id l) -> apply_update l u = l.
Proof.
  induction l as [|o l IH]; cbn [map In apply_update]; [reflexivity|].
  intros H. fold (apply_update l u). rewrite IH by tauto.
  destruct (Z.eqb_spec (id o) (u_id u)); [tauto | reflexivity].
Qed.

Lemma apply_updates_head (us : list update) :
  forall o l,
    (forall u, In u us -> u_id u <> id o) ->
    fold_left apply_update us (o :: l) = o :: fold_left apply_update us l.
Proof.
  induction us as [|u us IH]; intros o l H; cbn [fold_left]; [reflexivity|].
  unfold apply_update at 2. cbn [map]. fold (apply_update l u).
  destruct (Z.eqb_spec (id o) (u_id u)) as [E|_].
  - exfalso. apply (H u); [now left | now symmetry].
  - apply IH. intros u' Hu'. apply H. now right.
Qed.

(** With unique ids, applying a scan's proposals to the scanned rows is
    settling each row by its own proposal. *)
Lemma apply_proposals (os : list order) :
  forall ps,
    List.NoDup (map id os) ->
    fold_left apply_update (proposals ps os) os = settle ps os.
Proof.
  induction os as [|o os IH]; intros ps Hnd; cbn [proposals settle map] in *.
  - reflexivity.
  - inversion Hnd as [|x xs Hnotin Hnd' [Hx Hxs]]; subst.
    rewrite fold_left_app.
    assert (Hrest : forall u, In u (proposals (queues_after ps o) os) ->
                              u_id u <> id o).
    { intros u Hu E. apply Hnotin. rewrite <- E. eapply proposals_ids, Hu. }
    unfold settle_order.
    destruct (proposal ps o) as [|u us] eqn:Hp; cbn [fold_left].
    + rewrite apply_updates_head by exact Hrest. now rewrite IH.
    + assert (Hu : u_id u = id o).
      { apply (proposal_id ps). rewrite Hp. now left. }
      assert (Hus : us = []).
      { revert Hp. unfold proposal, process_order. cbn [positions updates].
        case_side o; cbn [updates]; try discriminate.
        destruct (match_lots _ _ _ _) as [[calc rem] lots'].
        destruct (Qltb (1 # 1000) _); cbn [updates app]; [|discriminate].
        now intros [= _ <-]. }
      subst us. cbn [fold_left].
      unfold apply_update at 2. cbn [map]. fold (apply_update os u).
      rewrite Hu, Z.eqb_refl.
      rewrite apply_update_other by (now rewrite Hu).
      rewrite apply_updates_head by exact Hrest. now rewrite IH.
Qed.

(** Rewriting [pnl] does not move a row in the [ORDER BY timestamp] result. *)
Lemma insert_apply_update (u : update) (o : order) (l : list order) :
  insert_by_timestamp (if Z.eqb (id o) (u_id u) then set_pnl o (new_pnl u) else o)
                      (apply_update l u)
  = apply_update (insert_by_timestamp o l) u.
Proof.
  induction l as [|x l IH]; cbn [insert_by_timestamp apply_update map].
  - reflexivity.
  - fold (apply_update l u).
    assert (Ht : forall y, timestamp (if Z.eqb (id y) (u_id u)
                                      then set_pnl y (new_pnl u) else y)
                           = timestamp y).
    { intros y. now destruct (Z.eqb (id y) (u_id u)). }
    rewrite !Ht.
    destruct (String.leb (timestamp o) (timestamp x)); cbn [map].
    + reflexivity.
    + fold (apply_update (insert_by_timestamp o l) u). now rewrite IH.
Qed.

Lemma fetch_apply_update (u : update) (table : list order) :
  fetch_orders (apply_update table u) = apply_update (fetch_orders table) u.
Proof.
  induction table as [|o table IH]; [reflexivity|].
  unfold fetch_orders, apply_update in *. cbn [map fold_right].
  rewrite IH. apply insert_apply_update.
Qed.

Lemma fetch_apply_updates (us : list update) :
  forall table,
    fetch_orders (fold_left apply_update us table)
    = fold_left apply_update us (fetch_orders table).
Proof.
  induction us as [|u us IH]; intros table; cbn [fold_left]; [reflexivity|].
  now rewrite IH, fetch_apply_update.
Qed.

Lemma insert_by_timestamp_perm (o : order) (l : list order) :
  Permutation (o :: l) (insert_by_timestamp o l).
Proof.
  induction l as [|x l IH]; cbn [insert_by_timestamp]; [reflexivity|].
  destruct (String.leb (timestamp o) (timestamp x)); [reflexivity|].
  rewrite perm_swap. now apply perm_skip.
Qed.

Lemma fetch_orders_perm (table : list order) :
  Permutation table (fetch_orders table).
Proof.
  induction table as [|o table IH]; [reflexivity|].
  unfold fetch_orders in *. cbn [fold_right].
  rewrite <- insert_by_timestamp_perm. now apply perm_skip.
Qed.

(** C6. With unique order ids (the primary key): a dry run leaves the table
    as it is, so a second computation over the unchanged history sees the
    same rows and yields the same per-order values; and once a live run has
    been applied, another run over the resulting table proposes no update
    and leaves every stored [pnl] as the first run set it. *)
Theorem backfill_replay_idempotent (table : list order) :
  List.NoDup (map id table) ->
  fst (backfill_pnl table true) = table
  /\ snd (backfill_pnl (fst (backfill_pnl table true)) true)
     = snd (backfill_pnl table true)
  /\ updates (snd (backfill_pnl (fst (backfill_pnl table false)) false)) = []
  /\ fst (backfill_pnl (fst (backfill_pnl table false)) false)
     = fst (backfill_pnl table false).
Proof.
  intros Hnd.
  assert (Hquiet : updates (scan (fetch_orders (fst (backfill_pnl table false)))) = []).
  { rewrite backfill_table, fetch_apply_updates, !scan_updates.
    rewrite apply_proposals.
    - apply proposals_settle.
    - eapply Permutation.Permutation_NoDup; [|exact Hnd].
      apply Permutation_map, fetch_orders_perm. }
  split; [apply backfill_dry_run|].
  split; [now rewrite backfill_dry_run|].
  unfold backfill_pnl at 1 3. rewrite Hquiet. now split.
Qed.

(** Replaying the MSFT history, whose ids are 1, 2 and 3. *)
Lemma backfill_replay_idempotent_witness :
  fst (backfill_pnl msft_history true) = msft_history
  /\ snd (backfill_pnl (fst (backfill_pnl msft_history true)) true)
     = snd (backfill_pnl msft_history true)
  /\ updates (snd (backfill_pnl (fst (backfill_pnl msft_history false)) false)) = []
  /\ fst (backfill_pnl (fst (backfill_pnl msft_history false)) false)
     = fst (backfill_pnl msft_history false).
Proof.
  apply (backfill_replay_idempotent msft_history).
  cbn. repeat constructor; cbn; intuition lia.
Defined.

End BackfillPnlFacts.

(** ** Balance reconciliation (account_balance_updater.py) *)

Module AccountBalanceUpdaterFacts.
Import AccountBalanceUpdater.

(** The entry [k] of the dictionary a call returned, if it returned one. *)
Definition reported {L : Type} (r : option (list (string * pyval)) * L)
    (k : string) : option pyval :=
  match fst r with
  | Some d => dict_get d k
  | None => None
  end.

(** Mark-to-market value of the positions, a NULL price counting for 0. *)
Definition market_value (ps : list position_row) : Q :=
  fold_right (fun pos acc => quantity pos * default 0 (current_price pos) + acc)
             0 ps.

(** The populated store of the unit tests: stored total 10,000, cash 5,000,
    positions worth 16,000 + 16,000 + 2,850. *)
Definition populated_database : database :=
  mk_database
    ["id"; "cash"; "last_updated"; "total_value"]
    ["symbol"; "quantity"; "entry_price"; "current_price"; "entry_date";
     "last_updated"]
    [mk_account 1 5000 (Some 10000) "2024-01-01"]
    [ mk_position "AAPL" 100 (Some 160);
      mk_position "MSFT" 50 (Some 320);
      mk_position "GOOGL" 30 (Some 95) ].

(** A store whose stored total is 0 while the account holds 100 in cash. *)
Definition zero_stored_database : database :=
  mk_database
    ["id"; "cash"; "last_updated"; "total_value"]
    ["symbol"; "quantity"; "entry_price"; "current_price"; "entry_date";
     "last_updated"]
    [mk_account 1 100 (Some 0) "2024-01-01"]
    [].

Definition balance_of (acct : account_row) (total_position_value : Q)
    (n : nat) : list (string * pyval) :=
  [ ("cash", PyNum (cash acct));
    ("positions_value", PyNum total_position_value);
    ("total_value", PyNum (cash acct + total_position_value));
    ("num_positions", PyNum (inject_Z (Z.of_nat n))) ].

Lemma sum_positions_total (ps : list position_row) :
  forall acc t, sum_positions acc ps = Some t -> t == acc + market_value ps.
Proof.
  induction ps as [|pos ps IH]; intros acc t; cbn [sum_positions market_value fold_right].
  - intros [= <-]. ring.
  - destruct (current_price pos) as [p|]; [|discriminate].
    intros H. apply IH in H. rewrite H.
    change (default 0 (Some p)) with p. fold (market_value ps). ring.
Qed.

Lemma calculate_inv (db : database) (balance : list (string * pyval))
    (log : list log_record) :
  calculate_account_balance db = (Some balance, log) ->
  exists acct tpv,
    has_columns (account_columns db) ["cash"; "id"] = true
    /\ account_1 db = Some acct
    /\ has_columns (positions_columns db)
         ["symbol"; "quantity"; "current_price"] = true
    /\ sum_positions 0 (positions db) = Some tpv
    /\ balance = balance_of acct tpv (length (positions db))
    /\ log = [].
Proof.
  unfold calculate_account_balance.
  destruct (has_columns (account_columns db) _) eqn:Hc1; [|discriminate].
  destruct (account_1 db) as [acct|] eqn:Ha; [|discriminate].
  destruct (has_columns (positions_columns db) _) eqn:Hc2; [|discriminate].
  destruct (sum_positions 0 (positions db)) as [tpv|] eqn:Hs; [|discriminate].
  cbn [negb]. intros [= <- <-]. exists acct, tpv. repeat split; assumption.
Qed.

Lemma calculate_intro (db : database) (acct : account_row) (tpv : Q) :
  has_columns (account_columns db) ["cash"; "id"] = true ->
  account_1 db = Some acct ->
  has_columns (positions_columns db) ["symbol"; "quantity"; "current_price"] = true ->
  sum_positions 0 (positions db) = Some tpv ->
  calculate_account_balance db
  = (Some (balance_of acct tpv (length (positions db))), []).
Proof.
  intros Hc1 Ha Hc2 Hs. unfold calculate_account_balance.
  now rewrite Hc1, Ha, Hc2, Hs.
Qed.

Lemma find_set_total (total : Q) (now : string) (rows : list account_row)
    (acct : account_row) :
  find (fun r => Z.eqb (acc_id r) 1) rows = Some acct ->
  find (fun r => Z.eqb (acc_id r) 1) (set_total total now rows)
  = Some (mk_account (acc_id acct) (cash acct) (Some total) now).
Proof.
  induction rows as [|r rows IH]; cbn [find set_total map]; [discriminate|].
  fold (set_total total now rows).
  destruct (Z.eqb (acc_id r) 1) eqn:E.
  - cbn [acc_id]. rewrite E. now intros [= ->].
  - rewrite E. exact IH.
Qed.

(** Reconciliation writes [total_value] and [last_updated] of the account
    row only: cash and the position rows are as before. *)
Lemma update_frame (db db' : database) (now : string)
    (balance : list (string * pyval)) (log : list log_record) :
  update_account_balance db now = (Some balance, db', log) ->
  positions db' = positions db
  /\ map cash (account db') = map cash (account db)
  /\ map acc_id (account db') = map acc_id (account db).
Proof.
  unfold update_account_balance.
  destruct (calculate_account_balance db) as [[b|] lg]; [|discriminate].
  destruct (dict_get b "total_value") as [[total|]|]; try discriminate.
  destruct (has_columns _ _); [|discriminate].
  intros [= _ <- _]. cbn [positions account]. split; [reflexivity|].
  unfold set_total. rewrite !map_map.
  split; apply map_ext; intros r; now destruct (Z.eqb (acc_id r) 1).
Qed.

Lemma update_inv (db db' : database) (now : string)
    (balance : list (string * pyval)) (log : list log_record) :
  update_account_balance db now = (Some balance, db', log) ->
  exists acct tpv,
    account_1 db = Some acct
    /\ sum_positions 0 (positions db) = Some tpv
    /\ balance = balance_of acct tpv (length (positions db))
    /\ has_columns (account_columns db) ["total_value"; "last_updated"; "id"] = true
    /\ db' = mk_database (account_columns db) (positions_columns db)
               (set_total (cash acct + tpv) now (account db)) (positions db)
    /\ calculate_account_balance db' = (Some balance, []).
Proof.
  unfold update_account_balance.
  destruct (calculate_account_balance db) as [[b|] lg] eqn:Hc; [|discriminate].
  destruct (calculate_inv _ _ _ Hc) as (acct & tpv & Hc1 & Ha & Hc2 & Hs & -> & ->).
  change (dict_get (balance_of acct tpv (length (positions db))) "total_value")
    with (Some (PyNum (cash acct + tpv))).
  destruct (has_columns (account_columns db)
              ["total_value"; "last_updated"; "id"]) eqn:Hc3; [|discriminate].
  intros E. injection E as <- <- _. exists acct, tpv. repeat split; try assumption.
  apply (calculate_intro
           (mk_database (account_columns db) (positions_columns db)
              (set_total (cash acct + tpv) now (account db)) (positions db))
           (mk_account (acc_id acct) (cash acct) (Some (cash acct + tpv)) now)
           tpv);
    cbn [account_columns positions_columns positions]; try assumption.
  unfold account_1. cbn [account]. now apply find_set_total.
Qed.

(** C2. After a reconciliation that went through, the discrepancy check on
    the unchanged store reports a discrepancy of zero, the stored total
    being the reconciled one, and no issue for any non-negative threshold.
    On the populated store (stored 10,000, cash 5,000, positions 34,850) the
    check first reports 29,850 and an issue; reconciliation stores 39,850;
    the follow-up check reports 0 and no issue. *)
Theorem reconcile_then_check_reports_zero :
  (forall db now threshold balance db' log,
      update_account_balance db now = (Some balance, db', log) ->
      exists d,
        reported (check_balance_discrepancy db' threshold) "discrepancy"
        = Some (PyNum d)
        /\ d == 0
        /\ reported (check_balance_discrepancy db' threshold) "stored_total"
           = dict_get balance "total_value"
        /\ (0 <= threshold ->
            reported (check_balance_discrepancy db' threshold) "has_issue"
            = Some (PyBool false)))
  /\ reported (check_balance_discrepancy populated_database 1) "discrepancy"
     = Some (PyNum 29850)
  /\ reported (check_balance_discrepancy populated_database 1) "has_issue"
     = Some (PyBool true)
  /\ map total_value
       (account (snd (fst (update_account_balance populated_database "now"))))
     = [Some 39850]
  /\ reported (check_balance_discrepancy
                 (snd (fst (update_account_balance populated_database "now"))) 1)
              "discrepancy"
     = Some (PyNum 0)
  /\ reported (check_balance_discrepancy
                 (snd (fst (update_account_balance populated_database "now"))) 1)
              "has_issue"
     = Some (PyBool false).
Proof.
  split; [|repeat split; vm_compute; reflexivity].
  intros db now threshold balance db' log H.
  destruct (update_inv _ _ _ _ _ H) as (acct & tpv & Ha & Hs & -> & Hc3 & -> & Hc').
  exists (cash acct + tpv - (cash acct + tpv)).
  unfold reported, check_balance_discrepancy. rewrite Hc'.
  cbn [account_columns].
  assert (Hc4 : has_columns (account_columns db) ["total_value"; "id"] = true).
  { revert Hc3. unfold has_columns. cbn [forallb].
    rewrite !andb_true_iff. tauto. }
  rewrite Hc4. cbn [negb].
  unfold account_1. cbn [account]. rewrite (find_set_total _ _ _ _ Ha).
  change (dict_get (balance_of acct tpv (length (positions db))) "total_value")
    with (Some (PyNum (cash acct + tpv))).
  cbn [total_value fst].
  split; [reflexivity|]. split; [ring|]. split; [reflexivity|].
  intros Hthr.
  change (dict_get _ "has_issue")
    with (Some (PyBool (Qltb threshold
                          (Qabs (cash acct + tpv - (cash acct + tpv)))))).
  do 2 f_equal. apply Qltb_false.
  assert (E : cash acct + tpv - (cash acct + tpv) == 0) by ring.
  rewrite E. exact Hthr.
Qed.

(** Reconciliation followed by the check on the populated store. *)
Lemma reconcile_then_check_reports_zero_witness :
  exists d,
    reported (check_balance_discrepancy
                (snd (fst (update_account_balance populated_database "now"))) 1)
             "discrepancy" = Some (PyNum d)
    /\ d == 0
    /\ reported (check_balance_discrepancy
                   (snd (fst (update_account_balance populated_database "now"))) 1)
                "stored_total"
       = dict_get (balance_of (mk_account 1 5000 (Some 10000) "2024-01-01")
                              34850 3) "total_value"
    /\ (0 <= 1 ->
        reported (check_balance_discrepancy
                    (snd (fst (update_account_balance populated_database "now"))) 1)
                 "has_issue" = Some (PyBool false)).
Proof.
  apply (proj1 reconcile_then_check_reports_zero populated_database "now" 1
           (balance_of (mk_account 1 5000 (Some 10000) "2024-01-01") 34850 3)
           _ [Info_updated 39850]).
  vm_compute. reflexivity.
Defined.

Lemma check_inv (db : database) (threshold : Q)
    (result : list (string * pyval)) (log : list log_record) :
  check_balance_discrepancy db threshold = (Some result, log) ->
  exists acct tpv stored,
    account_1 db = Some acct
    /\ sum_positions 0 (positions db) = Some tpv
    /\ total_value acct = Some stored
    /\ result =
       [ ("calculated_total", PyNum (cash acct + tpv));
         ("stored_total", PyNum stored);
         ("discrepancy", PyNum (cash acct + tpv - stored));
         ("discrepancy_pct",
          PyNum (if Qltb 0 stored
                 then (cash acct + tpv - stored) / stored * 100 else 0));
         ("has_issue",
          PyBool (Qltb threshold (Qabs (cash acct + tpv - stored)))) ]
    /\ log =
       if Qltb threshold (Qabs (cash acct + tpv - stored))
       then [Warning_discrepancy
               (cash acct + tpv - stored)
               (if Qltb 0 stored
                then (cash acct + tpv - stored) / stored * 100 else 0)]
       else [].
Proof.
  unfold check_balance_discrepancy.
  destruct (calculate_account_balance db) as [[b|] lg] eqn:Hc; [|discriminate].
  destruct (calculate_inv _ _ _ Hc) as (acct & tpv & _ & Ha & _ & Hs & -> & ->).
  destruct (has_columns (account_columns db) ["total_value"; "id"]);
    [|discriminate].
  cbn [negb]. rewrite Ha.
  change (dict_get (balance_of acct tpv (length (positions db))) "total_value")
    with (Some (PyNum (cash acct + tpv))).
  cbv iota beta.
  destruct (total_value acct) as [stored|] eqn:Ht; [|discriminate].
  intros E. injection E as <- <-.
  exists acct, tpv, stored. repeat split; try assumption.
Qed.

(** C8 (as amended).  Whenever the check returns a result, it flags an issue
    exactly when the absolute difference between the stored total and the
    computed total (cash plus the positions at their current prices) exceeds
    the threshold, and it logs the warning exactly then.  The percentage is
    always part of the result and of the warning: the drift over the stored
    total times 100 when the stored total is positive, and 0 otherwise. *)
Theorem discrepancy_flag_and_percentage
    (db : database) (threshold : Q)
    (result : list (string * pyval)) (log : list log_record) :
  check_balance_discrepancy db threshold = (Some result, log) ->
  exists acct stored calculated,
    account_1 db = Some acct
    /\ total_value acct = Some stored
    /\ calculated == cash acct + market_value (positions db)
    /\ dict_get result "calculated_total" = Some (PyNum calculated)
    /\ dict_get result "stored_total" = Some (PyNum stored)
    /\ (dict_get result "has_issue" = Some (PyBool true)
        <-> threshold < Qabs (stored - calculated))
    /\ (dict_get result "has_issue" = Some (PyBool false)
        <-> Qabs (stored - calculated) <= threshold)
    /\ (log <> [] <-> threshold < Qabs (stored - calculated))
    /\ (0 < stored ->
        dict_get result "discrepancy_pct"
        = Some (PyNum ((calculated - stored) / stored * 100))
        /\ forall r, In r log ->
             r = Warning_discrepancy (calculated - stored)
                   ((calculated - stored) / stored * 100))
    /\ (stored <= 0 ->
        dict_get result "discrepancy_pct" = Some (PyNum 0)
        /\ forall r, In r log -> r = Warning_discrepancy (calculated - stored) 0).
Proof.
  intros H.
  destruct (check_inv _ _ _ _ H) as (acct & tpv & stored & Ha & Hs & Ht & -> & ->).
  exists acct, stored, (cash acct + tpv).
  apply sum_positions_total in Hs.
  split; [exact Ha|]. split; [exact Ht|].
  split; [rewrite Hs; ring|].
  split; [reflexivity|]. split; [reflexivity|].
  change (dict_get _ "has_issue")
    with (Some (PyBool (Qltb threshold (Qabs (cash acct + tpv - stored))))).
  change (dict_get _ "discrepancy_pct")
    with (Some (PyNum (if Qltb 0 stored
                       then (cash acct + tpv - stored) / stored * 100 else 0))).
  rewrite (Qabs_Qminus stored (cash acct + tpv)).
  destruct (Qltb threshold (Qabs (cash acct + tpv - stored))) eqn:Hi.
  - apply Qltb_true in Hi.
    split; [tauto|]. split; [split; [discriminate | lra]|].
    split; [split; [tauto | discriminate]|].
    split.
    + intros Hpos. apply Qltb_true in Hpos. rewrite Hpos.
      split; [reflexivity|]. intros r [<- | []]. reflexivity.
    + intros Hneg. apply Qltb_false in Hneg. rewrite Hneg.
      split; [reflexivity|]. intros r [<- | []]. reflexivity.
  - apply Qltb_false in Hi.
    split; [split; [discriminate | lra]|]. split; [tauto|].
    split; [split; [tauto | lra]|].
    split.
    + intros Hpos. apply Qltb_true in Hpos. rewrite Hpos.
      split; [reflexivity|]. intros r [].
    + intros Hneg. apply Qltb_false in Hneg. rewrite Hneg.
      split; [reflexivity|]. intros r [].
Qed.

(** What the check returns on the populated store with the default
    threshold. *)
Definition populated_result : list (string * pyval) :=
  [ ("calculated_total", PyNum 39850);
    ("stored_total", PyNum 10000);
    ("discrepancy", PyNum 29850);
    ("discrepancy_pct", PyNum (2985000 # 10000));
    ("has_issue", PyBool true) ].

Definition populated_log : list log_record :=
  [Warning_discrepancy 29850 (2985000 # 10000)].

(** The check on the populated store: a drift of 29,850, that is 298.5%. *)
Lemma discrepancy_flag_and_percentage_witness :
  exists acct stored calculated,
    account_1 populated_database = Some acct
    /\ total_value acct = Some stored
    /\ calculated == cash acct + market_value (positions populated_database)
    /\ dict_get populated_result "calculated_total" = Some (PyNum calculated)
    /\ dict_get populated_result "stored_total" = Some (PyNum stored)
    /\ (dict_get populated_result "has_issue" = Some (PyBool true)
        <-> 1 < Qabs (stored - calculated))
    /\ (dict_get populated_result "has_issue" = Some (PyBool false)
        <-> Qabs (stored - calculated) <= 1)
    /\ (populated_log <> [] <-> 1 < Qabs (stored - calculated))
    /\ (0 < stored ->
        dict_get populated_result "discrepancy_pct"
        = Some (PyNum ((calculated - stored) / stored * 100))
        /\ forall r, In r populated_log ->
             r = Warning_discrepancy (calculated - stored)
                   ((calculated - stored) / stored * 100))
    /\ (stored <= 0 ->
        dict_get populated_result "discrepancy_pct" = Some (PyNum 0)
        /\ forall r, In r populated_log ->
             r = Warning_discrepancy (calculated - stored) 0).
Proof.
  apply (discrepancy_flag_and_percentage populated_database 1
           populated_result populated_log).
  vm_compute. reflexivity.
Defined.

(** C8 (the claim as stated fails).  With a stored total of 0 the percentage
    is neither undefined nor left out: the result holds [discrepancy_pct = 0]
    and the warning is logged with it. *)
Lemma percentage_reported_when_stored_is_zero :
  reported (check_balance_discrepancy zero_stored_database 1) "stored_total"
  = Some (PyNum 0)
  /\ reported (check_balance_discrepancy zero_stored_database 1) "discrepancy_pct"
     = Some (PyNum 0)
  /\ reported (check_balance_discrepancy zero_stored_database 1) "discrepancy_pct"
     <> None
  /\ snd (check_balance_discrepancy zero_stored_database 1)
     = [Warning_discrepancy 100 0].
Proof.
  repeat split; try (vm_compute; reflexivity).
  vm_compute. discriminate.
Qed.

End AccountBalanceUpdaterFacts.

(** ** The persisted schema (db_manager.py and the migrations) *)

Module DbManagerFacts.
Import DbManager.

(** A store with the schema [s], holding the given rows, as the balance
    updater sees it. *)
Definition store_with (s : schema)
    (rows : list AccountBalanceUpdater.account_row)
    (ps : list AccountBalanceUpdater.position_row)
    : AccountBalanceUpdater.database :=
  AccountBalanceUpdater.mk_database
    (columns_of s "account") (columns_of s "positions") rows ps.

(** C9 (the claim as stated fails).  On either backend the account table
    created by [init_schema] has no [total_value] column. *)
Lemma init_schema_account_lacks_total_value :
  ~ In "total_value"%string (columns_of (init_schema sqlite empty_store) "account")
  /\ ~ In "total_value"%string
       (columns_of (init_schema postgresql empty_store) "account").
Proof.
  split; vm_compute; intuition discriminate.
Qed.

(** C9 (as amended).  [init_schema] creates the account table with the
    columns id, cash and last_updated on both backends; on a store whose
    account table is that one, reconciliation and the discrepancy check fail
    whatever the rows are.
    The [total_value] column is added by the orchestrator migration (and by
    the PostgreSQL schema phase), after which the account table is
    account(id, cash, last_updated, total_value) and the stored total of an
    initialised account can be overwritten and read back. *)
Theorem total_value_column_comes_from_migration :
  (forall t, columns_of (init_schema t empty_store) "account"
             = ["id"; "cash"; "last_updated"])
  /\ (forall t position_columns rows ps now threshold,
         let db := AccountBalanceUpdater.mk_database
                     (columns_of (init_schema t empty_store) "account")
                     position_columns rows ps in
         fst (fst (AccountBalanceUpdater.update_account_balance db now)) = None
         /\ fst (AccountBalanceUpdater.check_balance_discrepancy db threshold)
            = None)
  /\ MigrateOrchestratorDb.migrate_database (init_schema sqlite empty_store)
     = (true, snd (MigrateOrchestratorDb.migrate_database
                     (init_schema sqlite empty_store)))
  /\ columns_of (snd (MigrateOrchestratorDb.migrate_database
                        (init_schema sqlite empty_store))) "account"
     = ["id"; "cash"; "last_updated"; "total_value"]
  /\ columns_of (MigrateToPostgres.create_postgres_schema empty_store) "account"
     = ["id"; "cash"; "last_updated"; "total_value"]
  /\ (let db := store_with
                  (snd (MigrateOrchestratorDb.migrate_database
                          (init_schema sqlite empty_store)))
                  [AccountBalanceUpdater.mk_account 1 10000 (Some 10000) "t0"]
                  [AccountBalanceUpdater.mk_position "AAPL" 10 (Some 150)] in
      map AccountBalanceUpdater.total_value
        (AccountBalanceUpdater.account
           (snd (fst (AccountBalanceUpdater.update_account_balance db "t1"))))
      = [Some 11500]
      /\ AccountBalanceUpdaterFacts.reported
           (AccountBalanceUpdater.check_balance_discrepancy
              (snd (fst (AccountBalanceUpdater.update_account_balance db "t1"))) 1)
           "stored_total"
         = Some (AccountBalanceUpdater.PyNum 11500)).
Proof.
  split; [intros []; vm_compute; reflexivity|].
  split.
  - intros t position_columns rows ps now threshold db.
    assert (Hu : AccountBalanceUpdater.has_columns
                   (columns_of (init_schema t empty_store) "account")
                   ["total_value"; "last_updated"; "id"] = false)
      by (destruct t; vm_compute; reflexivity).
    assert (Hc : AccountBalanceUpdater.has_columns
                   (columns_of (init_schema t empty_store) "account")
                   ["total_value"; "id"] = false)
      by (destruct t; vm_compute; reflexivity).
    unfold AccountBalanceUpdater.update_account_balance,
      AccountBalanceUpdater.check_balance_discrepancy.
    destruct (AccountBalanceUpdater.calculate_account_balance db) as [[b|] lg];
      [|now split].
    subst db. cbn [AccountBalanceUpdater.account_columns].
    rewrite Hu, Hc. cbn [negb fst].
    split; [|reflexivity].
    now destruct (AccountBalanceUpdater.dict_get b "total_value") as [[x|y]|].
  - repeat split; vm_compute; reflexivity.
Qed.

End DbManagerFacts.

(** ** The position monitor (stop_loss_monitor.py) *)

Module StopLossMonitorFacts.
Import StopLossMonitor.

(** The orders submitted during a pass, in order. *)
Fixpoint orders_placed (evs : list event) : list order_data :=
  match evs with
  | [] => []
  | Post_order o :: rest => o :: orders_placed rest
  | _ :: rest => orders_placed rest
  end.

(** The stop of a position is hit on the quote the API serves for it. *)
Definition triggered (a : api) (p : position) : bool :=
  match get_current_price a (symbol p) with
  | Some current_price => Qle_bool current_price (stop_loss p)
  | None => false
  end.

(** A fractional position: 10.5 shares bought at 100 with a stop at 95, the
    API quoting 94 and accepting the order. *)
Definition amd_row : position_row := mk_row "AMD" (21 # 2) 100 (Some 95).

Definition amd_api : api :=
  mk_api (fun _ => Http_response 200 [mk_api_position "AMD" (Some 94)])
         (fun _ => Http_response 200 tt).

Lemma orders_placed_app (xs ys : list event) :
  orders_placed (xs ++ ys) = orders_placed xs ++ orders_placed ys.
Proof.
  induction xs as [|x xs IH]; [reflexivity|].
  destruct x; cbn [orders_placed app]; now rewrite IH.
Qed.

Lemma execute_posts_once (a : api) (sym : string) (qty cp stop entry : Q) :
  orders_placed (snd (execute_stop_loss_sell a sym qty cp stop entry))
  = [sell_order sym qty].
Proof.
  unfold execute_stop_loss_sell.
  destruct (post_order a (sell_order sym qty)) as [|code body]; [reflexivity|].
  destruct (Z.eq_dec code 200%Z) as [->|Hne].
  - now destruct (Qeq_bool entry 0).
  - destruct code as [|c|c]; try reflexivity.
    repeat (destruct c as [c|c|]; try reflexivity); congruence.
Qed.

(** One pass submits one order per position whose stop is hit, for the
    position's quantity truncated to a whole number. *)
Lemma check_positions_orders (a : api) (ps : list position) :
  orders_placed (check_positions a ps)
  = map (fun p => sell_order (symbol p) (quantity p))
        (List.filter (triggered a) ps).
Proof.
  induction ps as [|p ps IH]; [reflexivity|].
  cbn [check_positions List.filter]. unfold triggered at 1.
  destruct (get_current_price a (symbol p)) as [cp|]; [|exact IH].
  destruct (Qle_bool cp (stop_loss p)); [|exact IH].
  cbn [orders_placed map]. rewrite orders_placed_app, execute_posts_once, IH.
  reflexivity.
Qed.

Lemma monitored_symbols (rows : list position_row) :
  forall p, In p (get_positions_with_stop_loss rows) ->
            In (symbol p) (map row_symbol rows) /\ 0 < stop_loss p.
Proof.
  induction rows as [|row rows IH]; intros p; cbn [get_positions_with_stop_loss map];
    [intros []|].
  destruct (row_stop_loss row) as [sl|].
  - destruct (Qltb 0 sl) eqn:Hsl.
    + intros [<- | H]; cbn [symbol stop_loss In].
      * split; [now left | now apply Qltb_true].
      * destruct (IH p H). split; [now right | assumption].
    + intros H. destruct (IH p H). cbn [In]. split; [now right | assumption].
  - intros H. destruct (IH p H). cbn [In]. split; [now right | assumption].
Qed.

Lemma no_order_for_other_symbols (a : api) (sym : string) (ps : list position) :
  ~ In sym (map symbol ps) ->
  List.filter (fun o => String.eqb (od_symbol o) sym)
              (orders_placed (check_positions a ps)) = [].
Proof.
  rewrite check_positions_orders.
  induction ps as [|q ps IH]; cbn [map In List.filter]; [reflexivity|].
  intros Hnot. destruct (triggered a q); [|apply IH; tauto].
  cbn [map List.filter sell_order od_symbol].
  destruct (String.eqb_spec (symbol q) sym) as [E|_]; [tauto|].
  apply IH. tauto.
Qed.

(** With one row per symbol, a position whose stop is hit gets exactly one
    order in a pass. *)
Lemma one_order_per_triggered_position (a : api) (ps : list position)
    (p : position) :
  List.NoDup (map symbol ps) -> In p ps -> triggered a p = true ->
  List.filter (fun o => String.eqb (od_symbol o) (symbol p))
              (orders_placed (check_positions a ps))
  = [sell_order (symbol p) (quantity p)].
Proof.
  induction ps as [|q ps IH]; cbn [map In]; [intros _ []|].
  intros Hnd Hin Ht. inversion Hnd as [|x xs Hnotin Hnd' [Hx Hxs]]; subst.
  destruct Hin as [-> | Hin].
  - pose proof (no_order_for_other_symbols a (symbol p) ps Hnotin) as Hrest.
    rewrite check_positions_orders in *. cbn [List.filter]. rewrite Ht.
    cbn [map List.filter sell_order od_symbol]. rewrite String.eqb_refl.
    now rewrite Hrest.
  - specialize (IH Hnd' Hin Ht).
    rewrite check_positions_orders in *. cbn [List.filter].
    destruct (triggered a q); [|exact IH].
    cbn [map List.filter sell_order od_symbol].
    destruct (String.eqb_spec (symbol q) (symbol p)) as [E|_]; [|exact IH].
    exfalso. apply Hnotin. rewrite E. now apply in_map.
Qed.

(** A whole number of shares is ordered in full. *)
Lemma int_of_whole (n : Z) : int_of (inject_Z n) = n.
Proof. unfold int_of, inject_Z. cbn [Qnum Qden]. apply Z.quot_1_r. Qed.

(** C3 (evaluation of the code).  Every position whose stop is hit gets one
    market sell order in a pass, but for [int(quantity)] shares.  For the
    position of 10.5 shares with its stop at 95 and a quote of 94 the one
    order placed is for 10 shares, less than the position, while the exit is
    logged as a sale of 10.5 shares. *)
Theorem stop_loss_order_truncates_quantity :
  (forall a rows,
      orders_placed (check_stop_losses a rows)
      = map (fun p => mk_order_data (symbol p) "sell" (int_of (quantity p)) "market")
            (List.filter (triggered a) (get_positions_with_stop_loss rows)))
  /\ orders_placed (check_stop_losses amd_api [amd_row])
     = [mk_order_data "AMD" "sell" 10 "market"]
  /\ inject_Z 10 < row_quantity amd_row
  /\ (exists pnl pnl_pct,
         In (Triggered_exit "AMD" (21 # 2) 94 95 100 pnl pnl_pct)
            (check_stop_losses amd_api [amd_row])).
Proof.
  split; [intros a rows; apply check_positions_orders|].
  split; [vm_compute; reflexivity|].
  split; [reflexivity|].
  eexists _, _. vm_compute. right. right. left. reflexivity.
Qed.

End StopLossMonitorFacts.

(** ** Order placement (paper_trade_one_candle.py) *)

Module PaperTraderFacts.
Import PaperTrader.

(** The columns the two INSERT statements of [place_order] name. *)
Definition order_columns : list string :=
  ["symbol"; "order_type"; "quantity"; "price"; "status"; "timestamp"].

Definition position_columns : list string :=
  ["symbol"; "quantity"; "entry_price"; "last_updated"].

(** The store accepts every statement of [place_order]: the tables have the
    columns the statements name, and no other column needs a value. *)
Definition accepting (t : tables) : bool :=
  has_columns (orders_columns t) order_columns
  && gives_required (orders_columns t) order_columns
  && has_columns (positions_columns t) position_columns
  && gives_required (positions_columns t) position_columns
  && has_columns (account_columns t) ["cash"; "last_updated"].

(** The first INSERT goes through: it compiles, its numbers bind and no
    required column is left out. *)
Definition first_insert_accepted (t : tables) (qty price : number) : bool :=
  has_columns (orders_columns t) order_columns
  && (binds qty && binds price)
  && gives_required (orders_columns t) order_columns.

(** Tables made for the trader: the columns its statements name, all of
    them NOT NULL, and an integer key on orders and account. *)
Definition trader_tables : tables :=
  mk_tables
    [ mk_column "id" false; mk_column "symbol" true;
      mk_column "order_type" true; mk_column "quantity" true;
      mk_column "price" true; mk_column "status" true;
      mk_column "timestamp" true ]
    [ mk_column "symbol" false; mk_column "quantity" true;
      mk_column "entry_price" true; mk_column "last_updated" true ]
    [ mk_column "id" false; mk_column "cash" true;
      mk_column "last_updated" true ].

(** The tables [init_schema] creates on SQLite, and the same after the
    orchestrator migration. *)
Definition repository_tables : tables :=
  PaperTraderStore.tables_of
    (DbManager.init_schema DbManager.sqlite DbManager.empty_store).

Definition migrated_tables : tables :=
  PaperTraderStore.tables_of
    (snd (MigrateOrchestratorDb.migrate_database
            (DbManager.init_schema DbManager.sqlite DbManager.empty_store))).

(** 100 shares of TSLA held at 200 and 10,000 in cash. *)
Definition tsla_db : database :=
  mk_database [] (<["TSLA"%string := mk_position 100 200 "t0"]> ∅)
              [mk_account 10000 "t0"].

(** What a call does when the store accepts its statements and the numbers
    bind: the only exception left is the [ZeroDivisionError]. *)
Definition fill (ticker : string) (db : database)
    (side : string) (q p : Q) (reason now : string) : outcome :=
  let order_type := if String.eqb side "BUY" then "buy" else "sell" in
  let orders' := orders db ++ [mk_order ticker order_type q p "filled" now] in
  if String.eqb side "BUY" then
    match positions db !! ticker with
    | Some pos =>
        let new_qty := quantity pos + q in
        if Qeq_bool new_qty 0 then
          Raised ZeroDivisionError
            (mk_database orders' (positions db) (account db))
        else
          let new_avg := (quantity pos * entry_price pos + q * p) / new_qty in
          let positions' :=
            <[ticker := mk_position new_qty new_avg now]> (positions db) in
          let new_cash := cash_of db - q * p in
          Committed
            (mk_database orders' positions' (set_cash new_cash now (account db)))
            [Printed_buy q p reason]
    | None =>
        let positions' := <[ticker := mk_position q p now]> (positions db) in
        let new_cash := cash_of db - q * p in
        Committed
          (mk_database orders' positions' (set_cash new_cash now (account db)))
          [Printed_buy q p reason]
    end
  else
    match positions db !! ticker with
    | Some pos =>
        let new_qty := quantity pos - q in
        let positions' :=
          if Qle_bool new_qty 0 then delete ticker (positions db)
          else <[ticker := mk_position new_qty (entry_price pos) now]>
                 (positions db) in
        let pnl := (p - entry_price pos) * q in
        let new_cash := cash_of db + q * p in
        let db' :=
          mk_database orders' positions' (set_cash new_cash now (account db)) in
        if Qeq_bool (entry_price pos) 0 || Qeq_bool q 0 then
          Raised ZeroDivisionError db'
        else
          Committed db'
            [Printed_sell q p reason pnl (pnl / entry_price pos / q * 100)]
    | None =>
        Committed (mk_database orders' (positions db) (account db)) []
    end.

Lemma accepting_inv (t : tables) :
  accepting t = true ->
  has_columns (orders_columns t) order_columns = true
  /\ gives_required (orders_columns t) order_columns = true
  /\ has_columns (positions_columns t) position_columns = true
  /\ gives_required (positions_columns t) position_columns = true
  /\ has_column (positions_columns t) "symbol" = true
  /\ has_column (positions_columns t) "quantity" = true
  /\ has_column (positions_columns t) "entry_price" = true
  /\ has_column (positions_columns t) "last_updated" = true
  /\ has_column (account_columns t) "cash" = true
  /\ has_column (account_columns t) "last_updated" = true.
Proof.
  unfold accepting. rewrite !andb_true_iff.
  intros ((((Ho & Hro) & Hp) & Hrp) & Ha).
  pose proof Hp as Hp'. pose proof Ha as Ha'.
  unfold has_columns, position_columns in Hp'. cbn [forallb] in Hp'.
  unfold has_columns in Ha'. cbn [forallb] in Ha'.
  rewrite !andb_true_iff in Hp'. rewrite !andb_true_iff in Ha'.
  destruct Hp' as (H1 & H2 & H3 & H4 & _), Ha' as (H5 & H6 & _).
  repeat split; assumption.
Qed.

Lemma place_order_accepted (t : tables) (ticker : string) (db : database)
    (side : string) (qty price : number) (reason now : string) :
  accepting t = true -> binds qty = true -> binds price = true ->
  place_order t ticker db side qty price reason now
  = fill ticker db side (value_of qty) (value_of price) reason now.
Proof.
  intros Ht Hq Hp.
  destruct (accepting_inv t Ht)
    as (Ho & Hro & Hps & Hrp & H1 & H2 & H3 & H4 & H5 & H6).
  unfold place_order, fill, get_account_balance.
  fold order_columns. fold position_columns.
  rewrite Ho, Hq, Hp, Hro, Hps, Hrp, H1, H2, H4, H5, H6.
  unfold has_columns. cbn [forallb]. rewrite H2, H3.
  cbn [negb andb].
  destruct (String.eqb side "BUY"); destruct (positions db !! ticker) as [pos|].
  - destruct (Qeq_bool (quantity pos + value_of qty) 0); reflexivity.
  - reflexivity.
  - rewrite andb_false_r. reflexivity.
  - reflexivity.
Qed.

Lemma place_order_refused (t : tables) (ticker : string) (db : database)
    (side : string) (qty price : number) (reason now : string) :
  first_insert_accepted t qty price = false ->
  exists e, place_order t ticker db side qty price reason now = Raised e db.
Proof.
  unfold first_insert_accepted, place_order. fold order_columns.
  destruct (has_columns (orders_columns t) order_columns); cbn [negb andb];
    [|eauto].
  destruct (binds qty && binds price); cbn [negb andb]; [|eauto].
  destruct (gives_required (orders_columns t) order_columns); cbn [negb];
    [discriminate|eauto].
Qed.

(** On the tables [init_schema] creates, before and after the orchestrator
    migration, the first INSERT names a column that does not exist. *)
Lemma place_order_on_repository_tables (ticker : string) (db : database)
    (side : string) (qty price : number) (reason now : string) :
  place_order repository_tables ticker db side qty price reason now
  = Raised OperationalError db
  /\ place_order migrated_tables ticker db side qty price reason now
     = Raised OperationalError db.
Proof.
  assert (H1 : has_columns (orders_columns repository_tables) order_columns
               = false) by (vm_compute; reflexivity).
  assert (H2 : has_columns (orders_columns migrated_tables) order_columns
               = false) by (vm_compute; reflexivity).
  unfold place_order. fold order_columns. rewrite H1, H2. cbn [negb].
  split; reflexivity.
Qed.




End PaperTraderFacts.

(** ** Strategy metrics (strategy_analytics.py) *)

Module StrategyAnalyticsFacts.
Import StrategyAnalytics.

Lemma py_max_ge_l (a b : Q) : a <= py_max a b.
Proof.
  unfold py_max. destruct (Qltb a b) eqn:E; [|lra].
  apply Qltb_true in E. lra.
Qed.

Lemma py_max_ge_r (a b : Q) : b <= py_max a b.
Proof.
  unfold py_max. destruct (Qltb a b) eqn:E; [lra|].
  now apply Qltb_false in E.
Qed.

Lemma py_max_same (a : Q) : py_max a a = a.
Proof. unfold py_max. now destruct (Qltb a a). Qed.

(** Below its peak a value has a non-negative drawdown. *)
Lemma drawdown_from_nonneg (peak value : Q) :
  value <= peak -> 0 <= drawdown_from peak value.
Proof.
  intros Hle. unfold drawdown_from.
  destruct (Qeq_bool peak 0) eqn:E; [lra|].
  apply Qeq_bool_neq in E.
  assert (Hpos : 0 < Qabs peak).
  { destruct (Qlt_le_dec 0 peak) as [Hp | Hp].
    - rewrite Qabs_pos; lra.
    - destruct (Qlt_le_dec peak 0) as [Hn | Hn].
      + rewrite Qabs_neg; lra.
      + exfalso. apply E. now apply Qle_antisym. }
  apply Qle_shift_div_l; [exact Hpos | lra].
Qed.

(** The loop keeps the running maximum of the series as its peak. *)
Lemma drawdown_loop_peak (values : list Q) :
  forall max_dd peak,
    snd (fold_left drawdown_step values (max_dd, peak))
    = fold_left py_max values peak.
Proof.
  induction values as [|v values IH]; intros max_dd peak; [reflexivity|].
  cbn [fold_left]. unfold drawdown_step at 2. rewrite IH. reflexivity.
Qed.

Lemma calculate_drawdown_unfold (first : Q) (front : list Q) (final : Q)
    (rest : list Q) :
  first :: rest = front ++ [final] ->
  let st := fold_left drawdown_step front (0, first) in
  fst (fold_left drawdown_step (first :: rest) (0, first))
  = py_max (fst st) (drawdown_from (py_max (snd st) final) final)
  /\ fold_left py_max rest first = py_max (snd st) final
  /\ List.last rest first = final.
Proof.
  intros E st. split; [|split].
  - rewrite E, fold_left_app. cbn [fold_left]. fold st.
    destruct st as [m p]. reflexivity.
  - assert (H : fold_left py_max (first :: rest) first = fold_left py_max rest first).
    { cbn [fold_left]. now rewrite py_max_same. }
    rewrite <- H, E, fold_left_app. cbn [fold_left].
    subst st. now rewrite drawdown_loop_peak.
  - replace (List.last rest first) with (List.last (first :: rest) first)
      by (destruct rest; reflexivity).
    rewrite E. apply last_last.
Qed.

(** C10. For every list of trades the pair [(max_drawdown,
    current_drawdown)] returned by the drawdown computation has
    [current_drawdown <= max_drawdown] and both components non-negative; for
    the empty list it is (0, 0). *)
Theorem drawdown_bounds :
  _calculate_drawdown [] = (0, 0)
  /\ forall trades,
       snd (_calculate_drawdown trades) <= fst (_calculate_drawdown trades)
       /\ 0 <= snd (_calculate_drawdown trades)
       /\ 0 <= fst (_calculate_drawdown trades).
Proof.
  split; [reflexivity|]. intros trades. unfold _calculate_drawdown.
  destruct (cumulative 0 trades) as [|first rest]; [cbn; lra|].
  cbv zeta. cbn [fst snd].
  destruct (@exists_last _ (first :: rest)) as (front & final & E); [discriminate|].
  destruct (calculate_drawdown_unfold first front final rest E) as (Hm & Hp & Hl).
  rewrite Hm, Hp, Hl.
  set (peak := py_max (snd (fold_left drawdown_step front (0, first))) final).
  assert (Hcur : 0 <= drawdown_from peak final)
    by (apply drawdown_from_nonneg, py_max_ge_r).
  pose proof (py_max_ge_r (fst (fold_left drawdown_step front (0, first)))
                          (drawdown_from peak final)) as Hmax.
  repeat split; lra.
Qed.

(** Three trades of +100, -50 and +30: the series 100, 50, 80 peaks at 100,
    falls by one half and ends one fifth below the peak. *)
Example drawdown_of_three_trades :
  _calculate_drawdown
    [mk_trade "SPY" "t1" 100; mk_trade "SPY" "t2" (-50); mk_trade "SPY" "t3" 30]
  = (50 # 100, 20 # 100).
Proof. vm_compute. reflexivity. Qed.

(** C7. On a performance record, [should_optimize] is true exactly when one
    of the four triggers holds: at least 5 consecutive losses; at least 20
    trades with a win rate below 0.40; a current drawdown above 0.15; at
    least 20 trades with a negative total P&L.  With at least 5 consecutive
    losses the answer is true with the reason "5 consecutive losses",
    whatever the other fields are. *)
Theorem optimization_trigger_conditions
    (format_percent format_2f : Q -> string) (perf : performance) :
  (fst (check_optimization_triggers format_percent format_2f (Some perf)) = true
   <-> (5 <= consecutive_losses perf)%Z
       \/ ((20 <= total_trades perf)%Z /\ win_rate perf < 2 # 5)
       \/ 3 # 20 < current_drawdown perf
       \/ ((20 <= total_trades perf)%Z /\ total_pnl perf < 0))
  /\ ((5 <= consecutive_losses perf)%Z ->
      check_optimization_triggers format_percent format_2f (Some perf)
      = (true, "5 consecutive losses"%string)).
Proof.
  unfold check_optimization_triggers.
  destruct (Z.leb_spec 5 (consecutive_losses perf)) as [H5 | H5].
  { split; [cbn [fst]; tauto | reflexivity]. }
  split; [|lia].
  destruct (Z.leb_spec 20 (total_trades perf)) as [H20 | H20]; cbn [andb].
  - destruct (Qltb (win_rate perf) (2 # 5)) eqn:Hw.
    { apply Qltb_true in Hw. cbn [fst]. tauto. }
    apply Qltb_false in Hw.
    destruct (Qltb (3 # 20) (current_drawdown perf)) eqn:Hd.
    { apply Qltb_true in Hd. cbn [fst]. tauto. }
    apply Qltb_false in Hd.
    destruct (Qltb (total_pnl perf) 0) eqn:Hp; cbn [fst].
    + apply Qltb_true in Hp. tauto.
    + apply Qltb_false in Hp.
      split; [discriminate|]. intros [H | [[_ H] | [H | [_ H]]]]; [lia | lra..].
  - destruct (Qltb (3 # 20) (current_drawdown perf)) eqn:Hd; cbn [fst].
    + apply Qltb_true in Hd. tauto.
    + apply Qltb_false in Hd.
      split; [discriminate|]. intros [H | [[H _] | [H | [H _]]]]; [lia | lia | lra | lia].
Qed.

(** Five consecutive losses on a profitable strategy. *)
Lemma optimization_trigger_conditions_witness :
  check_optimization_triggers (fun _ => ""%string) (fun _ => ""%string)
    (Some (mk_performance 12 7 5 5 1250 (7 # 12) 2 (1 # 10) (1 # 20) (25 # 2)))
  = (true, "5 consecutive losses"%string).
Proof.
  apply (proj2 (optimization_trigger_conditions
                  (fun _ => ""%string) (fun _ => ""%string)
                  (mk_performance 12 7 5 5 1250 (7 # 12) 2 (1 # 10) (1 # 20)
                                  (25 # 2)))).
  cbn [consecutive_losses]. lia.
Defined.

End StrategyAnalyticsFacts.

(** * Further properties of the ledger code *)

(** ** scripts/backfill_pnl.py: matching against the whole queue *)

Module BackfillPnlExtra.
Import BackfillPnl BackfillPnlFacts.

Definition sum_new_pnl (us : list update) : Q :=
  fold_right (fun u acc => new_pnl u + acc) 0 us.

Lemma total_quantity_nonneg (lots : list lot) :
  List.Forall (fun l => 0 < lot_quantity l) lots -> 0 <= total_quantity lots.
Proof.
  induction 1 as [|l lots Hl _ IH]; cbn [total_quantity fold_right]; [lra|].
  fold (total_quantity lots). lra.
Qed.

Lemma match_lots_remaining (P : Q) (lots : list lot) :
  List.Forall (fun l => 0 < lot_quantity l) lots ->
  forall rem acc, 0 <= rem ->
    (total_quantity lots <= rem ->
     snd (match_lots P rem acc lots) = []
     /\ snd (fst (match_lots P rem acc lots)) == rem - total_quantity lots)
    /\ (rem <= total_quantity lots ->
        snd (fst (match_lots P rem acc lots)) == 0).
Proof.
  induction 1 as [|l lots Hl Hpos IH]; intros rem acc Hrem.
  - cbn. split; [intros _; split; [reflexivity | ring] | intros H; lra].
  - pose proof (total_quantity_nonneg lots Hpos) as Hnn.
    cbn [match_lots total_quantity fold_right]. fold (total_quantity lots).
    destruct (Qltb 0 rem) eqn:Hr.
    + destruct (Qle_bool (lot_quantity l) rem) eqn:Hle.
      * apply Qle_bool_iff in Hle.
        destruct (IH (rem - lot_quantity l)
                     (acc + (P - lot_price l) * lot_quantity l)) as [IH1 IH2];
          [lra|].
        split.
        -- intros Ht. destruct IH1 as [E1 E2]; [lra|].
           split; [exact E1|]. rewrite E2. ring.
        -- intros Ht. apply IH2. lra.
      * apply Qle_bool_false in Hle. cbn [fst snd].
        split; [intros Ht; lra | intros _; reflexivity].
    + apply Qltb_false in Hr. cbn [fst snd].
      split; [intros Ht; lra | intros _; lra].
Qed.

(** X1. Against a queue of lots of positive quantity, a sell of a
    non-negative quantity either exhausts the queue or is filled.  When the
    queue holds no more than the sell asks for, the queue is emptied, the
    unmatched remainder is the quantity minus what the queue held, and what
    is realized is the proceeds of the queue's quantity minus the queue's
    cost: the unmatched part contributes nothing.  When the queue holds at
    least the quantity, nothing remains unmatched. *)
Theorem sell_fills_or_exhausts_queue (P : Q) (lots : list lot) (rem acc : Q) :
  List.Forall (fun l => 0 < lot_quantity l) lots ->
  0 <= rem ->
  (total_quantity lots <= rem ->
   snd (match_lots P rem acc lots) = []
   /\ snd (fst (match_lots P rem acc lots)) == rem - total_quantity lots
   /\ fst (fst (match_lots P rem acc lots)) - acc
      == P * total_quantity lots - cost lots)
  /\ (rem <= total_quantity lots ->
      snd (fst (match_lots P rem acc lots)) == 0
      /\ total_quantity (snd (match_lots P rem acc lots))
         == total_quantity lots - rem).
Proof.
  intros Hpos Hrem.
  destruct (match_lots_remaining P lots Hpos rem acc Hrem) as [H1 H2].
  pose proof (match_lots_accounting P lots rem acc) as Hacc.
  cbv zeta in Hacc. destruct Hacc as [Ha Hq].
  split.
  - intros Ht. destruct (H1 Ht) as [E1 E2]. split; [exact E1|].
    split; [exact E2|].
    rewrite Ha, E1, E2. cbn [cost fold_right]. ring.
  - intros Ht. specialize (H2 Ht). split; [exact H2|].
    rewrite Hq, H2. ring.
Qed.

(** An oversold symbol: 100 shares in two lots against a sell of 130. *)
Lemma sell_fills_or_exhausts_queue_witness :
  (total_quantity [mk_lot 400 50 "a"; mk_lot 410 50 "b"] <= 130 ->
   snd (match_lots 430 130 0 [mk_lot 400 50 "a"; mk_lot 410 50 "b"]) = []
   /\ snd (fst (match_lots 430 130 0 [mk_lot 400 50 "a"; mk_lot 410 50 "b"]))
      == 130 - total_quantity [mk_lot 400 50 "a"; mk_lot 410 50 "b"]
   /\ fst (fst (match_lots 430 130 0 [mk_lot 400 50 "a"; mk_lot 410 50 "b"])) - 0
      == 430 * total_quantity [mk_lot 400 50 "a"; mk_lot 410 50 "b"]
         - cost [mk_lot 400 50 "a"; mk_lot 410 50 "b"])
  /\ (130 <= total_quantity [mk_lot 400 50 "a"; mk_lot 410 50 "b"] ->
      snd (fst (match_lots 430 130 0 [mk_lot 400 50 "a"; mk_lot 410 50 "b"])) == 0
      /\ total_quantity
           (snd (match_lots 430 130 0 [mk_lot 400 50 "a"; mk_lot 410 50 "b"]))
         == total_quantity [mk_lot 400 50 "a"; mk_lot 410 50 "b"] - 130).
Proof.
  apply (sell_fills_or_exhausts_queue 430
           [mk_lot 400 50 "a"; mk_lot 410 50 "b"] 130 0).
  - repeat constructor.
  - unfold Qle. cbn. lia.
Defined.

Lemma proposal_inv (ps : gmap string (list lot)) (o : order) (u : update) :
  In u (proposal ps o) ->
  upper (side o) = "SELL"%string
  /\ u = mk_update (id o) (symbol o) (current_pnl_of o) (new_pnl u) (timestamp o)
  /\ 1 # 1000 < Qabs (new_pnl u - current_pnl_of o).
Proof.
  unfold proposal, process_order. cbn [positions updates].
  destruct (String.eqb (upper (side o)) "BUY"); [intros []|].
  destruct (String.eqb_spec (upper (side o)) "SELL") as [Hs|_]; [|intros []].
  destruct (match_lots _ _ _ _) as [[calc rem] lots'].
  destruct (Qltb (1 # 1000) (Qabs (calc - current_pnl_of o))) eqn:Hd;
    cbn [updates app]; [|intros []].
  intros [<- | []]. cbn [new_pnl]. apply Qltb_true in Hd. now repeat split.
Qed.

Lemma proposals_inv (os : list order) :
  forall ps u,
    In u (proposals ps os) ->
    exists o q, In o os /\ In u (proposal q o).
Proof.
  induction os as [|o os IH]; intros ps u; cbn [proposals]; [intros []|].
  rewrite in_app_iff. intros [H | H].
  - exists o, ps. split; [now left | exact H].
  - destruct (IH _ _ H) as (o' & q & Hin & Hp).
    exists o', q. split; [now right | exact Hp].
Qed.

(** X2. Every update the scan proposes is for a SELL order of the history:
    it carries that order's id and symbol, its old value is the stored P&L
    of that order (0 for NULL), and the recomputed value differs from it by
    more than 0.001.  No BUY order is ever proposed for an update. *)
Theorem updates_are_for_sell_orders (os : list order) (u : update) :
  In u (updates (scan os)) ->
  exists o,
    In o os
    /\ upper (side o) = "SELL"%string
    /\ u_id u = id o
    /\ u_symbol u = symbol o
    /\ old_pnl u = current_pnl_of o
    /\ 1 # 1000 < Qabs (new_pnl u - old_pnl u).
Proof.
  rewrite scan_updates. intros H.
  destruct (proposals_inv _ _ _ H) as (o & q & Hin & Hp).
  exists o. split; [exact Hin|].
  destruct (proposal_inv _ _ _ Hp) as (Hs & -> & Hd).
  cbn [u_id u_symbol old_pnl new_pnl]. now repeat split.
Qed.

Lemma updates_are_for_sell_orders_witness :
  exists o,
    In o msft_history
    /\ upper (side o) = "SELL"%string
    /\ u_id (mk_update 2 "MSFT" 0 600 "2024-01-05") = id o
    /\ u_symbol (mk_update 2 "MSFT" 0 600 "2024-01-05") = symbol o
    /\ old_pnl (mk_update 2 "MSFT" 0 600 "2024-01-05") = current_pnl_of o
    /\ 1 # 1000 < Qabs (new_pnl (mk_update 2 "MSFT" 0 600 "2024-01-05")
                        - old_pnl (mk_update 2 "MSFT" 0 600 "2024-01-05")).
Proof.
  apply (updates_are_for_sell_orders msft_history
           (mk_update 2 "MSFT" 0 600 "2024-01-05")).
  vm_compute. left. reflexivity.
Defined.

Lemma process_order_total (st : state) (o : order) :
  total_pnl (process_order st o)
  == total_pnl st + sum_new_pnl (proposal (positions st) o).
Proof.
  unfold proposal, process_order. cbn [positions updates total_pnl].
  destruct (String.eqb (upper (side o)) "BUY");
    [cbn [total_pnl updates sum_new_pnl fold_right]; ring|].
  destruct (String.eqb (upper (side o)) "SELL");
    [|cbn [updates sum_new_pnl fold_right]; ring].
  destruct (match_lots _ _ _ _) as [[calc rem] lots'].
  destruct (Qltb (1 # 1000) _);
    cbn [total_pnl updates app sum_new_pnl fold_right new_pnl]; ring.
Qed.

Lemma sum_new_pnl_app (xs ys : list update) :
  sum_new_pnl (xs ++ ys) == sum_new_pnl xs + sum_new_pnl ys.
Proof.
  induction xs as [|x xs IH].
  - change (sum_new_pnl ([] ++ ys)) with (sum_new_pnl ys).
    change (sum_new_pnl []) with 0. ring.
  - change (sum_new_pnl ((x :: xs) ++ ys))
      with (new_pnl x + sum_new_pnl (xs ++ ys)).
    change (sum_new_pnl (x :: xs)) with (new_pnl x + sum_new_pnl xs).
    rewrite IH. ring.
Qed.

Lemma run_total (os : list order) :
  forall st,
    total_pnl (fold_left process_order os st)
    == total_pnl st + sum_new_pnl (proposals (positions st) os).
Proof.
  induction os as [|o os IH]; intros st; cbn [fold_left proposals].
  - cbn. ring.
  - rewrite IH, process_order_total, process_order_positions, sum_new_pnl_app.
    ring.
Qed.

(** X3. The "Total calculated P&L" of a run is the sum of the new values of
    the updates it proposes: sells whose stored value is already within
    0.001 of the recomputed one are counted neither in the updates nor in
    the total. *)
Theorem total_pnl_sums_proposed_updates (os : list order) :
  total_pnl (scan os) == sum_new_pnl (updates (scan os)).
Proof.
  rewrite scan_updates. unfold scan. rewrite run_total.
  cbn [total_pnl positions initial_state]. ring.
Qed.

(** X4. The value proposed for a SELL order is the proceeds of the shares
    that left the queue of its symbol minus what those shares cost: the
    order's price times the drop in the queue's total quantity, minus the
    drop in the queue's total cost. *)
Theorem sell_realizes_proceeds_minus_cost (st : state) (o : order) (u : update) :
  In u (proposal (positions st) o) ->
  new_pnl u
  == price o * (total_quantity (lots_of (positions st) (symbol o))
                - total_quantity (lots_of (positions (process_order st o))
                                          (symbol o)))
     - (cost (lots_of (positions st) (symbol o))
        - cost (lots_of (positions (process_order st o)) (symbol o))).
Proof.
  intros Hu. rewrite process_order_queue. unfold queue_after.
  revert Hu. unfold proposal, process_order. cbn [positions updates].
  destruct (String.eqb (upper (side o)) "BUY"); [intros []|].
  destruct (String.eqb (upper (side o)) "SELL"); [|intros []].
  pose proof (match_lots_accounting (price o)
                (lots_of (positions st) (symbol o)) (quantity o) 0) as Hacc.
  cbv zeta in Hacc. destruct Hacc as [Ha Hq].
  destruct (match_lots (price o) (quantity o) 0
              (lots_of (positions st) (symbol o))) as [[calc rem] lots'].
  cbn [fst snd] in *.
  destruct (Qltb (1 # 1000) _); cbn [updates app]; [|intros []].
  intros [<- | []]. cbn [new_pnl]. rewrite Hq.
  assert (E : calc == calc - 0) by ring. rewrite E, Ha. ring.
Qed.

(** The second sell of the MSFT history, against the 70 shares left at 300. *)
Definition msft_open : state :=
  mk_state (<["MSFT"%string := [mk_lot 300 70 "2024-01-01"]]> ∅) [] 0 [].

Definition msft_sell : order :=
  mk_order 3 "MSFT" "sell" 40 310 "2024-01-10" (Some 0).

Definition msft_update : update := mk_update 3 "MSFT" 0 400 "2024-01-10".

Lemma sell_realizes_proceeds_minus_cost_witness :
  new_pnl msft_update
  == price msft_sell
     * (total_quantity (lots_of (positions msft_open) (symbol msft_sell))
        - total_quantity
            (lots_of (positions (process_order msft_open msft_sell))
                     (symbol msft_sell)))
     - (cost (lots_of (positions msft_open) (symbol msft_sell))
        - cost (lots_of (positions (process_order msft_open msft_sell))
                        (symbol msft_sell))).
Proof.
  apply (sell_realizes_proceeds_minus_cost msft_open msft_sell msft_update).
  vm_compute. left. reflexivity.
Defined.

(** X5. The queue of a symbol is first in, first out: a BUY appends its lot
    at the back of the queue; a SELL leaves a queue that is the old one with
    lots dropped from the front, the first lot left possibly reduced in
    quantity, and every lot behind it as it was and in the same order. *)
Theorem queue_is_first_in_first_out (st : state) (o : order) :
  (upper (side o) = "BUY"%string ->
   lots_of (positions (process_order st o)) (symbol o)
   = lots_of (positions st) (symbol o)
     ++ [mk_lot (price o) (quantity o) (timestamp o)])
  /\ (upper (side o) = "SELL"%string ->
      exists front,
        lots_of (positions st) (symbol o)
        = front ++ lots_of (positions (process_order st o)) (symbol o)
        \/ exists oldest back r,
             lots_of (positions st) (symbol o) = front ++ oldest :: back
             /\ lots_of (positions (process_order st o)) (symbol o)
                = shrink oldest r :: back).
Proof.
  rewrite process_order_queue. unfold queue_after. split; intros Hs; rewrite Hs.
  - reflexivity.
  - change (String.eqb "SELL" "BUY") with false.
    change (String.eqb "SELL" "SELL") with true. cbv iota.
    apply match_lots_suffix.
Qed.

Lemma apply_update_rows (table : list order) (u : update) (o' : order) :
  In o' (apply_update table u) ->
  In o' table
  \/ exists o, In o table /\ id o = u_id u /\ o' = set_pnl o (new_pnl u).
Proof.
  unfold apply_update. rewrite in_map_iff. intros (o & <- & Hin).
  destruct (Z.eqb_spec (id o) (u_id u)) as [E|_]; [|now left].
  right. exists o. now repeat split.
Qed.

Lemma apply_updates_rows (us : list update) :
  forall table o',
    In o' (fold_left apply_update us table) ->
    exists o, In o table /\ forget_pnl o' = forget_pnl o
              /\ (pnl o' = pnl o
                  \/ exists u, In u us /\ u_id u = id o
                               /\ pnl o' = Some (new_pnl u)).
Proof.
  induction us as [|u us IH]; intros table o'; cbn [fold_left].
  - intros H. exists o'. repeat split; [exact H | now left].
  - intros H. destruct (IH _ _ H) as (o1 & Hin1 & Hf & Hp).
    destruct (apply_update_rows _ _ _ Hin1) as [Hin | (o & Hin & Hid & ->)].
    + exists o1. repeat split; [exact Hin | exact Hf |].
      destruct Hp as [Hp | (u' & Hu' & Hid' & Hp)]; [now left|].
      right. exists u'. repeat split; [now right | exact Hid' | exact Hp].
    + exists o. repeat split; [exact Hin | exact Hf |].
      right. destruct Hp as [Hp | (u' & Hu' & Hid' & Hp)].
      * exists u. repeat split; [now left | now symmetry | exact Hp].
      * exists u'. repeat split; [now right | exact Hid' | exact Hp].
Qed.

(** X6. In either mode the backfill keeps the rows of the table and every
    column of them but [pnl]; a dry run writes nothing; and each row of the
    table after a live run holds either the P&L it held before or a value
    the run proposed for an order with that row's id. *)
Theorem backfill_writes_proposed_pnl_only (table : list order) (dry_run : bool) :
  map forget_pnl (fst (backfill_pnl table dry_run)) = map forget_pnl table
  /\ (dry_run = true -> fst (backfill_pnl table dry_run) = table)
  /\ forall o',
       In o' (fst (backfill_pnl table dry_run)) ->
       exists o,
         In o table
         /\ forget_pnl o' = forget_pnl o
         /\ (pnl o' = pnl o
             \/ exists u, In u (updates (snd (backfill_pnl table dry_run)))
                          /\ u_id u = id o
                          /\ pnl o' = Some (new_pnl u)).
Proof.
  split; [apply backfill_pnl_frame|].
  split; [intros ->; apply backfill_dry_run|].
  intros o' H. destruct dry_run.
  - rewrite backfill_dry_run in H. exists o'. repeat split; [exact H | now left].
  - rewrite backfill_table in H.
    assert (Hs : snd (backfill_pnl table false) = scan (fetch_orders table)).
    { unfold backfill_pnl. now destruct (updates (scan (fetch_orders table))). }
    rewrite Hs. now apply apply_updates_rows.
Qed.

End BackfillPnlExtra.

(** ** stop_loss_monitor.py: what a pass may and may not submit *)

Module StopLossMonitorExtra.
Import StopLossMonitor StopLossMonitorFacts.

Lemma monitored_rows (rows : list position_row) :
  forall p,
    In p (get_positions_with_stop_loss rows) ->
    exists row,
      In row rows
      /\ row_symbol row = symbol p
      /\ row_quantity row = quantity p
      /\ row_stop_loss row = Some (stop_loss p)
      /\ 0 < stop_loss p.
Proof.
  induction rows as [|row rows IH]; intros p;
    cbn [get_positions_with_stop_loss]; [intros []|].
  assert (Hrest : In p (get_positions_with_stop_loss rows) ->
                  exists row0, In row0 (row :: rows)
                               /\ row_symbol row0 = symbol p
                               /\ row_quantity row0 = quantity p
                               /\ row_stop_loss row0 = Some (stop_loss p)
                               /\ 0 < stop_loss p).
  { intros H. destruct (IH p H) as (r & Hin & Hr). exists r.
    split; [now right | exact Hr]. }
  destruct (row_stop_loss row) as [sl|] eqn:Hsl; [|exact Hrest].
  destruct (Qltb 0 sl) eqn:Hpos; [|exact Hrest].
  intros [<- | H]; [|now apply Hrest].
  exists row. cbn [symbol quantity stop_loss].
  repeat split; [now left | exact Hsl | now apply Qltb_true].
Qed.

(** X7. Whatever the API answers, every order a pass submits is a market
    sell for a row of [positions] whose stop-loss is set and positive, whose
    quote was served and is at or below that stop, and its quantity is the
    row's quantity truncated to a whole number.  The monitor never buys,
    never orders for a position without a stop, and never orders without a
    quote. *)
Theorem orders_only_for_stops_that_are_hit
    (a : api) (rows : list position_row) (o : order_data) :
  In o (orders_placed (check_stop_losses a rows)) ->
  od_side o = "sell"%string
  /\ od_order_type o = "market"%string
  /\ exists row stop current_price,
       In row rows
       /\ row_symbol row = od_symbol o
       /\ row_stop_loss row = Some stop
       /\ 0 < stop
       /\ get_current_price a (od_symbol o) = Some current_price
       /\ current_price <= stop
       /\ od_quantity o = int_of (row_quantity row).
Proof.
  unfold check_stop_losses. rewrite check_positions_orders.
  rewrite in_map_iff. intros (p & <- & Hp).
  apply filter_In in Hp. destruct Hp as [Hin Ht].
  cbn [sell_order od_side od_order_type od_symbol od_quantity].
  split; [reflexivity|]. split; [reflexivity|].
  destruct (monitored_rows rows p Hin) as (row & Hrow & Hs & Hq & Hsl & Hpos).
  unfold triggered in Ht.
  destruct (get_current_price a (symbol p)) as [cp|] eqn:Hcp; [|discriminate].
  exists row, (stop_loss p), cp. rewrite Hq.
  repeat split; try assumption. now apply Qle_bool_iff.
Qed.

Lemma orders_only_for_stops_that_are_hit_witness :
  od_side (mk_order_data "AMD" "sell" 10 "market") = "sell"%string
  /\ od_order_type (mk_order_data "AMD" "sell" 10 "market") = "market"%string
  /\ exists row stop current_price,
       In row [amd_row]
       /\ row_symbol row = od_symbol (mk_order_data "AMD" "sell" 10 "market")
       /\ row_stop_loss row = Some stop
       /\ 0 < stop
       /\ get_current_price amd_api
            (od_symbol (mk_order_data "AMD" "sell" 10 "market"))
          = Some current_price
       /\ current_price <= stop
       /\ od_quantity (mk_order_data "AMD" "sell" 10 "market")
          = int_of (row_quantity row).
Proof.
  apply (orders_only_for_stops_that_are_hit amd_api [amd_row]
           (mk_order_data "AMD" "sell" 10 "market")).
  vm_compute. left. reflexivity.
Defined.

(** X8. When no quote can be had (the positions endpoint raises, or answers
    with a status other than 200, for every symbol) a pass does nothing at
    all: no alert, no order. *)
Theorem no_quote_no_action (a : api) (rows : list position_row) :
  (forall sym body, get_positions a sym <> Http_response 200 body) ->
  check_stop_losses a rows = [].
Proof.
  intros Hfail.
  assert (Hq : forall sym, get_current_price a sym = None).
  { intros sym. unfold get_current_price.
    pose proof (Hfail sym) as H.
    destruct (get_positions a sym) as [|code body]; [reflexivity|].
    destruct (Z.eq_dec code 200%Z) as [->|Hne]; [now contradiction (H body)|].
    destruct code as [|c|c]; try reflexivity.
    repeat (destruct c as [c|c|]; try reflexivity); congruence. }
  unfold check_stop_losses.
  induction (get_positions_with_stop_loss rows) as [|p ps IH]; [reflexivity|].
  cbn [check_positions]. now rewrite Hq.
Qed.

Lemma no_quote_no_action_witness :
  check_stop_losses (mk_api (fun _ => Http_exception)
                            (fun _ => Http_response 200 tt)) [amd_row] = [].
Proof.
  apply (no_quote_no_action
           (mk_api (fun _ => Http_exception) (fun _ => Http_response 200 tt))
           [amd_row]).
  intros sym body. cbn. discriminate.
Defined.

(** X9. With one row per symbol among the monitored positions, a position
    whose stop is hit gets exactly one order in a pass, and a position whose
    stop is not hit (or whose quote is missing) gets none. *)
Theorem one_order_when_hit_none_otherwise
    (a : api) (ps : list position) (p : position) :
  List.NoDup (map symbol ps) -> In p ps ->
  List.filter (fun o => String.eqb (od_symbol o) (symbol p))
              (orders_placed (check_positions a ps))
  = if triggered a p then [sell_order (symbol p) (quantity p)] else [].
Proof.
  intros Hnd Hin. destruct (triggered a p) eqn:Ht.
  - now apply one_order_per_triggered_position.
  - rewrite check_positions_orders.
    induction ps as [|q ps IH]; [reflexivity|].
    cbn [map] in Hnd. inversion Hnd as [|x xs Hnotin Hnd' [Hx Hxs]]; subst.
    cbn [List.filter]. destruct Hin as [-> | Hin].
    + rewrite Ht.
      pose proof (no_order_for_other_symbols a (symbol p) ps Hnotin) as Hrest.
      now rewrite check_positions_orders in Hrest.
    + specialize (IH Hnd' Hin).
      destruct (triggered a q); [|exact IH].
      cbn [map List.filter sell_order od_symbol].
      destruct (String.eqb_spec (symbol q) (symbol p)) as [E|_]; [|exact IH].
      exfalso. apply Hnotin. rewrite E. now apply in_map.
Qed.

Lemma one_order_when_hit_none_otherwise_witness :
  List.filter (fun o => String.eqb (od_symbol o)
                                   (symbol (mk_position "AMD" 10 100 95)))
              (orders_placed
                 (check_positions amd_api
                    [mk_position "AMD" 10 100 95; mk_position "NVDA" 5 500 90]))
  = if triggered amd_api (mk_position "AMD" 10 100 95)
    then [sell_order (symbol (mk_position "AMD" 10 100 95))
                     (quantity (mk_position "AMD" 10 100 95))]
    else [].
Proof.
  apply (one_order_when_hit_none_otherwise amd_api
           [mk_position "AMD" 10 100 95; mk_position "NVDA" 5 500 90]
           (mk_position "AMD" 10 100 95)).
  - cbn. repeat constructor; cbn; intuition discriminate.
  - now left.
Defined.

(** X10. What a pass submits does not depend on how the order endpoint
    answers: a rejected or failed sell is logged and the pass goes on to the
    remaining positions, with no retry within the pass. *)
Theorem failed_sell_does_not_stop_the_pass
    (a1 a2 : api) (rows : list position_row) :
  (forall sym, get_positions a1 sym = get_positions a2 sym) ->
  orders_placed (check_stop_losses a1 rows)
  = orders_placed (check_stop_losses a2 rows).
Proof.
  intros Hget. unfold check_stop_losses. rewrite !check_positions_orders.
  f_equal. apply filter_ext. intros p. unfold triggered, get_current_price.
  now rewrite Hget.
Qed.

Lemma failed_sell_does_not_stop_the_pass_witness :
  orders_placed (check_stop_losses amd_api [amd_row])
  = orders_placed
      (check_stop_losses
         (mk_api (get_positions amd_api) (fun _ => Http_exception)) [amd_row]).
Proof.
  apply (failed_sell_does_not_stop_the_pass amd_api
           (mk_api (get_positions amd_api) (fun _ => Http_exception)) [amd_row]).
  reflexivity.
Defined.

End StopLossMonitorExtra.

(** ** paper_trade_one_candle.py: what an order does to the store *)

Module PaperTraderExtra.
Import PaperTrader PaperTraderFacts.

(** The store a call leaves on the trader's connection, committed or not. *)
Definition store_after (r : outcome) : database :=
  match r with
  | Committed db _ => db
  | Raised _ db => db
  end.

Lemma side_not_buy (side : string) :
  side <> "BUY"%string -> String.eqb side "BUY" = false.
Proof. intros H. now apply String.eqb_neq. Qed.

(** Case analysis on the tests of [place_order], outermost first. *)
Ltac next_test :=
  match goal with
  | |- context [if negb ?b then _ else _] => destruct b eqn:?; cbn [negb]
  | |- context [if negb ?a && negb ?b then _ else _] =>
      destruct a eqn:?, b eqn:?; cbn [negb andb]
  | |- context [match positions ?db !! ?k with _ => _ end] =>
      destruct (positions db !! k) eqn:?
  | |- context [if ?b then _ else _] => destruct b eqn:?
  end.

(** X11. [place_order] never rewrites or removes an earlier order row and
    never touches the position of another symbol, however the call ends.
    When its first INSERT goes through (the orders table has the columns it
    names, the numbers bind and no required column is left out) the order
    history grows by exactly the row of the submission, recorded as filled,
    with "buy" for the side "BUY" and "sell" for any other side; when the
    INSERT is refused the call raises and the store is as it was. *)
Theorem order_history_is_append_only
    (t : tables) (ticker : string) (db : database) (side : string)
    (qty price : number) (reason now : string) :
  let r := place_order t ticker db side qty price reason now in
  (if first_insert_accepted t qty price
   then orders (store_after r)
        = orders db
          ++ [mk_order ticker (if String.eqb side "BUY" then "buy" else "sell")
                       (value_of qty) (value_of price) "filled" now]
   else exists e, r = Raised e db)
  /\ forall other,
       other <> ticker ->
       positions (store_after r) !! other = positions db !! other.
Proof.
  cbv zeta.
  destruct (first_insert_accepted t qty price) eqn:First.
  - unfold first_insert_accepted in First. fold order_columns in First.
    rewrite !andb_true_iff in First. destruct First as [[H1 [H2 H2']] H3].
    unfold place_order, get_account_balance. fold order_columns.
    rewrite H1, H2, H2', H3. cbn [negb andb].
    repeat next_test; cbn [store_after orders positions];
      (split; [reflexivity|]); intros other Hne;
      rewrite ?lookup_insert_ne, ?lookup_delete_ne by congruence; reflexivity.
  - destruct (place_order_refused t ticker db side qty price reason now First)
      as [e ->].
    split; [eauto|reflexivity].
Qed.

(** X12. Any side other than the exact string "BUY" is handled as a sell:
    in particular a lower-case "buy" sells. *)
Theorem any_side_but_BUY_sells
    (t : tables) (ticker : string) (db : database) (side : string)
    (qty price : number) (reason now : string) :
  side <> "BUY"%string ->
  place_order t ticker db side qty price reason now
  = place_order t ticker db "SELL" qty price reason now.
Proof.
  intros H. unfold place_order. rewrite (side_not_buy side H).
  change (String.eqb "SELL" "BUY") with false. reflexivity.
Qed.

Lemma any_side_but_BUY_sells_witness :
  place_order trader_tables "TSLA" tsla_db "buy" (Int 10) (Float 210)
    "entry" "t1"
  = place_order trader_tables "TSLA" tsla_db "SELL" (Int 10) (Float 210)
      "entry" "t1".
Proof.
  apply (any_side_but_BUY_sells trader_tables "TSLA" tsla_db "buy" (Int 10)
           (Float 210) "entry" "t1").
  discriminate.
Defined.

(** X13. A sell that commits leaves the position of the symbol either gone
    or with a positive quantity: it never commits a row with a zero or
    negative quantity.  A sell that raises leaves on the connection either
    such a row or the row as it was before the call. *)
Theorem sell_leaves_no_empty_position
    (t : tables) (ticker : string) (db : database) (side : string)
    (qty price : number) (reason now : string) :
  side <> "BUY"%string ->
  let r := place_order t ticker db side qty price reason now in
  (forall db' out pos',
      r = Committed db' out -> positions db' !! ticker = Some pos' ->
      positions db !! ticker <> None /\ 0 < quantity pos')
  /\ (forall e db' pos',
         r = Raised e db' -> positions db' !! ticker = Some pos' ->
         0 < quantity pos' \/ positions db !! ticker = Some pos').
Proof.
  intros Hside. cbv zeta.
  unfold place_order, get_account_balance. rewrite (side_not_buy side Hside).
  repeat next_test;
    (split;
     [ intros db' out pos' E; try discriminate E;
       injection E as <- _; cbn [positions]
     | intros e db' pos' E; try discriminate E;
       injection E as _ <-; cbn [positions] ]);
    rewrite ?lookup_delete_eq, ?lookup_insert_eq;
    try discriminate;
    try (intros H; right; congruence);
    try (intros [= <-]; cbn [quantity];
         match goal with
         | H : Qle_bool _ 0 = false |- _ => apply Qle_bool_false in H
         end;
         first [ split; [discriminate | assumption] | left; assumption ]).
  all: intros H; congruence.
Qed.

Lemma sell_leaves_no_empty_position_witness :
  let r := place_order trader_tables "TSLA" tsla_db "SELL" (Int 60) (Float 210)
             "trim" "t1" in
  (forall db' out pos',
      r = Committed db' out -> positions db' !! "TSLA"%string = Some pos' ->
      positions tsla_db !! "TSLA"%string <> None /\ 0 < quantity pos')
  /\ (forall e db' pos',
         r = Raised e db' -> positions db' !! "TSLA"%string = Some pos' ->
         0 < quantity pos' \/ positions tsla_db !! "TSLA"%string = Some pos').
Proof.
  apply (sell_leaves_no_empty_position trader_tables "TSLA" tsla_db "SELL"
           (Int 60) (Float 210) "trim" "t1").
  discriminate.
Defined.

(** X14. On tables that accept the statements of [place_order], and with
    numbers that bind, a buy into a position already held keeps the cost
    basis: the new quantity is the sum of the quantities and the new
    quantity times the new average entry price is the old cost plus the
    cost of the buy.  When the quantities cancel out the average divides by
    zero: the call raises [ZeroDivisionError] with the order row written
    but not committed and the position as it was. *)
Theorem buy_averages_the_cost
    (t : tables) (ticker : string) (db : database) (qty price : number)
    (reason now : string) (pos : position_row) :
  accepting t = true -> binds qty = true -> binds price = true ->
  positions db !! ticker = Some pos ->
  (~ quantity pos + value_of qty == 0 ->
   exists db' out pos',
     place_order t ticker db "BUY" qty price reason now = Committed db' out
     /\ positions db' !! ticker = Some pos'
     /\ quantity pos' = quantity pos + value_of qty
     /\ quantity pos' * entry_price pos'
        == quantity pos * entry_price pos + value_of qty * value_of price)
  /\ (quantity pos + value_of qty == 0 ->
      exists db',
        place_order t ticker db "BUY" qty price reason now
        = Raised ZeroDivisionError db'
        /\ positions db' = positions db
        /\ account db' = account db).
Proof.
  intros Ht Hbq Hbp Hpos.
  rewrite (place_order_accepted t _ _ _ _ _ _ _ Ht Hbq Hbp). unfold fill.
  change (String.eqb "BUY" "BUY") with true. cbv iota. rewrite Hpos.
  split; intros Hq.
  - destruct (Qeq_bool (quantity pos + value_of qty) 0) eqn:E.
    { apply Qeq_bool_eq in E. contradiction. }
    eexists _, _, _. split; [reflexivity|].
    cbn [positions]. rewrite lookup_insert_eq.
    split; [reflexivity|]. cbn [quantity entry_price].
    split; [reflexivity|]. field. exact Hq.
  - apply Qeq_bool_iff in Hq. rewrite Hq.
    eexists. split; [reflexivity|]. now split.
Qed.

Lemma buy_averages_the_cost_witness :
  (~ quantity (mk_position 100 200 "t0") + value_of (Int 50) == 0 ->
   exists db' out pos',
     place_order trader_tables "TSLA" tsla_db "BUY" (Int 50) (Float 230)
       "add" "t1" = Committed db' out
     /\ positions db' !! "TSLA"%string = Some pos'
     /\ quantity pos' = quantity (mk_position 100 200 "t0") + value_of (Int 50)
     /\ quantity pos' * entry_price pos'
        == quantity (mk_position 100 200 "t0")
           * entry_price (mk_position 100 200 "t0")
           + value_of (Int 50) * value_of (Float 230))
  /\ (quantity (mk_position 100 200 "t0") + value_of (Int 50) == 0 ->
      exists db',
        place_order trader_tables "TSLA" tsla_db "BUY" (Int 50) (Float 230)
          "add" "t1" = Raised ZeroDivisionError db'
        /\ positions db' = positions tsla_db
        /\ account db' = account tsla_db).
Proof.
  apply (buy_averages_the_cost trader_tables "TSLA" tsla_db (Int 50)
           (Float 230) "add" "t1" (mk_position 100 200 "t0")).
  - reflexivity.
  - reflexivity.
  - reflexivity.
  - vm_compute. reflexivity.
Defined.

(** X15. On tables that accept the statements of [place_order], with
    numbers that bind, an account row in the store, and a quantity and a
    buy price other than zero: buying a symbol that is not held and selling
    the same quantity again commits both orders, leaves the positions
    exactly as they were and moves the cash by the quantity times the
    difference of the two prices. *)
Theorem buy_then_sell_round_trip
    (t : tables) (ticker : string) (db : database)
    (qty buy_price sell_price : number)
    (reason1 now1 reason2 now2 : string) :
  accepting t = true ->
  binds qty = true -> binds buy_price = true -> binds sell_price = true ->
  positions db !! ticker = None ->
  account db <> [] ->
  ~ value_of qty == 0 -> ~ value_of buy_price == 0 ->
  exists db1 out1 db2 out2,
    place_order t ticker db "BUY" qty buy_price reason1 now1
    = Committed db1 out1
    /\ place_order t ticker db1 "SELL" qty sell_price reason2 now2
       = Committed db2 out2
    /\ positions db2 = positions db
    /\ cash_of db2
       == cash_of db
          + value_of qty * (value_of sell_price - value_of buy_price)
    /\ length (orders db2) = S (S (length (orders db))).
Proof.
  intros Ht Hbq Hbb Hbs Hpos Hacc Hq Hp.
  eexists _, _.
  rewrite (place_order_accepted t _ _ _ _ _ _ _ Ht Hbq Hbb).
  unfold fill at 1.
  change (String.eqb "BUY" "BUY") with true. cbv iota. rewrite Hpos.
  set (db1 := mk_database _ _ _).
  assert (H1 : positions db1 !! ticker
               = Some (mk_position (value_of qty) (value_of buy_price) now1))
    by (subst db1; cbn [positions]; apply lookup_insert_eq).
  rewrite (place_order_accepted t _ _ _ _ _ _ _ Ht Hbq Hbs).
  unfold fill.
  change (String.eqb "SELL" "BUY") with false. cbv iota. rewrite H1.
  cbn [quantity entry_price].
  assert (E1 : Qle_bool (value_of qty - value_of qty) 0 = true)
    by (apply Qle_bool_iff; lra).
  assert (E2 : Qeq_bool (value_of buy_price) 0 = false).
  { destruct (Qeq_bool (value_of buy_price) 0) eqn:E; [|reflexivity].
    apply Qeq_bool_eq in E. contradiction. }
  assert (E3 : Qeq_bool (value_of qty) 0 = false).
  { destruct (Qeq_bool (value_of qty) 0) eqn:E; [|reflexivity].
    apply Qeq_bool_eq in E. contradiction. }
  rewrite E1, E2, E3. cbn [orb].
  eexists _, _. split; [reflexivity|]. split; [reflexivity|].
  cbn [positions]. subst db1. cbn [positions orders account].
  split; [now apply delete_insert_id|].
  split.
  - unfold cash_of. cbn [account].
    destruct (account db) as [|row rows]; [contradiction|].
    cbn [set_cash map cash]. ring.
  - rewrite !length_app. cbn. lia.
Qed.

Lemma buy_then_sell_round_trip_witness :
  exists db1 out1 db2 out2,
    place_order trader_tables "NVDA" tsla_db "BUY" (Int 10) (Float 500)
      "entry" "t1" = Committed db1 out1
    /\ place_order trader_tables "NVDA" db1 "SELL" (Int 10) (Float 520)
         "exit" "t2" = Committed db2 out2
    /\ positions db2 = positions tsla_db
    /\ cash_of db2
       == cash_of tsla_db
          + value_of (Int 10) * (value_of (Float 520) - value_of (Float 500))
    /\ length (orders db2) = S (S (length (orders tsla_db))).
Proof.
  apply (buy_then_sell_round_trip trader_tables "NVDA" tsla_db (Int 10)
           (Float 500) (Float 520) "entry" "t1" "exit" "t2").
  - reflexivity.
  - reflexivity.
  - reflexivity.
  - reflexivity.
  - vm_compute. reflexivity.
  - discriminate.
  - intros H. discriminate H.
  - intros H. discriminate H.
Defined.

End PaperTraderExtra.

(** ** paper_trade_one_candle.py: entries and exits *)

Module PaperTraderSignalsExtra.
Import PaperTrader PaperTraderSignals PaperTraderFacts.

(** A trader that has seen a breakout over 100 and waits for the retest,
    with 10,000 in cash and nothing held; and the bar that retests 100. *)
Definition waiting_trader : trader :=
  mk_trader [] [] (Some 100) true None None None None.

Definition cash_only_db : database := mk_database [] ∅ [mk_account 10000 "t0"].

Definition retest_bar : bar := mk_bar "09:45" 101 102 (1001 # 10) 101 5000.

(** A trader holding 19 shares bought at 101, stop 98.98 and target 105.04. *)
Definition holding_trader : trader :=
  mk_trader [] [] (Some 100) false None (Some 101) (Some (9898 # 100))
            (Some (10504 # 100)).

Definition holding_db : database :=
  mk_database [] (<["TSLA"%string := mk_position 19 101 "t1"]> ∅)
              [mk_account 8081 "t1"].

Lemma int_of_le (x : Q) :
  (0 < StopLossMonitor.int_of x)%Z -> inject_Z (StopLossMonitor.int_of x) <= x.
Proof.
  destruct x as [n d]. unfold StopLossMonitor.int_of, Qle, inject_Z.
  cbn [Qnum Qden]. intros Hpos.
  assert (Hn : (0 <= n)%Z).
  { destruct (Z.lt_ge_cases n 0) as [Hneg|]; [|assumption].
    exfalso. pose proof (Z.quot_opp_l n (Z.pos d) ltac:(lia)) as Ho.
    pose proof (Z.quot_pos (- n) (Z.pos d) ltac:(lia) ltac:(lia)). lia. }
  rewrite Z.quot_div_nonneg by lia.
  rewrite Z.mul_1_r. rewrite Z.mul_comm. apply Z.mul_div_le. lia.
Qed.

Lemma detect_retest_inv (self : trader) (b : bar) :
  detect_retest self b = true ->
  exists level,
    self_breakout_level self = Some level
    /\ level * (1 - retest_tolerance) <= low b
    /\ low b <= level * (1 + retest_tolerance).
Proof.
  unfold detect_retest. destruct (negb _); [discriminate|].
  destruct (self_breakout_level self) as [level|]; [|discriminate].
  destruct (Qeq_bool level 0); [discriminate|].
  rewrite andb_true_iff, !Qle_bool_iff. intros [H1 H2]. now exists level.
Qed.

(** A call that commits has appended its order row. *)
Lemma committed_order (t : tables) (ticker : string) (db db' : database)
    (side : string) (qty price : number) (reason now : string)
    (out : list printed) :
  place_order t ticker db side qty price reason now = Committed db' out ->
  orders db'
  = orders db
    ++ [mk_order ticker (if String.eqb side "BUY" then "buy" else "sell")
                 (value_of qty) (value_of price) "filled" now].
Proof.
  unfold place_order, get_account_balance.
  repeat PaperTraderExtra.next_test; intros E; try discriminate E;
    injection E as <- _; reflexivity.
Qed.

(** X16. When the entry signal fires, the buy it places is for a whole,
    positive number of shares at the close of the bar and costs at most the
    configured fifth of the cash; the bar's low lies within 0.3% of the
    level that was broken; the stop is recorded 2% under the entry and the
    target twice that distance above it; and the trader stops waiting for a
    retest. *)
Theorem entry_commits_at_most_a_fifth_of_cash
    (t : tables) (ticker now : string) (entry_reason : Q -> Q -> string)
    (self : trader) (db : database) (current_bar : bar)
    (self' : trader) (db' : database) (out : list printed) :
  0 < close current_bar ->
  check_entry_signal t ticker now entry_reason self db current_bar
  = Returned true self' db' out ->
  exists (shares : Z) (level : Q),
    (0 < shares)%Z
    /\ inject_Z shares * close current_bar
       <= position_size_pct * cash_of db
    /\ orders db'
       = orders db ++ [mk_order ticker "buy" (inject_Z shares)
                                (close current_bar) "filled" now]
    /\ self_breakout_level self' = Some level
    /\ level * (1 - retest_tolerance) <= low current_bar
    /\ low current_bar <= level * (1 + retest_tolerance)
    /\ self_entry_price self' = Some (close current_bar)
    /\ self_stop_price self'
       = Some (close current_bar - close current_bar * stop_loss_pct)
    /\ self_target_price self'
       = Some (close current_bar
               + close current_bar * stop_loss_pct * risk_reward_ratio)
    /\ self_waiting_for_retest self' = false.
Proof.
  intros Hclose. unfold check_entry_signal.
  destruct (self_position self); [discriminate|].
  set (self1 := snd (detect_breakout (identify_swing_levels self) current_bar)).
  destruct (detect_retest self1 current_bar) eqn:Hretest; [|discriminate].
  unfold get_account_balance.
  destruct (has_column (account_columns t) "cash"); [|discriminate].
  destruct (Qeq_bool (close current_bar) 0); [discriminate|].
  set (shares := StopLossMonitor.int_of
                   (cash_of db * position_size_pct / close current_bar)).
  destruct (Z.ltb_spec 0 shares) as [Hpos|]; [|discriminate].
  destruct (place_order t ticker db "BUY" (Int shares)
              (Float (close current_bar)) _ now)
    as [db1 out1|] eqn:Hbuy; [|discriminate].
  intros [= <- <- <-].
  destruct (detect_retest_inv _ _ Hretest) as (level & Hl & Hlow & Hup).
  exists shares, level. cbn [self_breakout_level self_entry_price
                             self_stop_price self_target_price
                             self_waiting_for_retest].
  repeat split; try assumption; try reflexivity.
  - pose proof (int_of_le _ Hpos) as Hle. fold shares in Hle.
    apply (Qmult_le_compat_r _ _ (close current_bar)) in Hle; [|lra].
    eapply Qle_trans; [exact Hle|].
    apply Qle_lteq. right. field. lra.
  - apply (committed_order _ _ _ _ _ _ _ _ _ _ Hbuy).
Qed.

Lemma entry_commits_at_most_a_fifth_of_cash_witness :
  exists (shares : Z) (level : Q),
    (0 < shares)%Z
    /\ inject_Z shares * close retest_bar
       <= position_size_pct * cash_of cash_only_db
    /\ orders (mk_database
                 [mk_order "TSLA" "buy" 19 101 "filled" "t1"]
                 (<["TSLA"%string := mk_position 19 101 "t1"]> ∅)
                 [mk_account (10000 - 19 * 101) "t1"])
       = orders cash_only_db
         ++ [mk_order "TSLA" "buy" (inject_Z shares) (close retest_bar)
                      "filled" "t1"]
    /\ self_breakout_level
         (mk_trader [] [] (Some 100) false None (Some 101)
                    (Some (101 - 101 * stop_loss_pct))
                    (Some (101 + 101 * stop_loss_pct * risk_reward_ratio)))
       = Some level
    /\ level * (1 - retest_tolerance) <= low retest_bar
    /\ low retest_bar <= level * (1 + retest_tolerance)
    /\ self_entry_price
         (mk_trader [] [] (Some 100) false None (Some 101)
                    (Some (101 - 101 * stop_loss_pct))
                    (Some (101 + 101 * stop_loss_pct * risk_reward_ratio)))
       = Some (close retest_bar)
    /\ self_stop_price
         (mk_trader [] [] (Some 100) false None (Some 101)
                    (Some (101 - 101 * stop_loss_pct))
                    (Some (101 + 101 * stop_loss_pct * risk_reward_ratio)))
       = Some (close retest_bar - close retest_bar * stop_loss_pct)
    /\ self_target_price
         (mk_trader [] [] (Some 100) false None (Some 101)
                    (Some (101 - 101 * stop_loss_pct))
                    (Some (101 + 101 * stop_loss_pct * risk_reward_ratio)))
       = Some (close retest_bar
               + close retest_bar * stop_loss_pct * risk_reward_ratio)
    /\ self_waiting_for_retest
         (mk_trader [] [] (Some 100) false None (Some 101)
                    (Some (101 - 101 * stop_loss_pct))
                    (Some (101 + 101 * stop_loss_pct * risk_reward_ratio)))
       = false.
Proof.
  apply (entry_commits_at_most_a_fifth_of_cash trader_tables "TSLA" "t1"
           (fun _ _ => "Entry"%string) waiting_trader cash_only_db retest_bar
           _ _ [Printed_buy 19 101 "Entry"]).
  - reflexivity.
  - reflexivity.
Defined.

Lemma exit_sell (t : tables) (ticker now : string) (self self' : trader)
    (db db' : database) (pos : position_row) (current_price : Q)
    (reason : string) (out : list printed) :
  positions db !! ticker = Some pos ->
  sell_all t ticker now self db pos current_price reason
  = Returned true self' db' out ->
  orders db'
  = orders db ++ [mk_order ticker "sell" (quantity pos) current_price
                           "filled" now]
  /\ positions db' = delete ticker (positions db)
  /\ self_entry_price self' = None
  /\ self_stop_price self' = None
  /\ self_target_price self' = None.
Proof.
  intros Hpos. unfold sell_all.
  destruct (place_order t ticker db "SELL" (Float (quantity pos))
              (Float current_price) reason now) as [db1 out1|] eqn:Hsell;
    [|discriminate].
  intros [= <- <- <-].
  split; [exact (committed_order _ _ _ _ _ _ _ _ _ _ Hsell)|].
  split; [|now repeat split].
  revert Hsell. unfold place_order, get_account_balance.
  change (String.eqb "SELL" "BUY") with false. cbv iota. rewrite Hpos.
  cbn [value_of].
  assert (E : Qle_bool (quantity pos - quantity pos) 0 = true)
    by (apply Qle_bool_iff; lra).
  rewrite E. cbn [negb andb].
  repeat PaperTraderExtra.next_test; intros H; try discriminate H;
    injection H as <- _; reflexivity.
Qed.

Lemma current_position_inv (t : tables) (ticker : string) (db : database)
    (pos : position_row) :
  get_current_position t ticker db = Some (Some pos) ->
  positions db !! ticker = Some pos /\ 0 < quantity pos.
Proof.
  unfold get_current_position. destruct (negb _); [discriminate|].
  destruct (positions db !! ticker) as [p|]; [|discriminate].
  destruct (Qltb 0 (quantity p)) eqn:E; [|discriminate].
  intros [= ->]. split; [reflexivity | now apply Qltb_true].
Qed.

(** X17. Whenever the exit signal fires, for whichever of its three reasons,
    it sells the whole quantity of the position at the close of the bar:
    the position row is deleted, the order appended is a sell of that
    quantity, and the entry, stop and target of the trader are cleared. *)
Theorem exit_closes_the_whole_position
    (t : tables) (ticker now : string) (self : trader) (db : database)
    (current_bar : bar) (is_trading_hours : bool)
    (self' : trader) (db' : database) (out : list printed) :
  check_exit_signal t ticker now self db current_bar is_trading_hours
  = Returned true self' db' out ->
  exists pos,
    positions db !! ticker = Some pos
    /\ 0 < quantity pos
    /\ orders db'
       = orders db ++ [mk_order ticker "sell" (quantity pos)
                                (close current_bar) "filled" now]
    /\ positions db' = delete ticker (positions db)
    /\ self_entry_price self' = None
    /\ self_stop_price self' = None
    /\ self_target_price self' = None.
Proof.
  unfold check_exit_signal.
  destruct (get_current_position t ticker db) as [[pos|]|] eqn:Hcur;
    [|discriminate|discriminate].
  destruct (current_position_inv _ _ _ _ Hcur) as [Hpos Hq].
  intros H. exists pos. split; [exact Hpos|]. split; [exact Hq|].
  destruct (self_stop_price self) as [stop|]; [|discriminate].
  destruct (Qle_bool (close current_bar) stop);
    [exact (exit_sell _ _ _ _ _ _ _ _ _ _ _ Hpos H)|].
  destruct (self_target_price self) as [target|]; [|discriminate].
  destruct (Qle_bool target (close current_bar));
    [exact (exit_sell _ _ _ _ _ _ _ _ _ _ _ Hpos H)|].
  destruct (negb is_trading_hours); [|discriminate].
  exact (exit_sell _ _ _ _ _ _ _ _ _ _ _ Hpos H).
Qed.

Lemma exit_closes_the_whole_position_witness :
  exists pos,
    positions holding_db !! "TSLA"%string = Some pos
    /\ 0 < quantity pos
    /\ orders (mk_database [mk_order "TSLA" "sell" 19 98 "filled" "t2"]
                 (delete "TSLA"%string (positions holding_db))
                 [mk_account (8081 + 19 * 98) "t2"])
       = orders holding_db
         ++ [mk_order "TSLA" "sell" (quantity pos)
                      (close (mk_bar "10:05" 99 99 97 98 4000)) "filled" "t2"]
    /\ positions (mk_database [mk_order "TSLA" "sell" 19 98 "filled" "t2"]
                    (delete "TSLA"%string (positions holding_db))
                    [mk_account (8081 + 19 * 98) "t2"])
       = delete "TSLA"%string (positions holding_db)
    /\ self_entry_price
         (mk_trader [] [] (Some 100) false None None None None) = None
    /\ self_stop_price
         (mk_trader [] [] (Some 100) false None None None None) = None
    /\ self_target_price
         (mk_trader [] [] (Some 100) false None None None None) = None.
Proof.
  apply (exit_closes_the_whole_position trader_tables "TSLA" "t2"
           holding_trader holding_db
           (mk_bar "10:05" 99 99 97 98 4000) true
           _ _ [Printed_sell 19 98 "Stop Loss" ((98 - 101) * 19)
                  ((98 - 101) * 19 / 101 / 19 * 100)]).
  reflexivity.
Defined.

(** X18. On tables that accept the statements of the trader, with a
    position of positive quantity and non-zero entry price, and a stop and
    a target recorded, the exit signal fires exactly when the close is at or
    below the stop, or at or above the target, or the trading window has
    ended; otherwise it returns false and changes neither the trader nor
    the store.  On the tables [init_schema] creates the signal cannot fire:
    whenever one of the three conditions holds for such a position, the
    sell raises [sqlite3.OperationalError] and nothing is written. *)
Theorem exit_fires_on_stop_target_or_close
    (t : tables) (ticker now : string) (self : trader) (db : database)
    (current_bar : bar) (is_trading_hours : bool) (pos : position_row)
    (stop target : Q) :
  positions db !! ticker = Some pos ->
  0 < quantity pos -> ~ entry_price pos == 0 ->
  self_stop_price self = Some stop ->
  self_target_price self = Some target ->
  (accepting t = true ->
   ((exists self' db' out,
        check_exit_signal t ticker now self db current_bar is_trading_hours
        = Returned true self' db' out)
    <-> close current_bar <= stop \/ target <= close current_bar
        \/ is_trading_hours = false)
   /\ (stop < close current_bar -> close current_bar < target ->
       is_trading_hours = true ->
       check_exit_signal t ticker now self db current_bar is_trading_hours
       = Returned false self db []))
  /\ (close current_bar <= stop \/ target <= close current_bar
      \/ is_trading_hours = false ->
      check_exit_signal repository_tables ticker now self db current_bar
        is_trading_hours
      = Signal_raised OperationalError self db).
Proof.
  intros Hpos Hq Hentry Hstop Htarget.
  split.
  - intros Ht.
    destruct (accepting_inv t Ht)
      as (_ & _ & _ & _ & H1 & H2 & H3 & _ & _ & _).
    assert (Hsell : forall price reason,
               exists self' db' out,
                 sell_all t ticker now self db pos price reason
                 = Returned true self' db' out).
    { intros price reason. unfold sell_all.
      rewrite (place_order_accepted t ticker db "SELL" (Float (quantity pos))
                 (Float price) reason now Ht eq_refl eq_refl).
      unfold fill.
      change (String.eqb "SELL" "BUY") with false. cbv iota. rewrite Hpos.
      cbn [value_of].
      assert (E2 : Qeq_bool (entry_price pos) 0 = false).
      { destruct (Qeq_bool (entry_price pos) 0) eqn:E; [|reflexivity].
        apply Qeq_bool_eq in E. contradiction. }
      assert (E3 : Qeq_bool (quantity pos) 0 = false).
      { destruct (Qeq_bool (quantity pos) 0) eqn:E; [|reflexivity].
        apply Qeq_bool_eq in E. lra. }
      rewrite E2, E3. cbn [orb]. now eexists _, _, _. }
    unfold check_exit_signal, get_current_position, has_columns.
    cbn [forallb]. rewrite H1, H2, H3. cbn [negb andb]. rewrite Hpos.
    apply Qltb_true in Hq. rewrite Hq, Hstop, Htarget.
    destruct (Qle_bool (close current_bar) stop) eqn:E1.
    { apply Qle_bool_iff in E1.
      split; [split; [tauto | intros _; apply Hsell]|].
      intros H. lra. }
    apply Qle_bool_false in E1.
    destruct (Qle_bool target (close current_bar)) eqn:E2.
    { apply Qle_bool_iff in E2.
      split; [split; [tauto | intros _; apply Hsell]|].
      intros _ H. lra. }
    apply Qle_bool_false in E2.
    destruct is_trading_hours; cbn [negb].
    + split; [|reflexivity]. split.
      * intros (s & d & o & H). discriminate H.
      * intros [H | [H | H]]; [lra | lra | discriminate].
    + split; [split; [tauto | intros _; apply Hsell]|]. discriminate.
  - intros Hfire.
    assert (Hsell : forall price reason,
               sell_all repository_tables ticker now self db pos price reason
               = Signal_raised OperationalError self db).
    { intros price reason. unfold sell_all.
      now rewrite (proj1 (place_order_on_repository_tables ticker db "SELL"
                            (Float (quantity pos)) (Float price) reason now)). }
    assert (Hc : has_columns (positions_columns repository_tables)
                   ["symbol"; "quantity"; "entry_price"] = true)
      by (vm_compute; reflexivity).
    unfold check_exit_signal, get_current_position.
    rewrite Hc. cbn [negb]. rewrite Hpos.
    apply Qltb_true in Hq. rewrite Hq, Hstop, Htarget.
    destruct (Qle_bool (close current_bar) stop) eqn:E1; [apply Hsell|].
    apply Qle_bool_false in E1.
    destruct (Qle_bool target (close current_bar)) eqn:E2; [apply Hsell|].
    apply Qle_bool_false in E2.
    destruct is_trading_hours; cbn [negb]; [|apply Hsell].
    destruct Hfire as [H | [H | H]]; [lra | lra | discriminate].
Qed.

Lemma exit_fires_on_stop_target_or_close_witness :
  (accepting trader_tables = true ->
   ((exists self' db' out,
        check_exit_signal trader_tables "TSLA" "t2" holding_trader holding_db
          (mk_bar "10:05" 99 99 97 98 4000) true
        = Returned true self' db' out)
    <-> close (mk_bar "10:05" 99 99 97 98 4000) <= 9898 # 100
        \/ 10504 # 100 <= close (mk_bar "10:05" 99 99 97 98 4000)
        \/ true = false)
   /\ (9898 # 100 < close (mk_bar "10:05" 99 99 97 98 4000) ->
       close (mk_bar "10:05" 99 99 97 98 4000) < 10504 # 100 ->
       true = true ->
       check_exit_signal trader_tables "TSLA" "t2" holding_trader holding_db
         (mk_bar "10:05" 99 99 97 98 4000) true
       = Returned false holding_trader holding_db []))
  /\ (close (mk_bar "10:05" 99 99 97 98 4000) <= 9898 # 100
      \/ 10504 # 100 <= close (mk_bar "10:05" 99 99 97 98 4000)
      \/ true = false ->
      check_exit_signal repository_tables "TSLA" "t2" holding_trader
        holding_db (mk_bar "10:05" 99 99 97 98 4000) true
      = Signal_raised OperationalError holding_trader holding_db).
Proof.
  apply (exit_fires_on_stop_target_or_close trader_tables "TSLA" "t2"
           holding_trader holding_db (mk_bar "10:05" 99 99 97 98 4000) true
           (mk_position 19 101 "t1") (9898 # 100) (10504 # 100)).
  - reflexivity.
  - reflexivity.
  - intros H. discriminate H.
  - reflexivity.
  - reflexivity.
Defined.

End PaperTraderSignalsExtra.

(** ** db_manager.py and the migrations: the schema under repetition *)

Module DbManagerExtra.
Import DbManager.

Lemma create_table_tables (name : string) (tb : table) (s : schema) :
  tables (create_table name tb s) = tables s ∪ {[name := tb]}.
Proof.
  unfold create_table. destruct (tables s !! name) as [old|] eqn:E.
  - apply map_eq. intros k. rewrite lookup_union.
    destruct (decide (name = k)) as [<-|Hne].
    + rewrite E, lookup_singleton_eq. reflexivity.
    + rewrite lookup_singleton_ne by exact Hne.
      now destruct (tables s !! k).
  - cbn [tables]. now apply insert_union_singleton_r.
Qed.

Lemma create_table_indexes (name : string) (tb : table) (s : schema) :
  indexes (create_table name tb s) = indexes s.
Proof. unfold create_table. now destruct (tables s !! name). Qed.

Lemma create_index_tables (name : string) (s : schema) :
  tables (create_index name s) = tables s.
Proof. unfold create_index. now destruct (existsb _ _). Qed.

Lemma init_schema_tables (t : db_type) (s : schema) :
  tables (init_schema t s) = tables s ∪ tables (init_schema t empty_store).
Proof.
  unfold init_schema, _create_screener_tables, _create_youtube_strategy_tables,
    _create_trading_tables.
  rewrite !create_index_tables, !create_table_tables.
  change (tables empty_store) with (∅ : gmap string table).
  rewrite (left_id ∅ (∪)). now rewrite !(assoc_L (∪)).
Qed.

Lemma create_index_present (name : string) (s : schema) :
  existsb (String.eqb name) (indexes s) = true -> create_index name s = s.
Proof. intros H. unfold create_index. now rewrite H. Qed.

Lemma create_index_adds (name : string) (s : schema) :
  existsb (String.eqb name) (indexes (create_index name s)) = true.
Proof.
  unfold create_index. destruct (existsb _ (indexes s)) eqn:E; [exact E|].
  cbn [indexes]. rewrite existsb_app. cbn [existsb].
  rewrite String.eqb_refl. now rewrite orb_true_r.
Qed.

Lemma create_index_keeps (name other : string) (s : schema) :
  existsb (String.eqb other) (indexes s) = true ->
  existsb (String.eqb other) (indexes (create_index name s)) = true.
Proof.
  intros H. unfold create_index.
  destruct (existsb (String.eqb name) (indexes s)); [exact H|].
  cbn [indexes]. rewrite existsb_app, H. reflexivity.
Qed.

Lemma schema_eq (s1 s2 : schema) :
  tables s1 = tables s2 -> indexes s1 = indexes s2 -> s1 = s2.
Proof. destruct s1, s2. cbn. now intros -> ->. Qed.

(** X20. [init_schema] is idempotent on any store: running it a second time
    changes neither a table nor the list of indexes. *)
Theorem init_schema_is_idempotent (t : db_type) (s : schema) :
  init_schema t (init_schema t s) = init_schema t s.
Proof.
  apply schema_eq.
  - rewrite (init_schema_tables t (init_schema t s)), init_schema_tables.
    rewrite <- (assoc_L (∪)). now rewrite (idemp_L (∪)).
  - unfold init_schema at 1.
    unfold _create_screener_tables at 1, _create_youtube_strategy_tables at 1,
      _create_trading_tables at 1.
    set (s1 := init_schema t s).
    assert (H1 : existsb (String.eqb "idx_profile_runs_profile_id")
                         (indexes s1) = true).
    { subst s1. unfold init_schema, _create_screener_tables.
      apply create_index_keeps, create_index_adds. }
    assert (H2 : existsb (String.eqb "idx_profile_performance_profile_date")
                         (indexes s1) = true).
    { subst s1. unfold init_schema, _create_screener_tables.
      apply create_index_adds. }
    set (s2 := create_table "profile_performance" _ _).
    assert (E : indexes s2 = indexes s1)
      by (subst s2; now rewrite !create_table_indexes).
    rewrite create_index_present.
    + rewrite create_index_present; [exact E | now rewrite E].
    + rewrite create_index_present; now rewrite E.
Qed.

End DbManagerExtra.

(** ** db_manager.py: [init_schema] on a store that is not empty (SQLite) *)

Module DbManagerSqliteExtra.
Import DbManager DbManagerSqlite.

(** What a statement does to the schema when it is accepted. *)
Definition apply_statement (s : schema) (st : statement) : schema :=
  match st with
  | Create_table name definition => create_table name definition s
  | Create_index name _ _ => create_index name s
  end.

(** The index is there, or the table it is on, if the store has it, has the
    indexed columns. *)
Definition index_ready (s : schema) (name on_table : string)
    (indexed : list string) : bool :=
  existsb (String.eqb name) (indexes s)
  || match tables s !! on_table with
     | Some tb =>
         forallb (fun c => existsb (String.eqb c) (column_names tb)) indexed
     | None => true
     end.

(** No index of the store bears the name of a table [init_schema] has to
    create, and no table bears the name of one of its two indexes. *)
Definition names_free (s : schema) : Prop :=
  (forall name definition,
      In (Create_table name definition) init_schema_statements ->
      tables s !! name = None ->
      existsb (String.eqb name) (indexes s) = false)
  /\ tables s !! "idx_profile_runs_profile_id" = None
  /\ tables s !! "idx_profile_performance_profile_date" = None.

(** A store whose profile_runs table was made without the profile_id
    column. *)
Definition legacy_runs_store : schema :=
  mk_schema
    (<["profile_runs"%string :=
         mk_table [ ("id", "INTEGER PRIMARY KEY");
                    ("run_timestamp", "TEXT NOT NULL") ] []]> ∅)
    [].

Lemma execute_statement_applies (st : statement) (s s' : schema) :
  execute_statement st s = Some s' -> s' = apply_statement s st.
Proof.
  destruct st as [name definition | name on_table indexed];
    cbn [execute_statement apply_statement].
  - unfold create_table. destruct (tables s !! name); [now intros [= <-]|].
    destruct (existsb _ _); [discriminate | now intros [= <-]].
  - unfold create_index.
    destruct (tables s !! on_table); [|discriminate].
    destruct (tables s !! name); [discriminate|].
    destruct (existsb (String.eqb name) (indexes s)); [now intros [= <-]|].
    destruct (forallb _ _); [now intros [= <-] | discriminate].
Qed.

Lemma run_statements_applies (sts : list statement) :
  forall s s',
    run_statements sts s = (true, s') -> s' = fold_left apply_statement sts s.
Proof.
  induction sts as [|st sts IH]; intros s s'; cbn [run_statements fold_left].
  - now intros [= <-].
  - destruct (execute_statement st s) as [s1|] eqn:E; [|discriminate].
    intros H. apply IH in H. now rewrite (execute_statement_applies _ _ _ E) in H.
Qed.

Lemma execute_statement_tables (st : statement) (s s' : schema) (name : string) :
  execute_statement st s = Some s' ->
  tables s' !! name = tables s !! name
  \/ (tables s !! name = None
      /\ exists definition,
           st = Create_table name definition
           /\ tables s' !! name = Some definition).
Proof.
  destruct st as [n definition | n on_table indexed]; cbn [execute_statement].
  - destruct (tables s !! n) eqn:E; [intros [= <-]; now left|].
    destruct (existsb _ _); [discriminate|]. intros [= <-]. cbn [tables].
    destruct (decide (n = name)) as [->|Hne].
    + right. split; [exact E|]. exists definition.
      split; [reflexivity | apply lookup_insert_eq].
    + left. now apply lookup_insert_ne.
  - destruct (tables s !! on_table); [|discriminate].
    destruct (tables s !! n); [discriminate|].
    destruct (existsb _ _); [intros [= <-]; now left|].
    destruct (forallb _ _); [|discriminate]. intros [= <-]. now left.
Qed.

Lemma run_statements_tables (sts : list statement) (name : string) :
  forall s,
    tables (snd (run_statements sts s)) !! name = tables s !! name
    \/ (tables s !! name = None
        /\ exists definition,
             In (Create_table name definition) sts
             /\ tables (snd (run_statements sts s)) !! name = Some definition).
Proof.
  induction sts as [|st sts IH]; intros s; cbn [run_statements].
  - now left.
  - destruct (execute_statement st s) as [s1|] eqn:E; [|now left].
    destruct (execute_statement_tables _ _ _ name E)
      as [Hstep | (Hnone & d & -> & Hd)];
      destruct (IH s1) as [Hrest | (Hnone' & d' & Hin & Hd')].
    + left. congruence.
    + right. split; [congruence|]. exists d'. split; [now right | exact Hd'].
    + right. split; [exact Hnone|]. exists d.
      split; [now left | congruence].
    + congruence.
Qed.

Lemma run_statements_cons (st : statement) (rest : list statement)
    (s : schema) :
  run_statements (st :: rest) s
  = match execute_statement st s with
    | Some s' => run_statements rest s'
    | None => (false, s)
    end.
Proof. reflexivity. Qed.

Lemma init_schema_as_statements (s : schema) :
  init_schema sqlite s = fold_left apply_statement init_schema_statements s.
Proof.
  unfold init_schema, _create_screener_tables, _create_youtube_strategy_tables,
    _create_trading_tables, init_schema_statements.
  cbn [fold_left apply_statement]. reflexivity.
Qed.

Lemma created_table_is_the_repository's (name : string) (definition : table) :
  In (Create_table name definition) init_schema_statements ->
  tables (init_schema sqlite empty_store) !! name = Some definition.
Proof.
  unfold init_schema_statements. cbn [In].
  intros H.
  repeat (destruct H as [H | H];
          [ first [ discriminate H
                  | injection H as <- <-; vm_compute; reflexivity ] |]).
  destruct H.
Qed.

Lemma create_table_accepted (name : string) (definition : table) (s : schema) :
  (tables s !! name = None -> existsb (String.eqb name) (indexes s) = false) ->
  execute_statement (Create_table name definition) s
  = Some (create_table name definition s).
Proof.
  intros H. cbn [execute_statement]. unfold create_table.
  destruct (tables s !! name); [reflexivity|]. now rewrite H.
Qed.

Lemma create_table_lookup_None (name : string) (definition : table)
    (s : schema) (k : string) :
  tables (create_table name definition s) !! k = None -> tables s !! k = None.
Proof.
  rewrite DbManagerExtra.create_table_tables, lookup_union_None. tauto.
Qed.

Lemma create_index_accepted (name on_table : string) (indexed : list string)
    (s : schema) (tb : table) :
  tables s !! on_table = Some tb ->
  tables s !! name = None ->
  (existsb (String.eqb name) (indexes s) = false ->
   forallb (fun c => existsb (String.eqb c) (column_names tb)) indexed = true) ->
  execute_statement (Create_index name on_table indexed) s
  = Some (create_index name s).
Proof.
  intros Ht Hn Hc. cbn [execute_statement]. unfold create_index.
  rewrite Ht, Hn. destruct (existsb (String.eqb name) (indexes s)); [reflexivity|].
  now rewrite Hc.
Qed.

(** The state the two CREATE INDEX statements find when the nine tables went
    through. *)
Lemma init_schema_returns (s : schema) :
  names_free s ->
  index_ready s "idx_profile_runs_profile_id" "profile_runs" ["profile_id"]
  = true ->
  index_ready s "idx_profile_performance_profile_date" "profile_performance"
    ["profile_id"; "date"] = true ->
  run_init_schema s = (true, init_schema sqlite s).
Proof.
  intros (Hfree & Hn1 & Hn2) Hr1 Hr2.
  unfold run_init_schema, init_schema_statements.
  assert (Hfree' : forall name,
             In name ["account"; "positions"; "orders"; "performance";
                      "youtube_strategies"; "strategy_backtests";
                      "screener_profiles"; "profile_runs";
                      "profile_performance"]%string ->
             tables s !! name = None ->
             existsb (String.eqb name) (indexes s) = false).
  { intros name Hin.
    cbn [In] in Hin.
    repeat (destruct Hin as [<- | Hin];
            [ eapply Hfree; unfold init_schema_statements; cbn [In];
              eauto 12 |]).
    destruct Hin. }
  repeat (rewrite run_statements_cons, create_table_accepted
            by (intros H; repeat apply create_table_lookup_None in H;
                rewrite ?DbManagerExtra.create_table_indexes;
                apply Hfree'; [cbn [In]; tauto | exact H]);
          cbv iota beta).
  set (s9 := create_table "profile_performance" _ _).
  assert (Ht9 : tables s9 = tables s ∪ tables (init_schema sqlite empty_store)).
  { rewrite <- DbManagerExtra.init_schema_tables.
    unfold init_schema, _create_screener_tables.
    now rewrite !DbManagerExtra.create_index_tables. }
  assert (Hi9 : indexes s9 = indexes s)
    by (subst s9; now rewrite !DbManagerExtra.create_table_indexes).
  assert (Hlook : forall k,
             tables s9 !! k
             = match tables s !! k with
               | Some e => Some e
               | None => tables (init_schema sqlite empty_store) !! k
               end).
  { intros k. rewrite Ht9, lookup_union.
    destruct (tables s !! k);
      now destruct (tables (init_schema sqlite empty_store) !! k). }
  rewrite run_statements_cons.
  assert (E1 : execute_statement
                 (Create_index "idx_profile_runs_profile_id" "profile_runs"
                    ["profile_id"]) s9
               = Some (create_index "idx_profile_runs_profile_id" s9)).
  { unfold index_ready in Hr1.
    destruct (tables s !! "profile_runs") as [tb|] eqn:Etb.
    - apply (create_index_accepted _ _ _ _ tb).
      + now rewrite Hlook, Etb.
      + rewrite Hlook, Hn1. vm_compute. reflexivity.
      + rewrite Hi9. intros Hex. now rewrite Hex in Hr1.
    - apply (create_index_accepted _ _ _ _ (runs_sql sqlite)).
      + rewrite Hlook, Etb. vm_compute. reflexivity.
      + rewrite Hlook, Hn1. vm_compute. reflexivity.
      + intros _. vm_compute. reflexivity. }
  rewrite E1.
  set (s10 := create_index "idx_profile_runs_profile_id" s9).
  assert (Ht10 : tables s10 = tables s9)
    by apply DbManagerExtra.create_index_tables.
  assert (Hi10 : existsb (String.eqb "idx_profile_performance_profile_date")
                         (indexes s10)
                 = existsb (String.eqb "idx_profile_performance_profile_date")
                           (indexes s)).
  { subst s10. unfold create_index.
    destruct (existsb (String.eqb "idx_profile_runs_profile_id") (indexes s9));
      [now rewrite Hi9|].
    cbn [indexes]. rewrite existsb_app, Hi9. cbn [existsb].
    change (String.eqb "idx_profile_performance_profile_date"
                       "idx_profile_runs_profile_id") with false.
    now rewrite !orb_false_r. }
  assert (E2 : execute_statement
                 (Create_index "idx_profile_performance_profile_date"
                    "profile_performance" ["profile_id"; "date"]) s10
               = Some (create_index "idx_profile_performance_profile_date" s10)).
  { unfold index_ready in Hr2.
    destruct (tables s !! "profile_performance") as [tb|] eqn:Etb.
    - apply (create_index_accepted _ _ _ _ tb).
      + now rewrite Ht10, Hlook, Etb.
      + rewrite Ht10, Hlook, Hn2. vm_compute. reflexivity.
      + rewrite Hi10. intros Hex. now rewrite Hex in Hr2.
    - apply (create_index_accepted _ _ _ _ (screener_performance_sql sqlite)).
      + rewrite Ht10, Hlook, Etb. vm_compute. reflexivity.
      + rewrite Ht10, Hlook, Hn2. vm_compute. reflexivity.
      + intros _. vm_compute. reflexivity. }
  cbv iota beta. rewrite run_statements_cons, E2. cbn [run_statements].
  subst s10 s9.
  unfold init_schema, _create_screener_tables, _create_youtube_strategy_tables,
    _create_trading_tables. reflexivity.
Qed.

(** X19. On SQLite, [init_schema] never alters or drops a table the store
    already has, whether it returns or raises, and a table it adds is the
    one the repository defines.  When it returns, a table the store lacked
    has been created as on an empty store.  It returns whenever no index
    bears the name of a table it has to create, no table bears the name of
    one of its two indexes, and each of the two indexes exists already or is
    on a table that, if the store had it, has the indexed columns.  On a
    store whose profile_runs table lacks the profile_id column it raises at
    the first CREATE INDEX, after having created the missing tables. *)
Theorem init_schema_adds_missing_tables_only (s : schema) (name : string) :
  let r := run_init_schema s in
  (forall existing,
      tables s !! name = Some existing ->
      tables (snd r) !! name = Some existing)
  /\ (tables s !! name = None ->
      tables (snd r) !! name = None
      \/ tables (snd r) !! name
         = tables (init_schema sqlite empty_store) !! name)
  /\ (fst r = true ->
      tables (snd r) !! name
      = match tables s !! name with
        | Some existing => Some existing
        | None => tables (init_schema sqlite empty_store) !! name
        end)
  /\ (names_free s ->
      index_ready s "idx_profile_runs_profile_id" "profile_runs"
        ["profile_id"] = true ->
      index_ready s "idx_profile_performance_profile_date"
        "profile_performance" ["profile_id"; "date"] = true ->
      r = (true, init_schema sqlite s))
  /\ fst (run_init_schema legacy_runs_store) = false
  /\ tables (snd (run_init_schema legacy_runs_store)) !! "account"%string
     = Some (account_sql sqlite)
  /\ indexes (snd (run_init_schema legacy_runs_store)) = [].
Proof.
  cbv zeta. unfold run_init_schema.
  split; [|split; [|split; [|split]]].
  - intros existing H.
    destruct (run_statements_tables init_schema_statements name s)
      as [E | (Hnone & _)]; congruence.
  - intros H.
    destruct (run_statements_tables init_schema_statements name s)
      as [E | (_ & d & Hin & Hd)].
    + left. congruence.
    + right. rewrite Hd. symmetry.
      now apply created_table_is_the_repository's.
  - destruct (run_statements init_schema_statements s) as [ok s'] eqn:E.
    cbn [fst snd]. intros ->.
    apply run_statements_applies in E. rewrite <- init_schema_as_statements in E.
    subst s'. rewrite DbManagerExtra.init_schema_tables, lookup_union.
    destruct (tables s !! name);
      now destruct (tables (init_schema sqlite empty_store) !! name).
  - apply init_schema_returns.
  - repeat split; vm_compute; reflexivity.
Qed.

End DbManagerSqliteExtra.

(** ** migrate_orchestrator_db.py and migrate_to_postgres.py *)

Module MigrationExtra.
Import DbManager MigrateOrchestratorDb MigrateToPostgres.

(** Table [tbl] of the schema has a column [col] (false when the table does
    not exist). *)
Definition has (s : schema) (tbl col : string) : bool :=
  existsb (String.eqb col) (columns_of s tbl).

(** The columns the orchestrator migration adds, as (table, column). *)
Definition orchestrator_columns : list (string * string) :=
  [ ("orders", "strategy"); ("orders", "reason"); ("account", "total_value");
    ("positions", "current_price"); ("positions", "strategy");
    ("positions", "classification"); ("positions", "profit_target") ].

Definition listed (cols : list (string * string)) (tbl col : string) : bool :=
  existsb (fun tc => String.eqb tbl (fst tc) && String.eqb col (snd tc)) cols.

(** The base SQLite schema, and the same after the orchestrator migration. *)
Definition base_store : schema := init_schema sqlite empty_store.

Definition migrated_store : schema := snd (migrate_database base_store).

Lemma has_table (s : schema) (tbl col : string) :
  has s tbl col = true -> is_Some (tables s !! tbl).
Proof.
  unfold has, columns_of. destruct (tables s !! tbl); [eauto|discriminate].
Qed.

Lemma add_or_skip_has (tbl col decl : string) (s s' : schema) :
  add_or_skip tbl col decl s = Some s' ->
  forall t c, has s' t c = has s t c || (String.eqb t tbl && String.eqb c col).
Proof.
  unfold add_or_skip, add_column.
  destruct (tables s !! tbl) as [tb|] eqn:E; [|discriminate].
  destruct (existsb (String.eqb col) (column_names tb)) eqn:Ex.
  - intros [= <-] t c.
    destruct (String.eqb_spec t tbl) as [->|_];
      [|now rewrite andb_false_l, orb_false_r].
    destruct (String.eqb_spec c col) as [->|_];
      [|now rewrite andb_false_r, orb_false_r].
    unfold has, columns_of. now rewrite E, Ex.
  - intros [= <-] t c. unfold has, columns_of. cbn [tables].
    destruct (String.eqb_spec t tbl) as [->|Hne].
    + rewrite lookup_insert_eq, E. unfold column_names. cbn [columns].
      rewrite map_app, existsb_app. cbn [map fst existsb].
      now rewrite orb_false_r, andb_true_l.
    + rewrite lookup_insert_ne by congruence.
      now rewrite andb_false_l, orb_false_r.
Qed.

Lemma add_or_skip_present (tbl col decl : string) (s : schema) :
  has s tbl col = true -> add_or_skip tbl col decl s = Some s.
Proof.
  unfold has, columns_of, add_or_skip, add_column.
  destruct (tables s !! tbl) as [tb|]; [|discriminate].
  now intros ->.
Qed.

Lemma add_or_skip_table (tbl col decl : string) (s : schema) :
  is_Some (add_or_skip tbl col decl s) <-> is_Some (tables s !! tbl).
Proof.
  unfold add_or_skip, add_column.
  destruct (tables s !! tbl) as [tb|].
  - destruct (existsb _ _); split; eauto.
  - split; intros [x Hx]; discriminate.
Qed.

Lemma update_rows_inv (tbl : string) (cols : list string) (s s' : schema) :
  update_rows tbl cols s = Some s' ->
  s' = s /\ forallb (has s tbl) cols = true.
Proof.
  unfold update_rows, has.
  destruct (forallb _ cols) eqn:E; [|discriminate]. now intros [= <-].
Qed.

Lemma update_rows_present (tbl : string) (cols : list string) (s : schema) :
  forallb (has s tbl) cols = true -> update_rows tbl cols s = Some s.
Proof. unfold update_rows, has. now intros ->. Qed.

(** What a migration that went through has found and done. *)
Lemma migrate_inv (s s' : schema) :
  migrate_database s = (true, s') ->
  is_Some (tables s !! "orders")
  /\ has s "positions" "entry_price" = true
  /\ has s "account" "cash" = true
  /\ forall t c, has s' t c = has s t c || listed orchestrator_columns t c.
Proof.
  unfold migrate_database, migration_steps. cbn [run_steps].
  destruct (add_or_skip "orders" "strategy" "TEXT" s) as [s1|] eqn:E1; cbn [run_steps];
    [|discriminate].
  destruct (add_or_skip "orders" "reason" "TEXT" s1) as [s2|] eqn:E2; cbn [run_steps];
    [|discriminate].
  destruct (add_or_skip "account" "total_value" "REAL DEFAULT 0" s2)
    as [s3|] eqn:E3; cbn [run_steps];
    [|discriminate].
  destruct (add_or_skip "positions" "current_price" "REAL DEFAULT 0" s3)
    as [s4|] eqn:E4; cbn [run_steps];
    [|discriminate].
  destruct (update_rows "positions" ["current_price"; "entry_price"] s4)
    as [s5|] eqn:E5; cbn [run_steps];
    [|discriminate].
  destruct (update_rows "account" ["total_value"; "cash"] s5)
    as [s6|] eqn:E6; cbn [run_steps];
    [|discriminate].
  destruct (add_or_skip "positions" "strategy" "TEXT" s6) as [s7|] eqn:E7; cbn [run_steps];
    [|discriminate].
  destruct (add_or_skip "positions" "classification" "TEXT" s7)
    as [s8|] eqn:E8; cbn [run_steps];
    [|discriminate].
  destruct (add_or_skip "positions" "profit_target" "REAL DEFAULT 0" s8)
    as [s9|] eqn:E9; cbn [run_steps];
    [|discriminate].
  intros [= <-].
  apply update_rows_inv in E5 as [-> H5], E6 as [-> H6].
  pose proof (add_or_skip_has _ _ _ _ _ E1) as A1.
  pose proof (add_or_skip_has _ _ _ _ _ E2) as A2.
  pose proof (add_or_skip_has _ _ _ _ _ E3) as A3.
  pose proof (add_or_skip_has _ _ _ _ _ E4) as A4.
  pose proof (add_or_skip_has _ _ _ _ _ E7) as A7.
  pose proof (add_or_skip_has _ _ _ _ _ E8) as A8.
  pose proof (add_or_skip_has _ _ _ _ _ E9) as A9.
  split; [apply (add_or_skip_table "orders" "strategy" "TEXT"); rewrite E1; eauto|].
  cbn [forallb] in H5, H6.
  rewrite !andb_true_iff in H5, H6.
  destruct H5 as (_ & H5 & _), H6 as (_ & H6 & _).
  rewrite A4, A3, A2, A1 in H5, H6.
  split; [|split].
  - revert H5. simpl. now rewrite !orb_false_r.
  - revert H6. simpl. now rewrite !orb_false_r.
  - intros t c. rewrite A9, A8, A7, A4, A3, A2, A1.
    unfold listed, orchestrator_columns. cbn [existsb fst snd].
    now rewrite orb_false_r, <- !orb_assoc.
Qed.

Lemma listed_In (cols : list (string * string)) (tbl col : string) :
  listed cols tbl col = true <-> In (tbl, col) cols.
Proof.
  unfold listed. rewrite existsb_exists. split.
  - intros ([t c] & Hin & H). cbn [fst snd] in H.
    apply andb_true_iff in H as [Ht Hc].
    apply String.eqb_eq in Ht, Hc. now subst.
  - intros Hin. exists (tbl, col). split; [exact Hin|].
    cbn [fst snd]. now rewrite !String.eqb_refl.
Qed.

(** On a schema that has every column the migration adds or reads, each
    statement is skipped or changes no column. *)
Lemma migrate_fixed (s : schema) :
  (forall t c, listed orchestrator_columns t c = true -> has s t c = true) ->
  has s "positions" "entry_price" = true ->
  has s "account" "cash" = true ->
  migrate_database s = (true, s).
Proof.
  intros Hall He Hc.
  unfold migrate_database, migration_steps. cbn [run_steps].
  rewrite (add_or_skip_present "orders" "strategy") by now apply Hall.
  cbn [run_steps].
  rewrite (add_or_skip_present "orders" "reason") by now apply Hall.
  cbn [run_steps].
  rewrite (add_or_skip_present "account" "total_value") by now apply Hall.
  cbn [run_steps].
  rewrite (add_or_skip_present "positions" "current_price") by now apply Hall.
  cbn [run_steps].
  rewrite (update_rows_present "positions")
    by (cbn [forallb]; rewrite He, (Hall "positions" "current_price");
        reflexivity).
  cbn [run_steps].
  rewrite (update_rows_present "account")
    by (cbn [forallb]; rewrite Hc, (Hall "account" "total_value");
        reflexivity).
  cbn [run_steps].
  rewrite (add_or_skip_present "positions" "strategy") by now apply Hall.
  cbn [run_steps].
  rewrite (add_or_skip_present "positions" "classification") by now apply Hall.
  cbn [run_steps].
  rewrite (add_or_skip_present "positions" "profit_target") by now apply Hall.
  reflexivity.
Qed.

Lemma add_or_skip_goes_on (tbl col decl known : string) (s : schema) :
  has s tbl known = true ->
  exists s', add_or_skip tbl col decl s = Some s'.
Proof.
  intros H. apply has_table in H.
  apply (add_or_skip_table tbl col decl) in H. destruct H as [s' H]. eauto.
Qed.

Lemma add_or_skip_keeps (tbl col decl : string) (s s' : schema) (t c : string) :
  add_or_skip tbl col decl s = Some s' ->
  has s t c = true -> has s' t c = true.
Proof.
  intros E H. rewrite (add_or_skip_has _ _ _ _ _ E), H. reflexivity.
Qed.

Lemma add_or_skip_added (tbl col decl : string) (s s' : schema) :
  add_or_skip tbl col decl s = Some s' -> has s' tbl col = true.
Proof.
  intros E. rewrite (add_or_skip_has _ _ _ _ _ E), !String.eqb_refl.
  apply orb_true_r.
Qed.

Lemma migrate_goes_through (s : schema) :
  is_Some (tables s !! "orders") ->
  has s "positions" "entry_price" = true ->
  has s "account" "cash" = true ->
  exists s', migrate_database s = (true, s').
Proof.
  intros Ho He Hc.
  unfold migrate_database, migration_steps. cbn [run_steps].
  apply (add_or_skip_table "orders" "strategy" "TEXT") in Ho as [s1 E1].
  rewrite E1. cbn [run_steps].
  destruct (add_or_skip_goes_on "orders" "reason" "TEXT" "strategy" s1)
    as [s2 E2]; [now apply (add_or_skip_added _ _ _ _ _ E1)|].
  rewrite E2. cbn [run_steps].
  assert (Hc2 : has s2 "account" "cash" = true)
    by eauto using add_or_skip_keeps.
  assert (He2 : has s2 "positions" "entry_price" = true)
    by eauto using add_or_skip_keeps.
  destruct (add_or_skip_goes_on "account" "total_value" "REAL DEFAULT 0"
              "cash" s2 Hc2) as [s3 E3].
  rewrite E3. cbn [run_steps].
  assert (He3 : has s3 "positions" "entry_price" = true)
    by eauto using add_or_skip_keeps.
  destruct (add_or_skip_goes_on "positions" "current_price" "REAL DEFAULT 0"
              "entry_price" s3 He3) as [s4 E4].
  rewrite E4. cbn [run_steps].
  assert (He4 : has s4 "positions" "entry_price" = true)
    by eauto using add_or_skip_keeps.
  rewrite (update_rows_present "positions")
    by (cbn [forallb]; rewrite He4, (add_or_skip_added _ _ _ _ _ E4);
        reflexivity).
  cbn [run_steps].
  rewrite (update_rows_present "account")
    by (cbn [forallb];
        rewrite (add_or_skip_keeps _ _ _ _ _ _ _ E4
                   (add_or_skip_added _ _ _ _ _ E3)),
                (add_or_skip_keeps _ _ _ _ _ _ _ E4
                   (add_or_skip_keeps _ _ _ _ _ _ _ E3 Hc2));
        reflexivity).
  cbn [run_steps].
  destruct (add_or_skip_goes_on "positions" "strategy" "TEXT"
              "entry_price" s4 He4) as [s7 E7].
  rewrite E7. cbn [run_steps].
  destruct (add_or_skip_goes_on "positions" "classification" "TEXT"
              "strategy" s7) as [s8 E8];
    [now apply (add_or_skip_added _ _ _ _ _ E7)|].
  rewrite E8. cbn [run_steps].
  destruct (add_or_skip_goes_on "positions" "profit_target" "REAL DEFAULT 0"
              "classification" s8) as [s9 E9];
    [now apply (add_or_skip_added _ _ _ _ _ E8)|].
  rewrite E9. eauto.
Qed.

(** X21. After a migration that went through, a table has a column exactly
    when it had it before or the column is one of the seven the migration
    adds: no column is dropped, and nothing else is added. *)
Theorem migration_adds_the_orchestrator_columns_only
    (s s' : schema) (tbl col : string) :
  migrate_database s = (true, s') ->
  has s' tbl col = true
  <-> has s tbl col = true \/ In (tbl, col) orchestrator_columns.
Proof.
  intros H. apply migrate_inv in H as (_ & _ & _ & H).
  rewrite H, orb_true_iff, listed_In. reflexivity.
Qed.

Lemma migration_adds_the_orchestrator_columns_only_witness :
  has migrated_store "account" "total_value" = true
  <-> has base_store "account" "total_value" = true
      \/ In ("account"%string, "total_value"%string) orchestrator_columns.
Proof.
  apply (migration_adds_the_orchestrator_columns_only base_store migrated_store).
  vm_compute. reflexivity.
Defined.

(** X22. The migration can be run again: on the schema a successful run
    leaves behind, a second run succeeds and changes nothing. *)
Theorem migration_is_idempotent (s s' : schema) :
  migrate_database s = (true, s') ->
  migrate_database s' = (true, s').
Proof.
  intros H. apply migrate_inv in H as (_ & He & Hc & H).
  apply migrate_fixed.
  - intros t c Hl. rewrite H, Hl. apply orb_true_r.
  - rewrite H, He. reflexivity.
  - rewrite H, Hc. reflexivity.
Qed.

Lemma migration_is_idempotent_witness :
  migrate_database migrated_store = (true, migrated_store).
Proof.
  apply (migration_is_idempotent base_store migrated_store).
  vm_compute. reflexivity.
Defined.

(** X23. The migration goes through exactly when the store has an orders
    table, a positions table with an entry_price column and an account table
    with a cash column; on any other store it reports failure. *)
Theorem migration_succeeds_iff_base_tables_exist (s : schema) :
  fst (migrate_database s) = true
  <-> is_Some (tables s !! "orders")
      /\ has s "positions" "entry_price" = true
      /\ has s "account" "cash" = true.
Proof.
  split.
  - destruct (migrate_database s) as [[|] s'] eqn:E; [|discriminate].
    intros _. apply migrate_inv in E as (Ho & He & Hc & _). auto.
  - intros (Ho & He & Hc).
    destruct (migrate_goes_through s Ho He Hc) as [s' ->]. reflexivity.
Qed.

(** *** The PostgreSQL schema phase *)

Lemma add_column_if_not_exists_keeps (s : schema) (stmt : string * string * string)
    (t c : string) :
  has s t c = true -> has (add_column_if_not_exists s stmt) t c = true.
Proof.
  destruct stmt as [[tbl col] decl]. unfold add_column_if_not_exists.
  destruct (tables s !! tbl) as [tb|] eqn:E; [|auto].
  destruct (existsb (String.eqb col) (column_names tb)) eqn:Ex; [auto|].
  unfold has, columns_of. cbn [tables].
  destruct (String.eqb_spec t tbl) as [->|Hne].
  - rewrite lookup_insert_eq, E. unfold column_names. cbn [columns].
    rewrite map_app, existsb_app. now intros ->.
  - now rewrite lookup_insert_ne by congruence.
Qed.

Lemma add_column_if_not_exists_table (s : schema)
    (stmt : string * string * string) (t : string) :
  is_Some (tables s !! t) ->
  is_Some (tables (add_column_if_not_exists s stmt) !! t).
Proof.
  destruct stmt as [[tbl col] decl]. unfold add_column_if_not_exists.
  destruct (tables s !! tbl) as [tb|] eqn:E; [|auto].
  destruct (existsb (String.eqb col) (column_names tb)); [auto|].
  cbn [tables]. intros H.
  destruct (String.eqb_spec t tbl) as [->|Hne].
  - rewrite lookup_insert_eq. eauto.
  - now rewrite lookup_insert_ne by congruence.
Qed.

Lemma add_column_if_not_exists_added (s : schema) (tbl col decl : string) :
  is_Some (tables s !! tbl) ->
  has (add_column_if_not_exists s (tbl, col, decl)) tbl col = true.
Proof.
  intros [tb E]. unfold add_column_if_not_exists. rewrite E.
  destruct (existsb (String.eqb col) (column_names tb)) eqn:Ex.
  - unfold has, columns_of. now rewrite E.
  - unfold has, columns_of. cbn [tables]. rewrite lookup_insert_eq.
    unfold column_names. cbn [columns].
    rewrite map_app, existsb_app. cbn [map fst existsb].
    rewrite String.eqb_refl. now rewrite orb_true_r.
Qed.

Lemma alter_loop_keeps (stmts : list (string * string * string)) :
  forall s t c,
  has s t c = true ->
  has (fold_left add_column_if_not_exists stmts s) t c = true.
Proof.
  induction stmts as [|stmt stmts IH]; intros s t c H; cbn [fold_left];
    [exact H|].
  now apply IH, add_column_if_not_exists_keeps.
Qed.

Lemma alter_loop_adds (stmts : list (string * string * string))
    (tbl col decl : string) :
  forall s,
  In (tbl, col, decl) stmts ->
  is_Some (tables s !! tbl) ->
  has (fold_left add_column_if_not_exists stmts s) tbl col = true.
Proof.
  induction stmts as [|stmt stmts IH]; intros s Hin Ht; [destruct Hin|].
  cbn [fold_left]. destruct Hin as [->|Hin].
  - now apply alter_loop_keeps, add_column_if_not_exists_added.
  - apply IH; [exact Hin|]. now apply add_column_if_not_exists_table.
Qed.

Lemma index_loop_tables (names : list string) :
  forall s, tables (fold_left (fun s i => create_index i s) names s) = tables s.
Proof.
  induction names as [|i names IH]; intros s; cbn [fold_left]; [reflexivity|].
  rewrite IH. apply DbManagerExtra.create_index_tables.
Qed.

Lemma init_schema_keeps_table (t : db_type) (s : schema) (name : string)
    (tb : table) :
  tables s !! name = Some tb -> tables (init_schema t s) !! name = Some tb.
Proof.
  intros H. rewrite DbManagerExtra.init_schema_tables.
  now apply lookup_union_Some_l.
Qed.

Lemma init_schema_creates (t : db_type) (s : schema) (name : string) :
  is_Some (tables (init_schema t empty_store) !! name) ->
  is_Some (tables (init_schema t s) !! name).
Proof.
  intros H. rewrite DbManagerExtra.init_schema_tables.
  apply lookup_union_is_Some. now right.
Qed.

(** A store built from the repository's own tables: every table is one
    [init_schema] creates, with the columns it declares first and its
    constraints, possibly followed by columns added later; every index is
    one the schema phase creates.  The empty store is one, and so is any
    store the phase has been run on.  On such a store every statement of
    the phase is accepted: the foreign keys of a table to create find the
    key they refer to, and the indexed columns exist. *)
Definition repository_store (s : schema) : Prop :=
  (forall name tb,
      tables s !! name = Some tb ->
      exists base extra,
        tables (init_schema postgresql empty_store) !! name = Some base
        /\ columns tb = columns base ++ extra
        /\ constraints tb = constraints base)
  /\ (forall i, In i (indexes s) ->
                In i (indexes (create_postgres_schema empty_store))).

Lemma create_index_indexes (name : string) (s : schema) (i : string) :
  In i (indexes (create_index name s)) -> i = name \/ In i (indexes s).
Proof.
  unfold create_index. destruct (existsb _ _); [now right|].
  cbn [indexes]. rewrite in_app_iff. cbn [In]. intuition.
Qed.

Lemma init_schema_repository_store (s : schema) :
  repository_store s -> repository_store (init_schema postgresql s).
Proof.
  intros [Ht Hi]. split.
  - intros name tb. rewrite DbManagerExtra.init_schema_tables.
    intros H. apply lookup_union_Some_raw in H as [H | [_ H]].
    + exact (Ht name tb H).
    + exists tb, []. rewrite app_nil_r. now repeat split.
  - intros i. unfold init_schema, _create_screener_tables.
    intros H.
    apply create_index_indexes in H as [-> | H];
      [vm_compute; tauto|].
    apply create_index_indexes in H as [-> | H];
      [vm_compute; tauto|].
    rewrite !DbManagerExtra.create_table_indexes in H.
    unfold _create_youtube_strategy_tables, _create_trading_tables in H.
    rewrite !DbManagerExtra.create_table_indexes in H. now apply Hi.
Qed.

Lemma add_column_repository_store (s : schema)
    (stmt : string * string * string) :
  repository_store s -> repository_store (add_column_if_not_exists s stmt).
Proof.
  destruct stmt as [[tbl col] decl]. intros [Ht Hi].
  unfold add_column_if_not_exists.
  destruct (tables s !! tbl) as [t0|] eqn:E; [|now split].
  destruct (existsb (String.eqb col) (column_names t0)); [now split|].
  split; [|exact Hi]. cbn [tables]. intros name tb.
  destruct (String.eqb_spec name tbl) as [->|Hne].
  - rewrite lookup_insert_eq. intros [= <-].
    destruct (Ht tbl t0 E) as (base & extra & Hb & Hc & Hk).
    exists base, (extra ++ [(col, decl)]). cbn [columns constraints].
    rewrite Hc, <- app_assoc. now repeat split.
  - rewrite lookup_insert_ne by congruence. apply Ht.
Qed.

Lemma alter_loop_repository_store (stmts : list (string * string * string)) :
  forall s,
    repository_store s ->
    repository_store (fold_left add_column_if_not_exists stmts s).
Proof.
  induction stmts as [|stmt stmts IH]; intros s H; cbn [fold_left];
    [exact H|].
  now apply IH, add_column_repository_store.
Qed.

Lemma index_loop_indexes (names : list string) (i : string) :
  forall s,
    In i (indexes (fold_left (fun s i => create_index i s) names s)) ->
    In i names \/ In i (indexes s).
Proof.
  induction names as [|n names IH]; intros s; cbn [fold_left]; [now right|].
  intros H. apply IH in H as [H | H]; [left; now right|].
  apply create_index_indexes in H as [-> | H]; [left; now left | now right].
Qed.

(** X24. On a PostgreSQL store built from the repository's own tables (the
    empty store, or tables [init_schema] created, with or without columns
    added since), [create_postgres_schema] leaves the account, orders and
    positions tables with every column of its ALTER statements
    (total_value, strategy, reason, current_price, classification,
    profit_target, stop_loss), keeps each column a table had, and leaves a
    store of the same kind, on which the phase can be run again. *)
Theorem postgres_schema_phase_completes_repository_stores (s : schema) :
  repository_store s ->
  (forall tbl col decl,
      In (tbl, col, decl) alter_statements ->
      has (create_postgres_schema s) tbl col = true)
  /\ (forall tbl col,
         has s tbl col = true -> has (create_postgres_schema s) tbl col = true)
  /\ repository_store (create_postgres_schema s).
Proof.
  intros Hrepo.
  assert (Hhas : forall s1 s2 tbl col,
             tables s1 = tables s2 -> has s1 tbl col = has s2 tbl col).
  { intros s1 s2 tbl col E. unfold has, columns_of. now rewrite E. }
  split; [|split].
  - intros tbl col decl Hin. unfold create_postgres_schema. cbv zeta.
    rewrite (Hhas _ _ _ _ (index_loop_tables index_names _)).
    apply (alter_loop_adds _ _ _ decl); [exact Hin|].
    apply init_schema_creates.
    cbn [alter_statements In] in Hin.
    repeat (destruct Hin as [[= <- <- <-]|Hin];
            [vm_compute; eauto|]).
    destruct Hin.
  - intros tbl col H. unfold create_postgres_schema. cbv zeta.
    rewrite (Hhas _ _ _ _ (index_loop_tables index_names _)).
    apply alter_loop_keeps.
    unfold has, columns_of in *.
    destruct (tables s !! tbl) as [tb|] eqn:E; [|discriminate].
    now rewrite (init_schema_keeps_table _ _ _ _ E).
  - unfold create_postgres_schema. cbv zeta.
    pose proof (alter_loop_repository_store alter_statements _
                  (init_schema_repository_store s Hrepo)) as [Ht Hi].
    split.
    + intros name tb. rewrite index_loop_tables. apply Ht.
    + intros i H. apply index_loop_indexes in H as [H | H].
      * revert H. unfold index_names. cbn [In].
        intros H. repeat (destruct H as [<- | H]; [vm_compute; tauto|]).
        destruct H.
      * exact (Hi i H).
Qed.

Lemma postgres_schema_phase_completes_repository_stores_witness :
  (forall tbl col decl,
      In (tbl, col, decl) alter_statements ->
      has (create_postgres_schema empty_store) tbl col = true)
  /\ (forall tbl col,
         has empty_store tbl col = true ->
         has (create_postgres_schema empty_store) tbl col = true)
  /\ repository_store (create_postgres_schema empty_store).
Proof.
  apply (postgres_schema_phase_completes_repository_stores empty_store).
  split.
  - intros name tb H.
    change (tables empty_store) with (∅ : gmap string table) in H.
    rewrite lookup_empty in H. discriminate H.
  - intros i H. destruct H.
Defined.

End MigrationExtra.

(** ** db_manager.py: placeholders and the initial account *)

Module DbManagerExecuteExtra.
Import DbManager DbManagerExecute.

(** The text holds the two characters [%s] somewhere. *)
Fixpoint has_placeholder (q : string) : bool :=
  match q with
  | EmptyString => false
  | String c rest =>
      (Ascii.eqb c "%"
       && match rest with
          | String c2 _ => Ascii.eqb c2 "s"
          | EmptyString => false
          end)
      || has_placeholder rest
  end.

Definition starts_with_s (q : string) : bool :=
  match q with
  | String c _ => Ascii.eqb c "s"
  | EmptyString => false
  end.

Lemma replace_placeholders_cons (c : ascii) (rest : string) :
  replace_placeholders (String c rest)
  = if Ascii.eqb c "%" then
      match rest with
      | String c2 rest2 =>
          if Ascii.eqb c2 "s" then String "?" (replace_placeholders rest2)
          else String c (replace_placeholders rest)
      | EmptyString => String c EmptyString
      end
    else String c (replace_placeholders rest).
Proof.
  destruct c as [[] [] [] [] [] [] [] []]; try reflexivity.
  destruct rest as [|c2 rest2]; [reflexivity|].
  destruct c2 as [[] [] [] [] [] [] [] []]; reflexivity.
Qed.

Lemma replace_starts_with_s (q : string) :
  starts_with_s (replace_placeholders q) = true -> starts_with_s q = true.
Proof.
  destruct q as [|c rest]; [discriminate|].
  rewrite replace_placeholders_cons.
  destruct (Ascii.eqb c "%") eqn:E.
  - apply Ascii.eqb_eq in E. subst c.
    destruct rest as [|c2 rest2]; [discriminate|].
    destruct (Ascii.eqb c2 "s"); discriminate.
  - cbn [starts_with_s]. auto.
Qed.

Lemma replace_leaves_none (n : nat) :
  forall q, (String.length q <= n)%nat ->
            has_placeholder (replace_placeholders q) = false.
Proof.
  induction n as [|n IH]; intros q Hn.
  - destruct q; [reflexivity|cbn in Hn; lia].
  - destruct q as [|c rest]; [reflexivity|].
    cbn [String.length] in Hn.
    rewrite replace_placeholders_cons.
    destruct (Ascii.eqb c "%") eqn:E.
    + destruct rest as [|c2 rest2]; [cbn; now rewrite E|].
      cbn [String.length] in Hn.
      destruct (Ascii.eqb c2 "s") eqn:E2.
      * cbn [has_placeholder]. rewrite (IH rest2) by lia.
        now rewrite orb_false_r.
      * cbn [has_placeholder]. rewrite (IH (String c2 rest2))
          by (cbn [String.length]; lia).
        rewrite orb_false_r, E, andb_true_l.
        destruct (replace_placeholders (String c2 rest2)) as [|d rest'] eqn:R;
          [reflexivity|].
        destruct (Ascii.eqb d "s") eqn:Ed; [|reflexivity].
        assert (H : starts_with_s (replace_placeholders (String c2 rest2)) = true)
          by (rewrite R; exact Ed).
        apply replace_starts_with_s in H. cbn [starts_with_s] in H. congruence.
    + cbn [has_placeholder]. rewrite E, andb_false_l, orb_false_l.
      apply IH. lia.
Qed.

Lemma replace_without_placeholder (q : string) :
  has_placeholder q = false -> replace_placeholders q = q.
Proof.
  induction q as [|c rest IH]; [reflexivity|].
  cbn [has_placeholder]. intros H. apply orb_false_iff in H as [H1 H2].
  rewrite replace_placeholders_cons, (IH H2).
  destruct (Ascii.eqb c "%"); [|reflexivity].
  destruct rest as [|c2 rest2]; [reflexivity|].
  rewrite andb_true_l in H1. now rewrite H1.
Qed.

Lemma has_placeholder_occurrence (pre post : string) :
  has_placeholder (pre ++ "%s" ++ post) = true.
Proof.
  induction pre as [|c pre IH]; [reflexivity|].
  change (has_placeholder (String c (pre ++ "%s" ++ post)) = true).
  cbn [has_placeholder]. rewrite IH. apply orb_true_r.
Qed.

Lemma has_placeholder_split (q : string) :
  has_placeholder q = true -> exists pre post, q = (pre ++ "%s" ++ post)%string.
Proof.
  induction q as [|c rest IH]; [discriminate|].
  cbn [has_placeholder]. intros H. apply orb_true_iff in H as [H|H].
  - apply andb_true_iff in H as [Hc Hs]. apply Ascii.eqb_eq in Hc. subst c.
    destruct rest as [|c2 rest2]; [discriminate|].
    apply Ascii.eqb_eq in Hs. subst c2. now exists EmptyString, rest2.
  - destruct (IH H) as (pre & post & ->). now exists (String c pre), post.
Qed.

(** X25. On SQLite the statement [execute] hands to the driver holds no
    [%s] any more, wherever the query had them; a query without [%s] is
    handed over as it is, and on PostgreSQL every query is. *)
Theorem sqlite_statement_has_no_percent_s (query : string) :
  (forall pre post, prepare sqlite query <> (pre ++ "%s" ++ post)%string)
  /\ ((forall pre post, query <> (pre ++ "%s" ++ post)%string) ->
      prepare sqlite query = query)
  /\ prepare postgresql query = query.
Proof.
  split; [|split; [|reflexivity]].
  - intros pre post E.
    pose proof (replace_leaves_none (String.length query) query (le_n _)) as H.
    unfold prepare in E. rewrite E, has_placeholder_occurrence in H.
    discriminate.
  - intros H. apply replace_without_placeholder.
    destruct (has_placeholder query) eqn:E; [|reflexivity].
    destruct (has_placeholder_split _ E) as (pre & post & ->).
    now destruct (H pre post).
Qed.

(** A store migrated for the orchestrator whose account table is empty,
    holding one priced position. *)
Definition empty_account_store : AccountBalanceUpdater.database :=
  AccountBalanceUpdater.mk_database
    ["id"; "cash"; "last_updated"; "total_value"]
    ["symbol"; "quantity"; "entry_price"; "current_price"]
    []
    [AccountBalanceUpdater.mk_position "AAPL" 10 (Some 150)].

Definition opened_account_store : AccountBalanceUpdater.database :=
  AccountBalanceUpdater.mk_database
    ["id"; "cash"; "last_updated"; "total_value"]
    ["symbol"; "quantity"; "entry_price"; "current_price"]
    [AccountBalanceUpdater.mk_account 1 10000 (Some 0) "t0"]
    [AccountBalanceUpdater.mk_position "AAPL" 10 (Some 150)].

(** X26. [init_account] opens the account once: on the store a call has
    returned, a further call, with whatever balance, changes nothing, so the
    cash of an existing account is never reset. *)
Theorem init_account_opens_the_account_once
    (db db' : AccountBalanceUpdater.database)
    (initial_balance other_balance : Q) (timestamp later : string) :
  init_account db initial_balance timestamp = Some db' ->
  init_account db' other_balance later = Some db'.
Proof.
  unfold init_account at 1.
  destruct (AccountBalanceUpdater.account db) as [|r rows] eqn:E;
    cbn [length Nat.eqb].
  - destruct (AccountBalanceUpdater.has_columns _ _); [|discriminate].
    intros [= <-]. reflexivity.
  - intros [= <-]. unfold init_account. now rewrite E.
Qed.

Lemma init_account_opens_the_account_once_witness :
  init_account opened_account_store 500 "t1" = Some opened_account_store.
Proof.
  apply (init_account_opens_the_account_once
           empty_account_store opened_account_store 10000 500 "t0" "t1").
  reflexivity.
Defined.

(** X27. On an empty account table, [init_account] inserts the row the
    balance code looks for: the calculation that follows finds account 1,
    reports the initial balance as cash and the initial balance plus the
    value of the positions as total. *)
Theorem init_account_then_calculate
    (db db' : AccountBalanceUpdater.database)
    (initial_balance : Q) (timestamp : string) (positions_value : Q) :
  AccountBalanceUpdater.account db = [] ->
  init_account db initial_balance timestamp = Some db' ->
  AccountBalanceUpdater.has_columns (AccountBalanceUpdater.positions_columns db)
    ["symbol"; "quantity"; "current_price"] = true ->
  AccountBalanceUpdater.sum_positions 0 (AccountBalanceUpdater.positions db)
  = Some positions_value ->
  fst (AccountBalanceUpdater.calculate_account_balance db')
  = Some [ ("cash", AccountBalanceUpdater.PyNum initial_balance);
           ("positions_value", AccountBalanceUpdater.PyNum positions_value);
           ("total_value",
            AccountBalanceUpdater.PyNum (initial_balance + positions_value));
           ("num_positions",
            AccountBalanceUpdater.PyNum
              (inject_Z (Z.of_nat (length (AccountBalanceUpdater.positions db))))) ]%string.
Proof.
  intros E. unfold init_account. rewrite E. cbn [length Nat.eqb app].
  destruct (AccountBalanceUpdater.has_columns
              (AccountBalanceUpdater.account_columns db)
              ["id"; "cash"; "last_updated"]) eqn:Hc; [|discriminate].
  intros [= <-] Hp Hs.
  unfold AccountBalanceUpdater.calculate_account_balance,
    AccountBalanceUpdater.account_1.
  cbn [AccountBalanceUpdater.account_columns AccountBalanceUpdater.account
       AccountBalanceUpdater.positions_columns AccountBalanceUpdater.positions
       find AccountBalanceUpdater.acc_id Z.eqb Pos.eqb].
  assert (Hc' : AccountBalanceUpdater.has_columns
                  (AccountBalanceUpdater.account_columns db) ["cash"; "id"]
                = true).
  { unfold AccountBalanceUpdater.has_columns in *. cbn [forallb] in *.
    rewrite !andb_true_iff in *. tauto. }
  rewrite Hc', Hp, Hs. reflexivity.
Qed.

Lemma init_account_then_calculate_witness :
  fst (AccountBalanceUpdater.calculate_account_balance opened_account_store)
  = Some [ ("cash", AccountBalanceUpdater.PyNum 10000);
           ("positions_value", AccountBalanceUpdater.PyNum (0 + 10 * 150));
           ("total_value",
            AccountBalanceUpdater.PyNum (10000 + (0 + 10 * 150)));
           ("num_positions",
            AccountBalanceUpdater.PyNum
              (inject_Z (Z.of_nat (length (AccountBalanceUpdater.positions
                                             empty_account_store))))) ]%string.
Proof.
  apply (init_account_then_calculate
           empty_account_store opened_account_store 10000 "t0" (0 + 10 * 150));
    reflexivity.
Defined.

End DbManagerExecuteExtra.

(** ** strategy_analytics.py: what an update stores *)

Module StrategyPerformanceExtra.
Import StrategyAnalytics StrategyPerformance.

Definition is_loss (t : trade) : bool := Qltb (pnl t) 0.
Definition is_win (t : trade) : bool := Qltb 0 (pnl t).

(** A strategy whose last five trades lost, after an earlier win. *)
Definition losing_db : analytics_db :=
  mk_analytics_db
    [ (7%Z, mk_trade "AAPL" "2024-01-01" 50);
      (7%Z, mk_trade "AAPL" "2024-01-02" (-10));
      (8%Z, mk_trade "MSFT" "2024-01-02" 30);
      (7%Z, mk_trade "AAPL" "2024-01-03" (-10));
      (7%Z, mk_trade "AAPL" "2024-01-04" (-10));
      (7%Z, mk_trade "AAPL" "2024-01-05" (-10));
      (7%Z, mk_trade "AAPL" "2024-01-06" (-10)) ]
    ∅
    (<[7%Z := 1]> ∅).

Definition losing_streak : list trade :=
  [ mk_trade "AAPL" "2024-01-02" (-10);
    mk_trade "AAPL" "2024-01-03" (-10);
    mk_trade "AAPL" "2024-01-04" (-10);
    mk_trade "AAPL" "2024-01-05" (-10);
    mk_trade "AAPL" "2024-01-06" (-10) ].

Lemma count_losses_ge (l : list trade) :
  forall acc, (acc <= count_losses acc l)%Z.
Proof.
  induction l as [|t l IH]; intros acc; cbn [count_losses]; [lia|].
  destruct (Qltb (pnl t) 0); [|lia]. specialize (IH (acc + 1)%Z). lia.
Qed.

Lemma count_losses_streak (l1 l2 : list trade) :
  Forall (fun t => pnl t < 0) l1 ->
  forall acc,
  count_losses acc (l1 ++ l2)
  = count_losses (acc + Z.of_nat (length l1)) l2.
Proof.
  induction 1 as [|t l1 Ht _ IH]; intros acc; cbn [app length count_losses].
  - f_equal. lia.
  - apply Qltb_true in Ht. rewrite Ht, IH. f_equal. lia.
Qed.

Lemma count_losses_le (l : list trade) :
  forall acc,
  (count_losses acc l <= acc + Z.of_nat (length (List.filter is_loss l)))%Z.
Proof.
  induction l as [|t l IH]; intros acc; cbn [count_losses List.filter length];
    [lia|].
  unfold is_loss at 1. destruct (Qltb (pnl t) 0).
  - specialize (IH (acc + 1)%Z). cbn [length]. lia.
  - lia.
Qed.

Lemma filter_length_rev {A : Type} (f : A -> bool) (l : list A) :
  length (List.filter f (rev l)) = length (List.filter f l).
Proof.
  induction l as [|x l IH]; [reflexivity|].
  cbn [rev List.filter]. rewrite List.filter_app, length_app, IH.
  cbn [List.filter]. destruct (f x); cbn [length]; lia.
Qed.

Lemma wins_and_losses (l : list trade) :
  (length (List.filter is_win l) + length (List.filter is_loss l)
   <= length l)%nat.
Proof.
  induction l as [|t l IH]; [reflexivity|].
  cbn [List.filter length]. unfold is_win at 1, is_loss at 1.
  destruct (Qltb 0 (pnl t)) eqn:W, (Qltb (pnl t) 0) eqn:L; cbn [length];
    try lia.
  apply Qltb_true in W, L. lra.
Qed.

Lemma fold_plus_nonneg (xs : list Q) :
  Forall (fun x => 0 <= x) xs ->
  forall acc, 0 <= acc -> 0 <= fold_left Qplus xs acc.
Proof.
  induction 1 as [|x xs Hx _ IH]; intros acc Hacc; cbn [fold_left];
    [exact Hacc|].
  apply IH. lra.
Qed.

Lemma profit_factor_nonneg (trades : list trade) :
  0 <= _calculate_profit_factor trades.
Proof.
  unfold _calculate_profit_factor.
  set (gp := py_sum (map pnl (List.filter (fun t => Qltb 0 (pnl t)) trades))).
  set (gl := Qabs _).
  assert (Hgp : 0 <= gp).
  { subst gp. unfold py_sum. apply fold_plus_nonneg; [|lra].
    apply List.Forall_forall. intros x Hx. apply in_map_iff in Hx as (t & <- & Ht).
    apply List.filter_In in Ht as [_ Ht]. apply Qltb_true in Ht. lra. }
  assert (Hgl : 0 <= gl) by (subst gl; apply Qabs_nonneg).
  destruct (Qeq_bool gl 0) eqn:E.
  - destruct (Qltb 0 gp); lra.
  - assert (Hne : ~ gl == 0).
    { intros H. apply Qeq_bool_iff in H. congruence. }
    apply Qle_shift_div_l; lra.
Qed.

Lemma update_stores (db : analytics_db) (strategy_id : Z) (now : string) :
  _get_strategy_trades db strategy_id <> [] ->
  let trades := _get_strategy_trades db strategy_id in
  let total := Z.of_nat (length trades) in
  let winning := Z.of_nat (length (List.filter is_win trades)) in
  let win_rate :=
    if (0 <? total)%Z then inject_Z winning / inject_Z total else 0 in
  update_strategy_performance db strategy_id now
  = mk_analytics_db
      (strategy_trades db)
      (<[strategy_id :=
           (mk_performance total winning
              (Z.of_nat (length (List.filter is_loss trades)))
              (_calculate_consecutive_losses trades)
              (py_sum (map pnl trades)) win_rate
              (_calculate_profit_factor trades)
              (fst (_calculate_drawdown trades))
              (snd (_calculate_drawdown trades))
              (_calculate_roi trades 10000),
            now)]> (strategy_performance db))
      (_update_performance_weight (active_strategies db) strategy_id win_rate).
Proof.
  intros Hne. cbv zeta. unfold update_strategy_performance.
  destruct (_get_strategy_trades db strategy_id) as [|t ts] eqn:E;
    [contradiction|].
  now destruct (_calculate_drawdown (t :: ts)) as [m c].
Qed.

(** X28. When the last five (or more) trades of a strategy, in timestamp
    order, all lost money, updating its performance row makes the
    optimisation check fire with the reason "5 consecutive losses",
    whatever the other metrics are. *)
Theorem losing_streak_of_five_triggers_optimization
    (format_percent format_2f : Q -> string)
    (db : analytics_db) (strategy_id : Z) (now : string)
    (earlier streak : list trade) :
  _get_strategy_trades db strategy_id = earlier ++ streak ->
  (5 <= length streak)%nat ->
  Forall (fun t => pnl t < 0) streak ->
  check_optimization_triggers format_percent format_2f
    (_get_performance (update_strategy_performance db strategy_id now)
                      strategy_id)
  = (true, "5 consecutive losses"%string).
Proof.
  intros E Hlen Hloss.
  assert (Hne : _get_strategy_trades db strategy_id <> []).
  { rewrite E. destruct streak; [cbn in Hlen; lia|]. now destruct earlier. }
  rewrite (update_stores db strategy_id now Hne).
  unfold _get_performance. cbn [strategy_performance].
  rewrite lookup_insert_eq. cbn [fst].
  unfold check_optimization_triggers. cbn [consecutive_losses].
  assert (H5 : (5 <= _calculate_consecutive_losses
                       (_get_strategy_trades db strategy_id))%Z).
  { rewrite E. unfold _calculate_consecutive_losses.
    rewrite rev_app_distr, count_losses_streak
      by (apply List.Forall_forall; intros t Ht; apply in_rev in Ht;
          revert t Ht; now apply List.Forall_forall).
    pose proof (count_losses_ge (rev earlier)
                  (0 + Z.of_nat (length (rev streak)))) as G.
    rewrite length_rev in *. lia. }
  apply Z.leb_le in H5. now rewrite H5.
Qed.

Lemma losing_streak_of_five_triggers_optimization_witness :
  check_optimization_triggers (fun _ => ""%string) (fun _ => ""%string)
    (_get_performance (update_strategy_performance losing_db 7 "now") 7)
  = (true, "5 consecutive losses"%string).
Proof.
  apply (losing_streak_of_five_triggers_optimization _ _ losing_db 7 "now"
           [mk_trade "AAPL" "2024-01-01" 50] losing_streak).
  - reflexivity.
  - cbn. lia.
  - repeat constructor.
Defined.

(** X29. After [update_strategy_performance] for a strategy that has
    trades, its row counts every trade, with winners and losers together no
    more than the total and a losing streak no longer than the number of
    losers; the win rate lies between 0 and 1 and the profit factor is not
    negative.  The rows of the other strategies are as before. *)
Theorem update_stores_consistent_metrics
    (db : analytics_db) (strategy_id : Z) (now : string) :
  _get_strategy_trades db strategy_id <> [] ->
  let db' := update_strategy_performance db strategy_id now in
  (exists perf,
      _get_performance db' strategy_id = Some perf
      /\ total_trades perf
         = Z.of_nat (length (_get_strategy_trades db strategy_id))
      /\ (0 <= winning_trades perf)%Z /\ (0 <= losing_trades perf)%Z
      /\ (winning_trades perf + losing_trades perf <= total_trades perf)%Z
      /\ (0 <= consecutive_losses perf <= losing_trades perf)%Z
      /\ 0 <= win_rate perf <= 1
      /\ 0 <= profit_factor perf)
  /\ (forall other, other <> strategy_id ->
        strategy_performance db' !! other = strategy_performance db !! other)
  /\ strategy_trades db' = strategy_trades db.
Proof.
  intros Hne. cbv zeta. rewrite (update_stores db strategy_id now Hne).
  set (trades := _get_strategy_trades db strategy_id) in *.
  cbn [strategy_performance strategy_trades].
  split; [|split; [|reflexivity]].
  - eexists. split.
    { unfold _get_performance. cbn [strategy_performance].
      rewrite lookup_insert_eq. reflexivity. }
    cbn [fst total_trades winning_trades losing_trades consecutive_losses
         win_rate profit_factor].
    pose proof (wins_and_losses trades) as WL.
    assert (Hpos : (0 < length trades)%nat)
      by (destruct trades; [contradiction|cbn; lia]).
    split; [reflexivity|]. split; [lia|]. split; [lia|]. split; [lia|].
    split.
    { unfold _calculate_consecutive_losses. split.
      - apply count_losses_ge.
      - pose proof (count_losses_le (rev trades) 0) as C.
        rewrite filter_length_rev in C. lia. }
    split; [|apply profit_factor_nonneg].
    assert (Ht : (0 <? Z.of_nat (length trades))%Z = true)
      by (apply Z.ltb_lt; lia).
    rewrite Ht.
    assert (Hq : 0 < inject_Z (Z.of_nat (length trades))).
    { change 0 with (inject_Z 0). rewrite <- Zlt_Qlt. lia. }
    split.
    + apply Qle_shift_div_l; [exact Hq|].
      rewrite Qmult_0_l. change 0 with (inject_Z 0). rewrite <- Zle_Qle. lia.
    + apply Qle_shift_div_r; [exact Hq|].
      rewrite Qmult_1_l. rewrite <- Zle_Qle. lia.
  - intros other Ho. now rewrite lookup_insert_ne.
Qed.

Lemma update_stores_consistent_metrics_witness :
  let db' := update_strategy_performance losing_db 7 "now" in
  (exists perf,
      _get_performance db' 7 = Some perf
      /\ total_trades perf
         = Z.of_nat (length (_get_strategy_trades losing_db 7))
      /\ (0 <= winning_trades perf)%Z /\ (0 <= losing_trades perf)%Z
      /\ (winning_trades perf + losing_trades perf <= total_trades perf)%Z
      /\ (0 <= consecutive_losses perf <= losing_trades perf)%Z
      /\ 0 <= win_rate perf <= 1
      /\ 0 <= profit_factor perf)
  /\ (forall other, other <> 7%Z ->
        strategy_performance db' !! other
        = strategy_performance losing_db !! other)
  /\ strategy_trades db' = strategy_trades losing_db.
Proof.
  apply (update_stores_consistent_metrics losing_db 7 "now").
  vm_compute. discriminate.
Defined.

End StrategyPerformanceExtra.

(** ** check_pnl.py against the stop-loss monitor *)

Module CheckPnlExtra.
Import CheckPnl.

(** The columns of a positions row the stop-loss monitor selects. *)
Definition monitor_view (row : position_row) : StopLossMonitor.position_row :=
  StopLossMonitor.mk_row (row_symbol row) (row_quantity row)
    (row_entry_price row) (row_stop_loss row).

Definition amd_position : position_row :=
  mk_row "AMD" 10 100 (Some 95) None None None "2024-01-01".

Definition amd_quote : StopLossMonitor.api :=
  StopLossMonitor.mk_api
    (fun _ => StopLossMonitor.Http_response 200
                [StopLossMonitor.mk_api_position "AMD" (Some 94)])
    (fun _ => StopLossMonitor.Http_response 200 tt).

(** X30. The P&L report and the stop-loss monitor agree on when a stop is
    hit: for the same positions row and the same quoted price, the report
    flags at_stop_loss exactly when a pass of the monitor acts on the
    position (a NULL, zero or negative stop is ignored by both). *)
Theorem report_flags_stop_exactly_when_monitor_acts
    (a : StopLossMonitor.api) (row : position_row) (current_price : Q) :
  StopLossMonitor.get_current_price a (row_symbol row) = Some current_price ->
  at_stop_loss (calculate_pnl (open_position row) current_price) = true
  <-> StopLossMonitor.check_stop_losses a [monitor_view row] <> [].
Proof.
  intros Hq.
  unfold calculate_pnl, open_position. cbn [at_stop_loss stop_loss].
  unfold StopLossMonitor.check_stop_losses, monitor_view.
  cbn [StopLossMonitor.get_positions_with_stop_loss
       StopLossMonitor.row_stop_loss StopLossMonitor.row_symbol
       StopLossMonitor.row_quantity StopLossMonitor.row_entry_price].
  destruct (row_stop_loss row) as [sl|]; cbn [or_zero].
  - destruct (Qltb 0 sl) eqn:Hsl.
    + assert (Hz : Qeq_bool sl 0 = false).
      { destruct (Qeq_bool sl 0) eqn:E; [|reflexivity].
        apply Qeq_bool_iff in E. apply Qltb_true in Hsl. lra. }
      rewrite Hz, Hsl, andb_true_l.
      cbn [StopLossMonitor.check_positions StopLossMonitor.symbol
           StopLossMonitor.stop_loss].
      rewrite Hq.
      destruct (Qle_bool current_price sl); split; try discriminate;
        try congruence; auto.
    + destruct (Qeq_bool sl 0).
      * change (Qltb 0 0) with false. cbn. split; [discriminate|congruence].
      * rewrite Hsl. cbn. split; [discriminate|congruence].
  - change (Qltb 0 0) with false. cbn. split; [discriminate|congruence].
Qed.

Lemma report_flags_stop_exactly_when_monitor_acts_witness :
  at_stop_loss (calculate_pnl (open_position amd_position) 94) = true
  <-> StopLossMonitor.check_stop_losses amd_quote [monitor_view amd_position]
      <> [].
Proof.
  apply (report_flags_stop_exactly_when_monitor_acts amd_quote amd_position 94).
  reflexivity.
Defined.

End CheckPnlExtra.
